(** * Vegas dual-tunnel strategy: a shallow embedding of
      [internal/strategy/vegas_tunnel.go] and the properties of its
      smoothing, tunnel, signal and exit code, of the strategy manager and
      of the notification queue.

    Layout:
    - [Go]       : run-time panics as an error monad, slice indexing;
    - [Decimal]  : the part of [github.com/shopspring/decimal] v1.4.0 that the
                   strategy calls (exact [Add]/[Sub]/[Mul], [Div] rounded at
                   16 places, comparisons, [NewFromFloat]);
    - [Strategy] : the strategy itself, function by function;
    - [StrategyInfo], [Manager], [Notification] : the report of a strategy,
                   the strategy manager and the queue of the notification
                   manager, which the same file holds;
    - the properties, one section per group of functions.

    Conventions.  Go's [int] and [big.Int] are [Z]; a [float64] is a primitive
    binary64 float of Rocq, so float arithmetic is the IEEE arithmetic of the
    Go program; [time.Time] is an abstract instant numbered in [Z]; logging
    calls have no effect on the values computed and are left out. *)

From Stdlib Require Import ZArith QArith Qpower Qabs Qminmax Floats Uint63 Lia Lqa.
From stdpp Require Import base list strings gmap pretty.

Set Warnings "-inexact-float".
#[local] Open Scope Z_scope.

(* ===================================================================== *)
(** * Go run-time behaviour *)
(* ===================================================================== *)

Module Go.

(** A Go call either returns or panics (index out of range, division by
    zero, ...).  No function of the strategy recovers from a panic. *)
Inductive res (A : Type) : Type :=
| Ok (a : A)
| Panic.
Arguments Ok {A} a.
Arguments Panic {A}.

Definition bind {A B} (m : res A) (k : A -> res B) : res B :=
  match m with
  | Ok a => k a
  | Panic => Panic
  end.

Definition is_ok {A} (m : res A) : bool :=
  match m with Ok _ => true | Panic => false end.

(** [s[i]] on a slice: panics outside [0 <= i < len(s)]. *)
Definition index {A} (s : list A) (i : Z) : res A :=
  if i <? 0 then Panic
  else match s !! Z.to_nat i with
       | Some x => Ok x
       | None => Panic
       end.

(** [s[i] = x] on a slice: panics outside [0 <= i < len(s)]. *)
Definition store {A} (s : list A) (i : Z) (x : A) : res (list A) :=
  if (i <? 0) || (Z.of_nat (length s) <=? i) then Panic
  else Ok (<[Z.to_nat i := x]> s).

(** [len(s)] as a Go [int]. *)
Definition len {A} (s : list A) : Z := Z.of_nat (length s).

(** The largest [int], on the 64-bit platforms the bot is built for. *)
Definition int_max : Z := 2 ^ 63 - 1.

End Go.

Import Go.

#[global] Instance res_ret : MRet Go.res := @Go.Ok.
#[global] Instance res_bind : MBind Go.res := fun A B k m => Go.bind m k.

(* ===================================================================== *)
(** * Arbitrary-precision decimals *)
(* ===================================================================== *)

Module Decimal.

(** [type Decimal struct { value *big.Int; exp int32 }]: the number
    [value * 10^exp].  The zero value of the struct ([value == nil]) is
    read by every method as [0 * 10^0] ([ensureInitialized]); it is
    [mk 0 0] here.  The exponent is not bounded: the [int32] overflow checks
    of the library are out of reach of the strategy and are not modelled. *)
Record t : Type := mk { value : Z; exp : Z }.

Definition New (v e : Z) : t := mk v e.
Definition NewFromInt (v : Z) : t := mk v 0.

(** [var Zero = New(0, 1)]. *)
Definition Zero : t := New 0 1.

(** The zero value of the struct, what [make([]Decimal, n)] is filled with. *)
Definition zero_value : t := mk 0 0.

(** [rescale]: same number at exponent [e], exact when [e <= exp d],
    truncated ([big.Int.Quo]) otherwise. *)
Definition rescale (d : t) (e : Z) : t :=
  if exp d =? e then d
  else
    let diff := Z.abs (e - exp d) in
    let expScale := 10 ^ diff in
    if exp d <? e then mk (Z.quot (value d) expScale) e
    else mk (value d * expScale) e.

(** [RescalePair]: both numbers at the smaller of the two exponents. *)
Definition RescalePair (d1 d2 : t) : t * t :=
  if exp d1 <? exp d2 then (d1, rescale d2 (exp d1))
  else if exp d2 <? exp d1 then (rescale d1 (exp d2), d2)
  else (d1, d2).

Definition Add (d d2 : t) : t :=
  let '(rd, rd2) := RescalePair d d2 in
  mk (value rd + value rd2) (exp rd).

Definition Sub (d d2 : t) : t :=
  let '(rd, rd2) := RescalePair d d2 in
  mk (value rd - value rd2) (exp rd).

Definition Mul (d d2 : t) : t :=
  mk (value d * value d2) (exp d + exp d2).

Definition Abs (d : t) : t :=
  if value d <? 0 then mk (Z.abs (value d)) (exp d) else d.

(** [big.Int.Cmp]: -1, 0 or +1. *)
Definition big_Cmp (x y : Z) : Z :=
  match x ?= y with
  | Lt => -1
  | Eq => 0
  | Gt => 1
  end.

Definition Cmp (d d2 : t) : Z :=
  if exp d =? exp d2 then big_Cmp (value d) (value d2)
  else
    let '(rd, rd2) := RescalePair d d2 in
    big_Cmp (value rd) (value rd2).

Definition Equal (d d2 : t) : bool := Cmp d d2 =? 0.
Definition GreaterThan (d d2 : t) : bool := Cmp d d2 =? 1.
Definition GreaterThanOrEqual (d d2 : t) : bool :=
  let cmp := Cmp d d2 in (cmp =? 1) || (cmp =? 0).
Definition LessThan (d d2 : t) : bool := Cmp d d2 =? -1.
Definition LessThanOrEqual (d d2 : t) : bool :=
  let cmp := Cmp d d2 in (cmp =? -1) || (cmp =? 0).
Definition IsZero (d : t) : bool := Z.sgn (value d) =? 0.

(** [var DivisionPrecision = 16]. *)
Definition DivisionPrecision : Z := 16.

(** [QuoRem]: quotient truncated at [precision] decimal places and the
    remainder; panics on a zero divisor.  [big.Int.QuoRem] truncates towards
    zero, as [Z.quot] and [Z.rem] do. *)
Definition QuoRem (d d2 : t) (precision : Z) : res (t * t) :=
  if Z.sgn (value d2) =? 0 then Panic
  else
    let scale := - precision in
    let e := exp d - exp d2 - scale in
    let '(aa, bb, scalerest) :=
      if e <? 0 then (value d, value d2 * 10 ^ (- e), exp d)
      else (value d * 10 ^ e, value d2, scale + exp d2) in
    Ok (mk (Z.quot aa bb) scale, mk (Z.rem aa bb) scalerest).

(** [DivRound]: the quotient rounded at [precision] places, halves away
    from zero. *)
Definition DivRound (d d2 : t) (precision : Z) : res t :=
  '(q, r) ← QuoRem d d2 precision;
  let rv2 := Z.abs (value r) * 2 in
  let r2 := mk rv2 (exp r + precision) in
  let c := Cmp r2 (Abs d2) in
  if c <? 0 then Ok q
  else if Z.sgn (value d) * Z.sgn (value d2) <? 0
       then Ok (Sub q (New 1 (- precision)))
       else Ok (Add q (New 1 (- precision))).

Definition Div (d d2 : t) : res t := DivRound d d2 DivisionPrecision.

(** ** [NewFromFloat]

    The library turns a [float64] into the shortest decimal that converts
    back to the same float, with its own copy of [strconv]'s digit
    generation: the exact decimal expansion of [mant * 2^e] ([Assign] then
    [Shift]), cut by [roundShortest] as soon as it is told apart from the
    midpoints to the two neighbouring floats. *)

(** The multi-precision [decimal] of the conversion: digits (most
    significant first) and the position of the decimal point; the number is
    [0.d1d2...dn * 10^dp]. *)
Record decimal : Type := mkdec { d : list Z; dp : Z }.

Definition nd (a : decimal) : Z := Z.of_nat (length (d a)).

Fixpoint digits_aux (fuel : nat) (n : Z) (acc : list Z) : list Z :=
  match fuel with
  | O => acc
  | S fuel' =>
      if n <? 10 then n :: acc
      else digits_aux fuel' (n / 10) (n mod 10 :: acc)
  end.

Definition digits (n : Z) : list Z :=
  if n <=? 0 then [] else digits_aux (S (Z.to_nat (Z.log2 n))) n [].

Fixpoint undigits_aux (acc : Z) (ds : list Z) : Z :=
  match ds with
  | [] => acc
  | x :: ds' => undigits_aux (acc * 10 + x) ds'
  end.

Definition undigits (ds : list Z) : Z := undigits_aux 0 ds.

Fixpoint drop_zeros (ds : list Z) : list Z :=
  match ds with
  | 0 :: ds' => drop_zeros ds'
  | _ => ds
  end.

(** [trim]: no trailing zero digit; the empty number has [dp = 0]. *)
Definition trim (a : decimal) : decimal :=
  let ds := rev (drop_zeros (rev (d a))) in
  mkdec ds (match ds with [] => 0 | _ => dp a end).

(** [a.Assign(v); a.Shift(k)]: the exact expansion of [v * 2^k]. *)
Definition assign_shift (v k : Z) : decimal :=
  let n := if k <? 0 then v * 5 ^ (- k) else v * 2 ^ k in
  let ds := digits n in
  trim (mkdec ds (Z.of_nat (length ds) + (if k <? 0 then k else 0))).

Definition digit (a : decimal) (i : Z) : Z := nth (Z.to_nat i) (d a) 0.

Definition RoundDown (a : decimal) (n : Z) : decimal :=
  if (n <? 0) || (nd a <=? n) then a
  else trim (mkdec (take (Z.to_nat n) (d a)) (dp a)).

(** The loop of [RoundUp] on the kept digits, last digit first: the first
    digit below nine is incremented and the nines after it are dropped. *)
Fixpoint round_up_rev (rs : list Z) : option (list Z) :=
  match rs with
  | [] => None
  | c :: rest => if c <? 9 then Some (c + 1 :: rest) else round_up_rev rest
  end.

(** [RoundUp]: add one at digit [n-1]; a number of nines only becomes a
    single [1] one place higher. *)
Definition RoundUp (a : decimal) (n : Z) : decimal :=
  if (n <? 0) || (nd a <=? n) then a
  else
    match round_up_rev (rev (take (Z.to_nat n) (d a))) with
    | Some rs => mkdec (rev rs) (dp a)
    | None => mkdec [1] (dp a + 1)
    end.

Definition shouldRoundUp (a : decimal) (n : Z) : bool :=
  if (n <? 0) || (nd a <=? n) then false
  else if (digit a n =? 5) && (n + 1 =? nd a)
       then (0 <? n) && negb (digit a (n - 1) mod 2 =? 0)
       else 5 <=? digit a n.

Definition Round (a : decimal) (n : Z) : decimal :=
  if (n <? 0) || (nd a <=? n) then a
  else if shouldRoundUp a n then RoundUp a n else RoundDown a n.

Definition mantbits : Z := 52.
Definition bias : Z := -1023.

Fixpoint shortest_loop (steps : nat) (i : Z) (inclusive : bool)
    (lower a upper : decimal) : decimal :=
  match steps with
  | O => a
  | S steps' =>
      let l := digit lower i in
      let m := digit a i in
      let u := digit upper i in
      let okdown := negb (l =? m) || (inclusive && (i + 1 =? nd lower)) in
      let okup := negb (m =? u) &&
                  (inclusive || (m + 1 <? u) || (i + 1 <? nd upper)) in
      if okdown && okup then Round a (i + 1)
      else if okdown then RoundDown a (i + 1)
      else if okup then RoundUp a (i + 1)
      else shortest_loop steps' (i + 1) inclusive lower a upper
  end.

(** [roundShortest], for the float [mant * 2^(e - mantbits)]. *)
Definition roundShortest (a : decimal) (mant e : Z) : decimal :=
  if mant =? 0 then mkdec [] (dp a)
  else
    let minexp := bias + 1 in
    if (minexp <? e) && (100 * (e - mantbits) <=? 332 * (dp a - nd a)) then a
    else
      let upper := assign_shift (mant * 2 + 1) (e - mantbits - 1) in
      let '(mantlo, explo) :=
        if (2 ^ mantbits <? mant) || (e =? minexp) then (mant - 1, e)
        else (mant * 2 - 1, e - 1) in
      let lower := assign_shift (mantlo * 2 + 1) (explo - mantbits - 1) in
      let inclusive := mant mod 2 =? 0 in
      shortest_loop (length (d a)) 0 inclusive lower a upper.

(** [NewFromFloat]: zero gives [New(0, 0)]; NaN and the infinities panic. *)
Definition NewFromFloat (f : float) : res t :=
  match Prim2SF f with
  | S754_zero _ => Ok (New 0 0)
  | S754_infinity _ | S754_nan => Panic
  | S754_finite neg m e =>
      let mant := Z.pos m in
      let a := roundShortest (assign_shift mant e) mant (e + mantbits) in
      let v := undigits (d a) in
      if nd a <? 19
      then Ok (mk (if neg then - v else v) (dp a - nd a))
      else Ok (mk v (dp a - nd a))
  end.

(** [float64(n)] for a Go [int] of absolute value below 2^63. *)
Definition float64_of_int (n : Z) : float :=
  if n <? 0 then PrimFloat.opp (PrimFloat.of_uint63 (Uint63.of_Z (- n)))
  else PrimFloat.of_uint63 (Uint63.of_Z n).

(** The rational number a decimal stands for. *)
Definition toQ (d : t) : Q := (inject_Z (value d) * Qpower (10 # 1) (exp d))%Q.

End Decimal.

(* ===================================================================== *)
(** * The strategy *)
(* ===================================================================== *)

Module Strategy.

Import Decimal.

(** [for i := lo; i < hi; i++ { s = body(i, s) }], a panic in the body
    ending the loop. *)
Fixpoint for_range {S : Type} (n : nat) (i : Z) (body : Z -> S -> res S)
    (s : S) : res S :=
  match n with
  | O => Ok s
  | S n' => s' ← body i s; for_range n' (i + 1) body s'
  end.

Definition for_loop {S : Type} (lo hi : Z) (body : Z -> S -> res S) (s : S)
  : res S :=
  for_range (Z.to_nat (hi - lo)) lo body s.

(** ** Data *)

Record KlineData : Type := mkKline {
  Symbol : string;
  Open : Decimal.t;
  High : Decimal.t;
  Low : Decimal.t;
  Close : Decimal.t;
  Volume : Decimal.t;
  Timestamp : Z
}.

Inductive TrendDirection : Type :=
| TrendNone
| TrendBullish
| TrendBearish
| TrendSideways.

Inductive SignalType : Type :=
| SignalNone
| SignalBuy
| SignalSell
| SignalStopLoss
| SignalTakeProfit.

(** The field [TrendDirection] of the source is [Trend] here, the name
    being taken by its type. *)
Record TunnelData : Type := mkTunnel {
  EMA12 : Decimal.t;
  EMA144 : Decimal.t;
  EMA169 : Decimal.t;
  EMA288 : Decimal.t;
  EMA338 : Decimal.t;
  MidTunnelUpper : Decimal.t;
  MidTunnelLower : Decimal.t;
  LongTunnelUpper : Decimal.t;
  LongTunnelLower : Decimal.t;
  Trend : TrendDirection
}.

(** The zero value of [TunnelData], what [make([]TunnelData, n)] holds. *)
Definition zero_TunnelData : TunnelData :=
  mkTunnel zero_value zero_value zero_value zero_value zero_value
           zero_value zero_value zero_value zero_value TrendNone.

(** The fields [Symbol], [Type] and [Timestamp] of the source are
    [SignalSymbol], [Type_] and [SignalTimestamp] here. *)
Record TradingSignal : Type := mkSignal {
  SignalSymbol : string;
  Type_ : SignalType;
  Price : Decimal.t;
  StopLoss : Decimal.t;
  TakeProfit : Decimal.t;
  Confidence : float;
  Reason : string;
  SignalTimestamp : Z;
  Timeframe : string
}.

(** The strategy object, without its logger. *)
Record VegasTunnelStrategy : Type := mkStrategy {
  shortEMAPeriod : Z;
  midTunnel1Period : Z;
  midTunnel2Period : Z;
  longTunnel1Period : Z;
  longTunnel2Period : Z;
  minTunnelPeriod : Z;
  volumeFactor : float;
  riskRewardRatio : float;
  stopLossPercent : float;
  takeProfitPercent : float;
  kline15MData : list KlineData;
  kline4HData : list KlineData
}.

Definition NewVegasTunnelStrategy : VegasTunnelStrategy :=
  mkStrategy 12 144 169 288 338 3 1.5 2.0 0.02 0.04 [] [].

Definition SetParameters (v : VegasTunnelStrategy)
    (shortEMA midTunnel1 midTunnel2 longTunnel1 longTunnel2 : Z)
    (stopLoss takeProfit : float) : VegasTunnelStrategy :=
  mkStrategy shortEMA midTunnel1 midTunnel2 longTunnel1 longTunnel2
             (minTunnelPeriod v) (volumeFactor v) (riskRewardRatio v)
             stopLoss takeProfit (kline15MData v) (kline4HData v).

Definition set_kline15MData (v : VegasTunnelStrategy) (data : list KlineData)
  : VegasTunnelStrategy :=
  mkStrategy (shortEMAPeriod v) (midTunnel1Period v) (midTunnel2Period v)
             (longTunnel1Period v) (longTunnel2Period v) (minTunnelPeriod v)
             (volumeFactor v) (riskRewardRatio v) (stopLossPercent v)
             (takeProfitPercent v) data (kline4HData v).

Definition set_kline4HData (v : VegasTunnelStrategy) (data : list KlineData)
  : VegasTunnelStrategy :=
  mkStrategy (shortEMAPeriod v) (midTunnel1Period v) (midTunnel2Period v)
             (longTunnel1Period v) (longTunnel2Period v) (minTunnelPeriod v)
             (volumeFactor v) (riskRewardRatio v) (stopLossPercent v)
             (takeProfitPercent v) (kline15MData v) data.

(** ** Series store *)

(** [UpdateKlineData]: the [switch] has the two cases ["15m"] and ["4h"]
    and no default. *)
Definition UpdateKlineData (v : VegasTunnelStrategy) (kline : KlineData)
    (timeframe : string) : VegasTunnelStrategy :=
  if String.eqb timeframe "15m" then
    let data := kline15MData v ++ [kline] in
    set_kline15MData v (if 1000 <? len data then drop 1 data else data)
  else if String.eqb timeframe "4h" then
    let data := kline4HData v ++ [kline] in
    set_kline4HData v (if 500 <? len data then drop 1 data else data)
  else v.

(** ** Smoothing *)

(** [CalculateEMA]: [None] is the nil slice. *)
Definition CalculateEMA (prices : list Decimal.t) (period : Z)
  : res (option (list Decimal.t)) :=
  if len prices <? period then Ok None
  else
    let result := replicate (length prices) zero_value in
    alpha ← NewFromFloat (2.0 / float64_of_int (period + 1));
    let one := NewFromInt 1 in
    sum ← for_loop 0 period
             (fun i sum => p ← index prices i; Ok (Add sum p)) Zero;
    sma ← Div sum (NewFromInt period);
    result ← store result (period - 1) sma;
    result ← for_loop period (len prices)
               (fun i result =>
                  p ← index prices i;
                  prev ← index result (i - 1);
                  store result i (Add (Mul p alpha) (Mul prev (Sub one alpha))))
               result;
    Ok (Some result).

(** ** Tunnel classifier *)

Definition determineTrendDirection (tunnel : TunnelData) : TrendDirection :=
  if GreaterThan (MidTunnelLower tunnel) (LongTunnelUpper tunnel)
  then TrendBullish
  else if LessThan (MidTunnelUpper tunnel) (LongTunnelLower tunnel)
  then TrendBearish
  else TrendSideways.

(** One element of [tunnelData], from the five averages at its index. *)
Definition tunnel_of (e12 e144 e169 e288 e338 : Decimal.t) : TunnelData :=
  let '(midU, midL) :=
    if GreaterThan e144 e169 then (e144, e169) else (e169, e144) in
  let '(longU, longL) :=
    if GreaterThan e288 e338 then (e288, e338) else (e338, e288) in
  let tunnel := mkTunnel e12 e144 e169 e288 e338 midU midL longU longL
                         TrendNone in
  mkTunnel e12 e144 e169 e288 e338 midU midL longU longL
           (determineTrendDirection tunnel).

Definition CalculateTunnelData (v : VegasTunnelStrategy)
    (klines : list KlineData) : res (option (list TunnelData)) :=
  if len klines <? longTunnel2Period v then Ok None
  else
    let prices := Close <$> klines in
    ema12 ← CalculateEMA prices (shortEMAPeriod v);
    ema144 ← CalculateEMA prices (midTunnel1Period v);
    ema169 ← CalculateEMA prices (midTunnel2Period v);
    ema288 ← CalculateEMA prices (longTunnel1Period v);
    ema338 ← CalculateEMA prices (longTunnel2Period v);
    match ema12, ema144, ema169, ema288, ema338 with
    | Some ema12, Some ema144, Some ema169, Some ema288, Some ema338 =>
        let tunnelData := replicate (length klines) zero_TunnelData in
        tunnelData ← for_loop (longTunnel2Period v - 1) (len klines)
          (fun i tunnelData =>
             _ ← index tunnelData i;
             e12 ← index ema12 i;
             e144 ← index ema144 i;
             e169 ← index ema169 i;
             e288 ← index ema288 i;
             e338 ← index ema338 i;
             store tunnelData i (tunnel_of e12 e144 e169 e288 e338))
          tunnelData;
        Ok (Some tunnelData)
    | _, _, _, _, _ => Ok None
    end.

(** ** Signal engine *)

Definition isPriceNearTunnel (price : Decimal.t) (tunnel : TunnelData)
    (isLong : bool) : res bool :=
  tolerance ← NewFromFloat 0.002;
  let near_mid :=
    GreaterThanOrEqual price
      (Mul (MidTunnelLower tunnel) (Sub (NewFromInt 1) tolerance)) &&
    LessThanOrEqual price
      (Mul (MidTunnelUpper tunnel) (Add (NewFromInt 1) tolerance)) in
  let near_long :=
    GreaterThanOrEqual price
      (Mul (LongTunnelLower tunnel) (Sub (NewFromInt 1) tolerance)) &&
    LessThanOrEqual price
      (Mul (LongTunnelUpper tunnel) (Add (NewFromInt 1) tolerance)) in
  if isLong then
    if near_mid then Ok true
    else if near_long then Ok true
    else Ok false
  else
    if near_mid then Ok true
    else if near_long then Ok true
    else Ok false.

(** [math.Min], with its special cases. *)
Definition math_Min (x y : float) : float :=
  if PrimFloat.eqb x neg_infinity || PrimFloat.eqb y neg_infinity
  then neg_infinity
  else if PrimFloat.is_nan x || PrimFloat.is_nan y then nan
  else if PrimFloat.eqb x 0 && PrimFloat.eqb x y
  then (if PrimFloat.get_sign x then x else y)
  else if PrimFloat.ltb x y then x else y.

Definition calculateSignalConfidence (tunnel4H tunnel15M : TunnelData)
    (isLong : bool) : float :=
  let confidence := 0.6%float in
  let confidence :=
    if isLong then
      if GreaterThan (MidTunnelLower tunnel4H) (LongTunnelUpper tunnel4H)
      then (confidence + 0.2)%float else confidence
    else
      if LessThan (MidTunnelUpper tunnel4H) (LongTunnelLower tunnel4H)
      then (confidence + 0.2)%float else confidence in
  let confidence :=
    if isLong then
      if GreaterThan (EMA12 tunnel15M) (MidTunnelLower tunnel15M)
      then (confidence + 0.1)%float else confidence
    else
      if LessThan (EMA12 tunnel15M) (MidTunnelUpper tunnel15M)
      then (confidence + 0.1)%float else confidence in
  math_Min confidence 1.0.

Definition set_levels (signal : TradingSignal) (stopLoss takeProfit : Decimal.t)
  : TradingSignal :=
  mkSignal (SignalSymbol signal) (Type_ signal) (Price signal) stopLoss
           takeProfit (Confidence signal) (Reason signal)
           (SignalTimestamp signal) (Timeframe signal).

(** [calculateStopLossAndTakeProfit] writes the two levels into the signal
    it is given; the updated signal is returned here. *)
Definition calculateStopLossAndTakeProfit (v : VegasTunnelStrategy)
    (signal : TradingSignal) (tunnel : TunnelData) (isLong : bool)
  : res TradingSignal :=
  if isLong then
    let stopLossLevel :=
      if LessThan (LongTunnelUpper tunnel) (MidTunnelLower tunnel)
      then LongTunnelUpper tunnel else MidTunnelLower tunnel in
    buffer ← NewFromFloat 0.998;
    let stopLoss := Mul stopLossLevel buffer in
    let riskAmount := Sub (Price signal) stopLoss in
    ratio ← NewFromFloat (riskRewardRatio v);
    Ok (set_levels signal stopLoss (Add (Price signal) (Mul riskAmount ratio)))
  else
    let stopLossLevel :=
      if GreaterThan (LongTunnelLower tunnel) (MidTunnelUpper tunnel)
      then LongTunnelLower tunnel else MidTunnelUpper tunnel in
    buffer ← NewFromFloat 1.002;
    let stopLoss := Mul stopLossLevel buffer in
    let riskAmount := Sub stopLoss (Price signal) in
    ratio ← NewFromFloat (riskRewardRatio v);
    Ok (set_levels signal stopLoss (Sub (Price signal) (Mul riskAmount ratio))).

Definition checkLongSignal (v : VegasTunnelStrategy)
    (tunnel4H tunnel15M : TunnelData) (kline : KlineData) (symbol : string)
  : res (option TradingSignal) :=
  if negb (match Trend tunnel4H with TrendBullish => true | _ => false end)
  then Ok None
  else if LessThanOrEqual (Close kline) (MidTunnelLower tunnel4H)
  then Ok None
  else
    near ← isPriceNearTunnel (Close kline) tunnel15M true;
    if negb near then Ok None
    else if LessThanOrEqual (Close kline) (EMA12 tunnel15M) then Ok None
    else
      let signal :=
        mkSignal symbol SignalBuy (Close kline) zero_value zero_value
          (calculateSignalConfidence tunnel4H tunnel15M true)
          "4H多头排列，15M回调至隧道获支撑后站上EMA12"
          (Timestamp kline) "15M" in
      signal ← calculateStopLossAndTakeProfit v signal tunnel15M true;
      Ok (Some signal).

Definition checkShortSignal (v : VegasTunnelStrategy)
    (tunnel4H tunnel15M : TunnelData) (kline : KlineData) (symbol : string)
  : res (option TradingSignal) :=
  if negb (match Trend tunnel4H with TrendBearish => true | _ => false end)
  then Ok None
  else if GreaterThanOrEqual (Close kline) (MidTunnelUpper tunnel4H)
  then Ok None
  else
    near ← isPriceNearTunnel (Close kline) tunnel15M false;
    if negb near then Ok None
    else if GreaterThanOrEqual (Close kline) (EMA12 tunnel15M) then Ok None
    else
      let signal :=
        mkSignal symbol SignalSell (Close kline) zero_value zero_value
          (calculateSignalConfidence tunnel4H tunnel15M false)
          "4H空头排列，15M反弹至隧道受压制后跌破EMA12"
          (Timestamp kline) "15M" in
      signal ← calculateStopLossAndTakeProfit v signal tunnel15M false;
      Ok (Some signal).

(** The last element [s[len(s)-1]] of a slice. *)
Definition last_of {A} (s : list A) : res A := index s (len s - 1).

(** [GenerateSignal]: the strategy after the call and what the call
    returns.  The bars given are passed to [UpdateKlineData] under the
    name ["15M"] first. *)
Definition GenerateSignal (v : VegasTunnelStrategy) (klines : list KlineData)
  : VegasTunnelStrategy * res (option TradingSignal) :=
  match klines with
  | [] => (v, Ok None)
  | first :: _ =>
      let symbol := Symbol first in
      let v := foldl (fun v kline => UpdateKlineData v kline "15M") v klines in
      (v,
       if len (kline15MData v) <? longTunnel2Period v then Ok None
       else if len (kline4HData v) <? longTunnel2Period v then Ok None
       else
         tunnel4H ← CalculateTunnelData v (kline4HData v);
         match tunnel4H with
         | None => Ok None
         | Some tunnel4H =>
             current4H ← last_of tunnel4H;
             tunnel15M ← CalculateTunnelData v (kline15MData v);
             match tunnel15M with
             | None => Ok None
             | Some tunnel15M =>
                 current15M ← last_of tunnel15M;
                 currentKline ← last_of (kline15MData v);
                 long ← checkLongSignal v current4H current15M currentKline
                          symbol;
                 match long with
                 | Some signal => Ok (Some signal)
                 | None =>
                     checkShortSignal v current4H current15M currentKline
                       symbol
                 end
             end
         end)
  end.

(** ** Exit engine *)

Definition CheckEMA12Exit (v : VegasTunnelStrategy) (symbol : string)
    (isLong : bool) : res (option TradingSignal) :=
  if len (kline15MData v) <? 2 then Ok None
  else
    tunnel15M ← CalculateTunnelData v (kline15MData v);
    match tunnel15M with
    | None => Ok None
    | Some tunnel15M =>
        currentKline ← last_of (kline15MData v);
        currentTunnel ← last_of tunnel15M;
        let '(shouldExit, reason) :=
          if isLong
          then (LessThan (Close currentKline) (EMA12 currentTunnel),
                "15M收盘价跌破EMA12移动止盈线")
          else (GreaterThan (Close currentKline) (EMA12 currentTunnel),
                "15M收盘价突破EMA12移动止盈线") in
        if negb shouldExit then Ok None
        else Ok (Some (mkSignal symbol SignalTakeProfit (Close currentKline)
                         zero_value zero_value 0.9 reason
                         (Timestamp currentKline) "15M"))
    end.

(** ** Parameter validation *)

(** [ValidateParameters]: [None] is the nil error. *)
Definition ValidateParameters (v : VegasTunnelStrategy) : option string :=
  if shortEMAPeriod v <=? 0
  then Some "short EMA period must be positive"
  else if (midTunnel1Period v <=? shortEMAPeriod v) ||
          (midTunnel2Period v <=? shortEMAPeriod v)
  then Some "mid tunnel periods must be greater than short EMA period"
  else if (longTunnel1Period v <=? midTunnel2Period v) ||
          (longTunnel2Period v <=? midTunnel2Period v)
  then Some "long tunnel periods must be greater than mid tunnel periods"
  else if PrimFloat.leb (stopLossPercent v) 0 ||
          PrimFloat.ltb 0.1 (stopLossPercent v)
  then Some "stop loss percent must be between 0 and 0.1 (10%)"
  else if PrimFloat.leb (takeProfitPercent v) 0 ||
          PrimFloat.ltb 0.2 (takeProfitPercent v)
  then Some "take profit percent must be between 0 and 0.2 (20%)"
  else if PrimFloat.leb (riskRewardRatio v) 1.0
  then Some "risk reward ratio must be greater than 1.0"
  else None.

End Strategy.

Import Decimal Strategy.

(* ===================================================================== *)
(** * Vocabulary of the properties *)
(* ===================================================================== *)

(** One smoothing step, [price*alpha + prev*(1-alpha)]. *)
Definition ema_step (alpha price prev : Decimal.t) : Decimal.t :=
  Add (Mul price alpha) (Mul prev (Sub (NewFromInt 1) alpha)).

(** The entries after the seed: each from its price and the entry before. *)
Fixpoint ema_tail (alpha prev : Decimal.t) (ps : list Decimal.t)
  : list Decimal.t :=
  match ps with
  | [] => []
  | p :: ps' =>
      let e := ema_step alpha p prev in
      e :: ema_tail alpha e ps'
  end.

(** The float the smoothing factor is converted from. *)
Definition alpha_float (period : Z) : float :=
  (2.0 / float64_of_int (period + 1))%float.

(** A period the smoothing code can run with: positive, and with a
    successor that is still an [int]. *)
Definition period_ok (period : Z) : bool :=
  (1 <=? period) && (period <? int_max).

(** The five periods are usable; the strategy is configured when moreover
    its reward ratio is a finite float, one that [NewFromFloat] takes. *)
Definition periods_configured (v : VegasTunnelStrategy) : bool :=
  period_ok (shortEMAPeriod v) && period_ok (midTunnel1Period v) &&
  period_ok (midTunnel2Period v) && period_ok (longTunnel1Period v) &&
  period_ok (longTunnel2Period v).

Definition configured (v : VegasTunnelStrategy) : bool :=
  periods_configured v && is_ok (NewFromFloat (riskRewardRatio v)).

(** Enough bars for each of the five averages. *)
Definition sufficient (v : VegasTunnelStrategy) (klines : list KlineData)
  : Prop :=
  shortEMAPeriod v <= len klines /\ midTunnel1Period v <= len klines /\
  midTunnel2Period v <= len klines /\ longTunnel1Period v <= len klines /\
  longTunnel2Period v <= len klines.

(** Entry [j] of an average, zero where the slice has no entry. *)
Definition entry (ema : list Decimal.t) (j : nat) : Decimal.t :=
  default zero_value (ema !! j).

(** The tunnel of the latest bar, when there is tunnel data. *)
Definition current_tunnel (v : VegasTunnelStrategy) (klines : list KlineData)
  : option TunnelData :=
  match CalculateTunnelData v klines with
  | Ok (Some tunnelData) => last tunnelData
  | _ => None
  end.

(** Within the tolerance band of the mid tunnel or of the long tunnel. *)
Definition near_tunnel (price : Q) (tunnel : TunnelData) : Prop :=
  (toQ (MidTunnelLower tunnel) * (1 - (2 # 1000)) <= price /\
   price <= toQ (MidTunnelUpper tunnel) * (1 + (2 # 1000)))%Q \/
  (toQ (LongTunnelLower tunnel) * (1 - (2 # 1000)) <= price /\
   price <= toQ (LongTunnelUpper tunnel) * (1 + (2 # 1000)))%Q.

Definition long_entry (tunnel4H tunnel15M : TunnelData) (close : Decimal.t)
  : Prop :=
  Trend tunnel4H = TrendBullish /\
  (toQ (MidTunnelLower tunnel4H) < toQ close)%Q /\
  near_tunnel (toQ close) tunnel15M /\
  (toQ (EMA12 tunnel15M) < toQ close)%Q.

Definition short_entry (tunnel4H tunnel15M : TunnelData) (close : Decimal.t)
  : Prop :=
  Trend tunnel4H = TrendBearish /\
  (toQ close < toQ (MidTunnelUpper tunnel4H))%Q /\
  near_tunnel (toQ close) tunnel15M /\
  (toQ close < toQ (EMA12 tunnel15M))%Q.

(** The score of [calculateSignalConfidence], from its two bonuses. *)
Definition confidence_score (separation momentum : bool) : float :=
  let confidence := 0.6%float in
  let confidence :=
    if separation then (confidence + 0.2)%float else confidence in
  let confidence :=
    if momentum then (confidence + 0.1)%float else confidence in
  math_Min confidence 1.0.

(** The signals the two entry checks build. *)
Definition buy_signal (tunnel4H tunnel15M : TunnelData) (kline : KlineData)
    (symbol : string) (ratio : Decimal.t) : TradingSignal :=
  let stopLossLevel :=
    if LessThan (LongTunnelUpper tunnel15M) (MidTunnelLower tunnel15M)
    then LongTunnelUpper tunnel15M else MidTunnelLower tunnel15M in
  let stopLoss := Mul stopLossLevel (New 998 (-3)) in
  mkSignal symbol SignalBuy (Close kline) stopLoss
    (Add (Close kline) (Mul (Sub (Close kline) stopLoss) ratio))
    (calculateSignalConfidence tunnel4H tunnel15M true)
    "4H多头排列，15M回调至隧道获支撑后站上EMA12"
    (Timestamp kline) "15M".

Definition sell_signal (tunnel4H tunnel15M : TunnelData) (kline : KlineData)
    (symbol : string) (ratio : Decimal.t) : TradingSignal :=
  let stopLossLevel :=
    if GreaterThan (LongTunnelLower tunnel15M) (MidTunnelUpper tunnel15M)
    then LongTunnelLower tunnel15M else MidTunnelUpper tunnel15M in
  let stopLoss := Mul stopLossLevel (New 1002 (-3)) in
  mkSignal symbol SignalSell (Close kline) stopLoss
    (Sub (Close kline) (Mul (Sub stopLoss (Close kline)) ratio))
    (calculateSignalConfidence tunnel4H tunnel15M false)
    "4H空头排列，15M反弹至隧道受压制后跌破EMA12"
    (Timestamp kline) "15M".

(** What one evaluation reads: the two current tunnels and the latest
    15-minute bar. *)
Definition evaluation_data (v : VegasTunnelStrategy)
    (tunnel4H tunnel15M : TunnelData) (kline : KlineData) : Prop :=
  current_tunnel v (kline4HData v) = Some tunnel4H /\
  current_tunnel v (kline15MData v) = Some tunnel15M /\
  last (kline15MData v) = Some kline.

(** ** The claims of the specification, and worked inputs *)

(** The exact sum and mean of a list of decimals. *)
Definition sumQ (ps : list Decimal.t) : Q :=
  foldr (fun p acc => (toQ p + acc)%Q) 0%Q ps.

Definition mean (ps : list Decimal.t) : Q :=
  (sumQ ps / inject_Z (len ps))%Q.

(** C1 as the specification words it: an exact seed and a recurrence whose
    factor is exactly [2/(p+1)]. *)
Definition exact_ema_claim (prices : list Decimal.t) (p : Z) : Prop :=
  exists result alpha,
    CalculateEMA prices p = Ok (Some result) /\
    NewFromFloat (alpha_float p) = Ok alpha /\
    (toQ alpha == 2 # (Z.to_pos (p + 1)))%Q /\
    (exists seed, result !! Z.to_nat (p - 1) = Some seed /\
                  (toQ seed == mean (take (Z.to_nat p) prices))%Q) /\
    (forall (i : nat) (x prev e : Decimal.t),
        p <= Z.of_nat i ->
        prices !! i = Some x -> result !! (i - 1)%nat = Some prev ->
        result !! i = Some e ->
        (toQ e == toQ x * toQ alpha + toQ prev * (1 - toQ alpha))%Q).

(** C7 as the specification words it: an entry marked undefined is no
    number, it compares equal to none. *)
Definition marked_undefined (d : Decimal.t) : Prop :=
  forall x : Decimal.t, Equal d x = false.

Definition undefined_prefix_claim (prices : list Decimal.t) (p : Z) : Prop :=
  (len prices < p -> CalculateEMA prices p = Ok None) /\
  (p <= len prices ->
   exists result,
     CalculateEMA prices p = Ok (Some result) /\
     length result = length prices /\
     forall (i : nat) (d : Decimal.t),
       Z.of_nat i < p - 1 -> result !! i = Some d -> marked_undefined d).

(** The bounds of a tunnel are the larger and the smaller of each pair of
    averages, as [CalculateTunnelData] sets them. *)
Definition bounds_from_pairs (tunnel : TunnelData) : Prop :=
  (MidTunnelUpper tunnel, MidTunnelLower tunnel)
  = (if GreaterThan (EMA144 tunnel) (EMA169 tunnel)
     then (EMA144 tunnel, EMA169 tunnel)
     else (EMA169 tunnel, EMA144 tunnel)) /\
  (LongTunnelUpper tunnel, LongTunnelLower tunnel)
  = (if GreaterThan (EMA288 tunnel) (EMA338 tunnel)
     then (EMA288 tunnel, EMA338 tunnel)
     else (EMA338 tunnel, EMA288 tunnel)).

(** C8 as the specification words it: a bar not later than the last stored
    one leaves the series as it was. *)
Definition rejects_out_of_order (v : VegasTunnelStrategy) (kline : KlineData)
  : Prop :=
  forall lastBar,
    last (kline15MData v) = Some lastBar ->
    Timestamp kline <= Timestamp lastBar ->
    kline15MData (UpdateKlineData v kline "15m") = kline15MData v.

(** A bar that opens, peaks, bottoms and closes at one price. *)
Definition flat_bar (price time : Z) : KlineData :=
  mkKline "BTCUSDT" (NewFromInt price) (NewFromInt price) (NewFromInt price)
          (NewFromInt price) (NewFromInt 1) time.

(** Feeding closes to one timeframe, bar after bar. *)
Definition feed (timeframe : string) (v : VegasTunnelStrategy)
    (closes : list Z) : VegasTunnelStrategy :=
  foldl (fun v bar => UpdateKlineData v bar timeframe) v
        (imap (fun i price => flat_bar price (Z.of_nat i)) closes).

(** ** Worked histories

    Periods 3, 4, 7, 9 and 15, which [ValidateParameters] accepts and whose
    smoothing factors 0.5, 0.4, 0.25, 0.2 and 0.125 are exact. *)
Definition short_periods : VegasTunnelStrategy :=
  SetParameters NewVegasTunnelStrategy 3 4 7 9 15 0.02 0.04.

(** A rising 4-hour series: fifteen bars at 50, then one at 100. *)
Definition slow_uptrend : VegasTunnelStrategy :=
  feed "4h" short_periods (replicate 15 50 ++ [100]).

(** 15-minute closes 100 (fifteen times), 150, 80, 103: the last close is
    inside the long tunnel and below the mid tunnel. *)
Definition pullback_into_long_tunnel : VegasTunnelStrategy :=
  feed "15m" slow_uptrend (replicate 15 100 ++ [150; 80; 103]).

(** 15-minute closes 100 (fifteen times), 150, 90, 108: the last close is
    at the top of the mid tunnel, above both support bounds. *)
Definition pullback_onto_mid_tunnel : VegasTunnelStrategy :=
  feed "15m" slow_uptrend (replicate 15 100 ++ [150; 90; 108]).

(** The one of two bounds nearer to the price. *)
Definition nearer_bound (price a b : Q) : Q :=
  if Qle_bool (Qabs (a - price)) (Qabs (b - price)) then a else b.

(** C5 as the specification words it: the stop is set off the nearer of the
    two adverse bounds. *)
Definition nearer_stop_claim (v : VegasTunnelStrategy)
    (klines : list KlineData) : Prop :=
  forall signal tunnel15M ratio,
    snd (GenerateSignal v klines) = Ok (Some signal) ->
    current_tunnel v (kline15MData v) = Some tunnel15M ->
    NewFromFloat (riskRewardRatio v) = Ok ratio ->
    (Type_ signal = SignalBuy ->
     (toQ (StopLoss signal)
      == nearer_bound (toQ (Price signal)) (toQ (MidTunnelLower tunnel15M))
           (toQ (LongTunnelUpper tunnel15M)) * (998 # 1000))%Q /\
     (toQ (TakeProfit signal)
      == toQ (Price signal)
         + (toQ (Price signal) - toQ (StopLoss signal)) * toQ ratio)%Q) /\
    (Type_ signal = SignalSell ->
     (toQ (StopLoss signal)
      == nearer_bound (toQ (Price signal)) (toQ (MidTunnelUpper tunnel15M))
           (toQ (LongTunnelLower tunnel15M)) * (1002 # 1000))%Q /\
     (toQ (TakeProfit signal)
      == toQ (Price signal)
         - (toQ (StopLoss signal) - toQ (Price signal)) * toQ ratio)%Q).

(** The exit test of [CheckEMA12Exit] on the latest close and the latest
    short average. *)
Definition exit_condition (isLong : bool) (close ema : Decimal.t) : Prop :=
  if isLong then (toQ close < toQ ema)%Q else (toQ ema < toQ close)%Q.

(** The signals the two worked histories give. *)
Definition long_tunnel_buy : TradingSignal :=
  mkSignal "BTCUSDT" SignalBuy (New 103 0)
    (New 103392800000000000000000000000000000 (-33))
    (New 102214400000000000000000000000000000 (-33))
    0.8 "4H多头排列，15M回调至隧道获支撑后站上EMA12" 17 "15M".

Definition mid_tunnel_buy : TradingSignal :=
  mkSignal "BTCUSDT" SignalBuy (New 108 0)
    (New 1061872000000000000000000000000 (-28))
    (New 1116256000000000000000000000000 (-28))
    0.9 "4H多头排列，15M回调至隧道获支撑后站上EMA12" 17 "15M".

(** The history is sufficient and the latest close is on the exit side of
    the latest short average. *)
Definition exit_due (v : VegasTunnelStrategy) (isLong : bool) : Prop :=
  2 <= len (kline15MData v) /\
  sufficient v (kline15MData v) /\
  exists ema12 ema kline,
    CalculateEMA (Close <$> kline15MData v) (shortEMAPeriod v)
    = Ok (Some ema12) /\
    last ema12 = Some ema /\
    last (kline15MData v) = Some kline /\
    exit_condition isLong (Close kline) ema.

(** ** Reachable states and runs *)

(** The states of a strategy that the exported calls can produce: the
    fields are unexported, and no other function of the package writes
    them. *)
Inductive reachable : VegasTunnelStrategy -> Prop :=
| reach_new : reachable NewVegasTunnelStrategy
| reach_set v a b c d e sl tp :
    reachable v -> reachable (SetParameters v a b c d e sl tp)
| reach_update v kline timeframe :
    reachable v -> reachable (UpdateKlineData v kline timeframe)
| reach_signal v klines :
    reachable v -> reachable (fst (GenerateSignal v klines)).

(** Storing bars one after the other under one timeframe name. *)
Definition store_bars (timeframe : string) (v : VegasTunnelStrategy)
    (bars : list KlineData) : VegasTunnelStrategy :=
  foldl (fun v bar => UpdateKlineData v bar timeframe) v bars.


(** Successive calls of [GenerateSignal] on one strategy object, as the
    manager makes them: the strategy after the last call and the results in
    order. *)
Fixpoint signal_runs (v : VegasTunnelStrategy) (calls : list (list KlineData))
  : VegasTunnelStrategy * list (res (option TradingSignal)) :=
  match calls with
  | [] => (v, [])
  | klines :: calls' =>
      let '(v', r) := GenerateSignal v klines in
      let '(v'', rs) := signal_runs v' calls' in
      (v'', r :: rs)
  end.

(** What the signal and exit engines read of a strategy: the five periods,
    the reward ratio and the two stored series. *)
Definition same_inputs (v v' : VegasTunnelStrategy) : Prop :=
  shortEMAPeriod v = shortEMAPeriod v' /\
  midTunnel1Period v = midTunnel1Period v' /\
  midTunnel2Period v = midTunnel2Period v' /\
  longTunnel1Period v = longTunnel1Period v' /\
  longTunnel2Period v = longTunnel2Period v' /\
  riskRewardRatio v = riskRewardRatio v' /\
  kline15MData v = kline15MData v' /\
  kline4HData v = kline4HData v'.

(* ===================================================================== *)
(** * Strategy information *)
(* ===================================================================== *)

Module StrategyInfo.

(** The values a [map[string]interface{}] of the package holds. *)
Inductive info_value : Type :=
| InfoString (s : string)
| InfoInt (n : Z)
| InfoFloat (f : float).

Definition info : Type := gmap string info_value.

(** [GetStrategyInfo] of the Vegas strategy. *)
Definition GetStrategyInfo (v : VegasTunnelStrategy) : info :=
  list_to_map
    [("name", InfoString "Vegas Dual Tunnel Strategy");
     ("short_ema_period", InfoInt (shortEMAPeriod v));
     ("mid_tunnel1_period", InfoInt (midTunnel1Period v));
     ("mid_tunnel2_period", InfoInt (midTunnel2Period v));
     ("long_tunnel1_period", InfoInt (longTunnel1Period v));
     ("long_tunnel2_period", InfoInt (longTunnel2Period v));
     ("min_tunnel_period", InfoInt (minTunnelPeriod v));
     ("volume_factor", InfoFloat (volumeFactor v));
     ("risk_reward_ratio", InfoFloat (riskRewardRatio v));
     ("stop_loss_percent", InfoFloat (stopLossPercent v));
     ("take_profit_percent", InfoFloat (takeProfitPercent v));
     ("15m_data_count", InfoInt (len (kline15MData v)));
     ("4h_data_count", InfoInt (len (kline4HData v)))].

End StrategyInfo.

(* ===================================================================== *)
(** * The strategy manager *)
(* ===================================================================== *)

Module Manager.

Import StrategyInfo.

(** A Go [error] is modelled by its message; [None] is the nil error. *)
Definition error : Type := string.

(** The interface [Strategy].  A value of the interface is a reference to
    an object; the objects live in a store of type [H], which a method may
    read and write.  A method call returns a result and the store after the
    call, or panics. *)
Class Strategy (S H : Type) : Type := {
  method_GenerateSignal :
    S -> list KlineData -> H -> res (option TradingSignal * H);
  method_GetStrategyInfo : S -> H -> res (info * H);
  method_ValidateParameters : S -> H -> res (option error * H)
}.

(** The one implementation of the repository: a [*VegasTunnelStrategy], a
    pointer into a store of strategy objects.  The pointer [None] is nil,
    and a method called through it panics on its first field access, as a
    call does through a pointer the store does not hold. *)
Definition pointer : Type := option nat.
Definition heap : Type := gmap nat VegasTunnelStrategy.

Definition deref (p : pointer) (h : heap) : res VegasTunnelStrategy :=
  match p with
  | None => Panic
  | Some l => match h !! l with
              | Some v => Ok v
              | None => Panic
              end
  end.

#[global] Instance vegas_strategy : Strategy pointer heap := {
  method_GenerateSignal p klines h :=
    match klines with
    | [] => Ok (None, h)              (* returns before any field is read *)
    | _ =>
        v ← deref p h;
        let '(v', r) := Strategy.GenerateSignal v klines in
        signal ← r;
        Ok (signal, match p with
                    | Some l => <[l := v']> h
                    | None => h
                    end)
    end;
  method_GetStrategyInfo p h :=
    v ← deref p h; Ok (StrategyInfo.GetStrategyInfo v, h);
  method_ValidateParameters p h :=
    v ← deref p h; Ok (Strategy.ValidateParameters v, h)
}.

(** [StrategyManager].  The mutex is left out: the model is sequential.  Of
    the context only whether [cancel] was called is kept. *)
Record StrategyManager (S : Type) : Type := mkManager {
  strategies : gmap string S;
  cancelled : bool;
  isRunning : bool
}.
Arguments mkManager {S} _ _ _.
Arguments strategies {S} _.
Arguments cancelled {S} _.
Arguments isRunning {S} _.

(** [StrategyResult]; the field [Symbol] is [ResultSymbol] here and
    [Timestamp] is [ResultTimestamp]. *)
Record StrategyResult : Type := mkResult {
  StrategyName : string;
  ResultSymbol : string;
  Signal : option TradingSignal;
  Error : option error;
  ResultTimestamp : Z
}.

Section Methods.

Context {S H : Type} `{Strategy S H}.

Definition NewStrategyManager : StrategyManager S := mkManager ∅ false false.

Definition set_strategies (sm : StrategyManager S) (m : gmap string S)
  : StrategyManager S :=
  mkManager m (cancelled sm) (isRunning sm).

(** [RegisterStrategy]: the manager after the call and the error. *)
Definition RegisterStrategy (sm : StrategyManager S) (name : string)
    (strategy : S) (h : H) : res (StrategyManager S * option error * H) :=
  match strategies sm !! name with
  | Some _ =>
      Ok (sm, Some ("strategy " +:+ name +:+ " already registered"), h)
  | None =>
      '(err, h) ← method_ValidateParameters strategy h;
      match err with
      | Some err => Ok (sm, Some ("strategy validation failed: " +:+ err), h)
      | None => Ok (set_strategies sm (<[name := strategy]> (strategies sm)),
                    None, h)
      end
  end.

Definition UnregisterStrategy (sm : StrategyManager S) (name : string)
  : StrategyManager S * option error :=
  match strategies sm !! name with
  | None => (sm, Some ("strategy " +:+ name +:+ " not found"))
  | Some _ => (set_strategies sm (delete name (strategies sm)), None)
  end.

(** [GetStrategy] returns the pair of Go: the strategy or nil, and the
    error or nil. *)
Definition GetStrategy (sm : StrategyManager S) (name : string)
  : option S * option error :=
  match strategies sm !! name with
  | None => (None, Some ("strategy " +:+ name +:+ " not found"))
  | Some strategy => (Some strategy, None)
  end.

(** Go leaves the order in which [range] visits a map unspecified.  The
    functions that range over the registry take that order as [keys]: the
    registered names, each once. *)
Definition range_order (sm : StrategyManager S) (keys : list string) : Prop :=
  keys ≡ₚ (map_to_list (strategies sm)).*1.

Definition ListStrategies (sm : StrategyManager S) (keys : list string)
  : list string :=
  foldl (fun names name => names ++ [name]) [] keys.

(** [ExecuteStrategy]: [now] is what [time.Now()] returns. *)
Definition ExecuteStrategy (sm : StrategyManager S) (strategyName : string)
    (symbol : string) (klines : list KlineData) (now : Z) (h : H)
  : res (StrategyResult * H) :=
  let result := mkResult strategyName symbol None None now in
  match GetStrategy sm strategyName with
  | (_, Some err) =>
      Ok (mkResult strategyName symbol None (Some err) now, h)
  | (Some strategy, None) =>
      '(signal, h) ← method_GenerateSignal strategy klines h;
      Ok (mkResult strategyName symbol signal None now, h)
  | (None, None) => Panic            (* a method call on the nil interface *)
  end.

(** One turn of the loop of [ExecuteAllStrategies]: [clock i] is the time
    of the call number [i]. *)
Definition execute_step (sm : StrategyManager S) (symbol : string)
    (klines : list KlineData) (clock : nat -> Z)
    (acc : res (list StrategyResult * H)) (name : string)
  : res (list StrategyResult * H) :=
  '(results, h) ← acc;
  '(result, h) ← ExecuteStrategy sm name symbol klines
                   (clock (length results)) h;
  Ok (results ++ [result], h).

Definition ExecuteAllStrategies (sm : StrategyManager S) (keys : list string)
    (symbol : string) (klines : list KlineData) (clock : nat -> Z) (h : H)
  : res (list StrategyResult * H) :=
  let strategyNames := foldl (fun names name => names ++ [name]) [] keys in
  foldl (execute_step sm symbol klines clock) (Ok ([], h)) strategyNames.

Definition GetStrategyInfo (sm : StrategyManager S) (name : string) (h : H)
  : res (option info * option error * H) :=
  match GetStrategy sm name with
  | (_, Some err) => Ok (None, Some err, h)
  | (Some strategy, None) =>
      '(i, h) ← method_GetStrategyInfo strategy h; Ok (Some i, None, h)
  | (None, None) => Panic
  end.

(** One turn of the loop of [GetAllStrategyInfo]. *)
Definition info_step (sm : StrategyManager S)
    (acc : res (gmap string info * H)) (name : string)
  : res (gmap string info * H) :=
  '(all, h) ← acc;
  match strategies sm !! name with
  | Some strategy =>
      '(i, h) ← method_GetStrategyInfo strategy h;
      Ok (<[name := i]> all, h)
  | None => Ok (all, h)
  end.

Definition GetAllStrategyInfo (sm : StrategyManager S) (keys : list string)
    (h : H) : res (gmap string info * H) :=
  foldl (info_step sm) (Ok (∅, h)) keys.

Definition Start (sm : StrategyManager S) : StrategyManager S * option error :=
  if isRunning sm then (sm, Some "strategy manager is already running")
  else (mkManager (strategies sm) (cancelled sm) true, None).

Definition Stop (sm : StrategyManager S) : StrategyManager S :=
  if negb (isRunning sm) then sm
  else mkManager (strategies sm) true false.

Definition IsRunning (sm : StrategyManager S) : bool := isRunning sm.

End Methods.

Definition signalTypeToString (signalType : SignalType) : string :=
  match signalType with
  | SignalBuy => "BUY"
  | SignalSell => "SELL"
  | SignalStopLoss => "STOP_LOSS"
  | SignalTakeProfit => "TAKE_PROFIT"
  | _ => "NONE"
  end.

(** The elements of a [[]*StrategyResult] are pointers: [None] is nil, and
    reading a field through it panics. *)

(** One turn of the loop of [FilterSignalsByConfidence]. *)
Definition filter_step (minConfidence : float)
    (acc : res (list (option StrategyResult)))
    (result : option StrategyResult) : res (list (option StrategyResult)) :=
  filtered ← acc;
  r ← match result with Some r => Ok r | None => Panic end;
  match Signal r with
  | Some signal =>
      if PrimFloat.leb minConfidence (Confidence signal)
      then Ok (filtered ++ [result])
      else Ok filtered
  | None => Ok filtered
  end.

Definition FilterSignalsByConfidence (results : list (option StrategyResult))
    (minConfidence : float) : res (list (option StrategyResult)) :=
  foldl (filter_step minConfidence) (Ok []) results.

(** One turn of the loop of [GetBestSignal], on [bestResult] and
    [maxConfidence]. *)
Definition best_step (acc : res (option StrategyResult * float))
    (result : option StrategyResult)
  : res (option StrategyResult * float) :=
  '(bestResult, maxConfidence) ← acc;
  r ← match result with Some r => Ok r | None => Panic end;
  match Signal r with
  | Some signal =>
      if PrimFloat.ltb maxConfidence (Confidence signal)
      then Ok (result, Confidence signal)
      else Ok (bestResult, maxConfidence)
  | None => Ok (bestResult, maxConfidence)
  end.

Definition GetBestSignal (results : list (option StrategyResult))
  : res (option StrategyResult) :=
  '(bestResult, _) ← foldl best_step (Ok (None, 0%float)) results;
  Ok bestResult.

(** [ValidateKlineData]: the checks of one bar, at index [i]. *)
Definition check_kline (i : nat) (kline : KlineData) : option error :=
  if IsZero (Open kline) || IsZero (High kline) || IsZero (Low kline) ||
     IsZero (Close kline)
  then Some ("invalid price data at index " +:+ pretty i)
  else if LessThan (High kline) (Low kline)
  then Some ("high price less than low price at index " +:+ pretty i)
  else if LessThan (High kline) (Open kline) ||
          LessThan (High kline) (Close kline)
  then Some ("high price inconsistent at index " +:+ pretty i)
  else if GreaterThan (Low kline) (Open kline) ||
          GreaterThan (Low kline) (Close kline)
  then Some ("low price inconsistent at index " +:+ pretty i)
  else None.

Fixpoint validate_from (i : nat) (klines : list KlineData) : option error :=
  match klines with
  | [] => None
  | kline :: klines' =>
      match check_kline i kline with
      | Some err => Some err
      | None => validate_from (S i) klines'
      end
  end.

Definition ValidateKlineData (klines : list KlineData) : option error :=
  if len klines =? 0 then Some "empty kline data"
  else validate_from 0 klines.

End Manager.

(** ** Vocabulary of the manager's properties *)

(** What the loop of [GetBestSignal] has established after the results
    [rs]: nothing above 0 so far, or a best result at an index [i], which no
    result exceeds and no earlier result equals. *)
Definition best_so_far (rs : list Manager.StrategyResult)
    (best : option Manager.StrategyResult) (maxc : float) : Prop :=
  (best = None /\ maxc = 0%float /\
   forall r s, r ∈ rs -> Manager.Signal r = Some s ->
               PrimFloat.ltb 0 (Confidence s) = false) \/
  (exists (i : nat) (b : Manager.StrategyResult) (s : TradingSignal),
      best = Some b /\ rs !! i = Some b /\ Manager.Signal b = Some s /\
      Confidence s = maxc /\ PrimFloat.ltb 0 maxc = true /\
      forall (j : nat) r' s',
        rs !! j = Some r' -> Manager.Signal r' = Some s' ->
        PrimFloat.ltb maxc (Confidence s') = false /\
        ((j < i)%nat -> PrimFloat.leb maxc (Confidence s') = false)).

(** Whether [FilterSignalsByConfidence] keeps a result. *)
Definition kept (minConfidence : float) (r : Manager.StrategyResult) : bool :=
  match Manager.Signal r with
  | Some signal => PrimFloat.leb minConfidence (Confidence signal)
  | None => false
  end.

(** A bar [ValidateKlineData] accepts: four prices other than zero, the low
    not above and the high not below the open and the close. *)
Definition bar_ok (kline : KlineData) : Prop :=
  ~ (toQ (Open kline) == 0)%Q /\ ~ (toQ (High kline) == 0)%Q /\
  ~ (toQ (Low kline) == 0)%Q /\ ~ (toQ (Close kline) == 0)%Q /\
  (toQ (Low kline) <= toQ (Open kline))%Q /\
  (toQ (Open kline) <= toQ (High kline))%Q /\
  (toQ (Low kline) <= toQ (Close kline))%Q /\
  (toQ (Close kline) <= toQ (High kline))%Q.

(** One call that changes a manager: [Start], [Stop], [UnregisterStrategy]
    or a [RegisterStrategy] that returns. *)
Inductive manager_call {S H : Type} `{Manager.Strategy S H}
  : Manager.StrategyManager S -> Manager.StrategyManager S -> Prop :=
| call_Start sm : manager_call sm (fst (Manager.Start sm))
| call_Stop sm : manager_call sm (Manager.Stop sm)
| call_Unregister sm name :
    manager_call sm (fst (Manager.UnregisterStrategy sm name))
| call_Register sm name strategy h sm' err h' :
    Manager.RegisterStrategy sm name strategy h = Ok (sm', err, h') ->
    manager_call sm sm'.

(** Any number of such calls. *)
Inductive manager_calls {S H : Type} `{Manager.Strategy S H}
  : Manager.StrategyManager S -> Manager.StrategyManager S -> Prop :=
| calls_none sm : manager_calls sm sm
| calls_more sm sm' sm'' :
    manager_call sm sm' -> manager_calls sm' sm'' -> manager_calls sm sm''.

(** The store and the manager of the application: one strategy object, as
    the constructor makes it, registered under ["vegas_tunnel"]. *)
Definition app_heap : Manager.heap := {[ 0%nat := NewVegasTunnelStrategy ]}.

Definition app_manager : Manager.StrategyManager Manager.pointer :=
  Manager.mkManager {[ "vegas_tunnel" := Some 0%nat ]} false false.

(** What the manager reports under a name: the information of the object
    registered under it. *)
Definition reported (sm : Manager.StrategyManager Manager.pointer)
    (h : Manager.heap) (name : string) : option StrategyInfo.info :=
  match Manager.strategies sm !! name with
  | Some p => match Manager.deref p h with
              | Ok v => Some (StrategyInfo.GetStrategyInfo v)
              | Panic => None
              end
  | None => None
  end.

(* ===================================================================== *)
(** * The notification manager *)
(* ===================================================================== *)

Module Notification.

Definition error : Type := string.

Inductive NotificationType : Type :=
| NotificationInfo
| NotificationWarning
| NotificationError
| NotificationTrade
| NotificationSignal
| NotificationSystem.

Inductive NotificationPriority : Type :=
| PriorityLow
| PriorityNormal
| PriorityHigh
| PriorityCritical.

Record TradeNotificationData : Type := mkTradeData {
  TradeSymbol : string;
  Side : string;
  Quantity : Decimal.t;
  TradePrice : Decimal.t;
  OrderID : string;
  Status : string;
  Profit : Decimal.t;
  ProfitRate : Decimal.t
}.

Record SignalNotificationData : Type := mkSignalData {
  DataSymbol : string;
  DataSignalType : string;
  DataPrice : Decimal.t;
  DataConfidence : float;
  DataReason : string
}.

(** What the field [Data interface{}] holds in this package. *)
Inductive notification_data : Type :=
| NoData
| TradeData (data : TradeNotificationData)
| SignalData (data : SignalNotificationData).

(** [Notification]; the field [Type] is [Kind] here. *)
Record Notification : Type := mkNotification {
  Kind : NotificationType;
  Priority : NotificationPriority;
  Title : string;
  Message : string;
  Data : notification_data;
  NotificationTimestamp : Z;
  ChatIDs : list Z
}.

(** [NotificationManager].  The channel [queue] is its buffer, oldest
    element first, and whether it was closed; its capacity is 1000.  Of the
    context only whether [cancel] was called is kept.  Configuration, logger
    and bot take no part in the functions below. *)
Record NotificationManager : Type := mkNotifier {
  running : bool;
  cancelled : bool;
  queue : list Notification;
  closed : bool;
  workers : Z
}.

Definition queue_capacity : Z := 1000.

Definition New : NotificationManager := mkNotifier false false [] false 3.

(** [Start] also launches [workers] goroutines running [worker]; what a
    worker does to the manager is [worker_receives] below. *)
Definition Start (nm : NotificationManager)
  : NotificationManager * option error :=
  if running nm then (nm, Some "notification manager is already running")
  else (mkNotifier true (cancelled nm) (queue nm) (closed nm) (workers nm),
        None).

(** [Stop]: [close] of a channel that is already closed panics; the guard
    on [running] is what keeps a second [Stop] from reaching it. *)
Definition Stop (nm : NotificationManager)
  : res (NotificationManager * option error) :=
  if negb (running nm) then Ok (nm, None)
  else if closed nm then Panic
  else Ok (mkNotifier false true (queue nm) true (workers nm), None).

(** [SendNotification]: the notification is stamped with [now], the value
    of [time.Now()], before the [select].  A send on a closed channel
    panics, inside a [select] with a [default] case as well; on an open
    channel the send proceeds when the buffer has room, and the [default]
    case is taken otherwise. *)
Definition SendNotification (nm : NotificationManager)
    (notification : Notification) (now : Z)
  : res (NotificationManager * option error) :=
  if negb (running nm)
  then Ok (nm, Some "notification manager is not running")
  else
    let notification :=
      mkNotification (Kind notification) (Priority notification)
        (Title notification) (Message notification) (Data notification)
        now (ChatIDs notification) in
    if closed nm then Panic
    else if len (queue nm) <? queue_capacity
    then Ok (mkNotifier (running nm) (cancelled nm)
               (queue nm ++ [notification]) (closed nm) (workers nm), None)
    else Ok (nm, Some "notification queue is full").

Definition SendSystemNotification (nm : NotificationManager)
    (level title message : string) (now : Z)
  : res (NotificationManager * option error) :=
  let '(notificationType, priority) :=
    if String.eqb level "info" then (NotificationInfo, PriorityLow)
    else if String.eqb level "warning" then (NotificationWarning, PriorityNormal)
    else if String.eqb level "error" then (NotificationError, PriorityHigh)
    else (NotificationSystem, PriorityNormal) in
  SendNotification nm
    (mkNotification notificationType priority title message NoData 0 [])
    now.

(** A worker receiving from the channel takes its oldest element; this can
    happen whenever the buffer is not empty, closed or not. *)
Inductive worker_receives : NotificationManager -> NotificationManager -> Prop :=
| receive nm notification rest :
    queue nm = notification :: rest ->
    worker_receives nm
      (mkNotifier (running nm) (cancelled nm) rest (closed nm) (workers nm)).

(** Any number of receptions. *)
Inductive drained : NotificationManager -> NotificationManager -> Prop :=
| drained_refl nm : drained nm nm
| drained_step nm nm' nm'' :
    worker_receives nm nm' -> drained nm' nm'' -> drained nm nm''.

Definition IsRunning (nm : NotificationManager) : bool := running nm.

Definition GetQueueSize (nm : NotificationManager) : Z := len (queue nm).

Definition getPriorityIcon (priority : NotificationPriority) : string :=
  match priority with
  | PriorityLow => "ℹ️"
  | PriorityNormal => "📢"
  | PriorityHigh => "⚠️"
  | PriorityCritical => "🚨"
  end.

Definition signalTypeToString (signalType : SignalType) : string :=
  match signalType with
  | SignalBuy => "买入"
  | SignalSell => "卖出"
  | SignalStopLoss => "止损"
  | SignalTakeProfit => "止盈"
  | _ => "未知"
  end.

End Notification.

(* ===================================================================== *)
(** * Facts about decimals *)
(* ===================================================================== *)

Section DecimalFacts.

Lemma pow10_pos (e : Z) : (0 < Qpower (10 # 1) e)%Q.
Proof. apply Qpower_0_lt. reflexivity. Qed.

Lemma pow10_split (a b : Z) :
  (Qpower (10 # 1) (a + b) == Qpower (10 # 1) a * Qpower (10 # 1) b)%Q.
Proof. apply Qpower_plus. discriminate. Qed.

Lemma pow10_inject (n : Z) :
  0 <= n -> (inject_Z (10 ^ n) == Qpower (10 # 1) n)%Q.
Proof. intros Hn. rewrite Zpower_Qpower by exact Hn. reflexivity. Qed.

Lemma toQ_mk (v e : Z) :
  toQ (mk v e) = (inject_Z v * Qpower (10 # 1) e)%Q.
Proof. reflexivity. Qed.

(** Scaling the coefficient up while lowering the exponent keeps the number. *)
Lemma toQ_scale (v e k : Z) :
  0 <= k -> (toQ (mk (v * 10 ^ k) (e - k)) == toQ (mk v e))%Q.
Proof.
  intros Hk. rewrite !toQ_mk, inject_Z_mult, pow10_inject by exact Hk.
  replace e with ((e - k) + k) at 2 by lia.
  rewrite pow10_split. ring.
Qed.

Lemma rescale_exp (d : t) (e : Z) : exp (rescale d e) = e.
Proof.
  unfold rescale. destruct (Z.eqb_spec (exp d) e) as [->|Hne]; [reflexivity|].
  destruct (exp d <? e); reflexivity.
Qed.

Lemma rescale_down (d : t) (e : Z) :
  e <= exp d -> (toQ (rescale d e) == toQ d)%Q.
Proof.
  intros Hle. unfold rescale.
  destruct (Z.eqb_spec (exp d) e) as [Heq|Hne]; [reflexivity|].
  destruct (Z.ltb_spec (exp d) e) as [Hlt|_]; [lia|].
  replace (Z.abs (e - exp d)) with (exp d - e) by lia.
  replace e with (exp d - (exp d - e)) at 2 by lia.
  destruct d as [v ed]; simpl in *. apply toQ_scale. lia.
Qed.

Lemma RescalePair_spec (d1 d2 : t) :
  let '(r1, r2) := RescalePair d1 d2 in
  exp r1 = exp r2 /\ (toQ r1 == toQ d1)%Q /\ (toQ r2 == toQ d2)%Q.
Proof.
  unfold RescalePair.
  destruct (Z.ltb_spec (exp d1) (exp d2)) as [H12|H12].
  - rewrite rescale_exp. split; [reflexivity|]. split; [reflexivity|].
    apply rescale_down. lia.
  - destruct (Z.ltb_spec (exp d2) (exp d1)) as [H21|H21].
    + rewrite rescale_exp. split; [reflexivity|]. split; [|reflexivity].
      apply rescale_down. lia.
    + split; [lia|]. split; reflexivity.
Qed.

Lemma toQ_Add (a b : t) : (toQ (Add a b) == toQ a + toQ b)%Q.
Proof.
  unfold Add. pose proof (RescalePair_spec a b) as H.
  destruct (RescalePair a b) as [r1 r2]. destruct H as (He & H1 & H2).
  rewrite <- H1, <- H2. unfold toQ; simpl. rewrite inject_Z_plus, He. ring.
Qed.

Lemma toQ_Sub (a b : t) : (toQ (Sub a b) == toQ a - toQ b)%Q.
Proof.
  unfold Sub. pose proof (RescalePair_spec a b) as H.
  destruct (RescalePair a b) as [r1 r2]. destruct H as (He & H1 & H2).
  rewrite <- H1, <- H2. unfold toQ; simpl.
  unfold Z.sub. rewrite inject_Z_plus, inject_Z_opp, He. ring.
Qed.

Lemma toQ_Mul (a b : t) : (toQ (Mul a b) == toQ a * toQ b)%Q.
Proof.
  unfold Mul, toQ; simpl. rewrite inject_Z_mult, pow10_split. ring.
Qed.

(** Two decimals at one exponent compare as their coefficients. *)
Lemma same_exp_compare (a b : t) :
  exp a = exp b -> (toQ a ?= toQ b)%Q = (value a ?= value b).
Proof.
  intros He. unfold toQ. rewrite He.
  pose proof (pow10_pos (exp b)) as Hp.
  destruct (Z.compare_spec (value a) (value b)) as [Heq|Hlt|Hgt].
  - apply Qeq_alt. rewrite Heq. reflexivity.
  - apply Qlt_alt. apply Qmult_lt_compat_r; [exact Hp|].
    rewrite <- Zlt_Qlt. exact Hlt.
  - apply Qgt_alt. apply Qmult_lt_compat_r; [exact Hp|].
    rewrite <- Zlt_Qlt. lia.
Qed.

Lemma Cmp_compare (a b : t) :
  Cmp a b = match (toQ a ?= toQ b)%Q with Lt => -1 | Eq => 0 | Gt => 1 end.
Proof.
  unfold Cmp. destruct (Z.eqb_spec (exp a) (exp b)) as [He|He].
  - rewrite (same_exp_compare a b He). reflexivity.
  - pose proof (RescalePair_spec a b) as H.
    destruct (RescalePair a b) as [r1 r2]. destruct H as (Her & H1 & H2).
    rewrite <- (Qcompare_comp _ _ H1 _ _ H2).
    rewrite (same_exp_compare r1 r2 Her). reflexivity.
Qed.

Lemma GreaterThan_spec (a b : t) :
  GreaterThan a b = true <-> (toQ b < toQ a)%Q.
Proof.
  unfold GreaterThan. rewrite Cmp_compare.
  destruct (Qcompare_spec (toQ a) (toQ b)) as [H|H|H]; simpl.
  - split; [discriminate|]. intros Hlt. rewrite H in Hlt.
    exfalso; exact (Qlt_irrefl _ Hlt).
  - split; [discriminate|]. intros Hlt.
    exfalso; exact (Qlt_irrefl _ (Qlt_trans _ _ _ H Hlt)).
  - split; [intros _; exact H | reflexivity].
Qed.

Lemma LessThan_spec (a b : t) :
  LessThan a b = true <-> (toQ a < toQ b)%Q.
Proof.
  unfold LessThan. rewrite Cmp_compare.
  destruct (Qcompare_spec (toQ a) (toQ b)) as [H|H|H]; simpl.
  - split; [discriminate|]. intros Hlt. rewrite H in Hlt.
    exfalso; exact (Qlt_irrefl _ Hlt).
  - split; [intros _; exact H | reflexivity].
  - split; [discriminate|]. intros Hlt.
    exfalso; exact (Qlt_irrefl _ (Qlt_trans _ _ _ H Hlt)).
Qed.

Lemma GreaterThanOrEqual_spec (a b : t) :
  GreaterThanOrEqual a b = true <-> (toQ b <= toQ a)%Q.
Proof.
  unfold GreaterThanOrEqual. rewrite Cmp_compare.
  destruct (Qcompare_spec (toQ a) (toQ b)) as [H|H|H]; simpl.
  - split; [intros _; rewrite H; apply Qle_refl | reflexivity].
  - split; [discriminate|]. intros Hle.
    exfalso; exact (Qlt_not_le _ _ H Hle).
  - split; [intros _; apply Qlt_le_weak; exact H | reflexivity].
Qed.

Lemma LessThanOrEqual_spec (a b : t) :
  LessThanOrEqual a b = true <-> (toQ a <= toQ b)%Q.
Proof.
  unfold LessThanOrEqual. rewrite Cmp_compare.
  destruct (Qcompare_spec (toQ a) (toQ b)) as [H|H|H]; simpl.
  - split; [intros _; rewrite H; apply Qle_refl | reflexivity].
  - split; [intros _; apply Qlt_le_weak; exact H | reflexivity].
  - split; [discriminate|]. intros Hle.
    exfalso; exact (Qlt_not_le _ _ H Hle).
Qed.

Lemma Equal_spec (a b : t) : Equal a b = true <-> (toQ a == toQ b)%Q.
Proof.
  unfold Equal. rewrite Cmp_compare.
  destruct (Qcompare_spec (toQ a) (toQ b)) as [H|H|H]; simpl.
  - split; [intros _; exact H | reflexivity].
  - split; [discriminate|]. intros Heq. rewrite Heq in H.
    exfalso; exact (Qlt_irrefl _ H).
  - split; [discriminate|]. intros Heq. rewrite Heq in H.
    exfalso; exact (Qlt_irrefl _ H).
Qed.

(** Division panics on a zero divisor only. *)
Lemma Div_ok (a b : t) : value b <> 0 -> exists q, Div a b = Ok q.
Proof.
  intros Hb. unfold Div, DivRound, QuoRem.
  destruct (Z.eqb_spec (Z.sgn (value b)) 0) as [H0|_].
  { rewrite Z.sgn_null_iff in H0. contradiction. }
  destruct (exp a - exp b - - DivisionPrecision <? 0); cbn;
    repeat match goal with |- context [if ?c then _ else _] => destruct c end;
    eexists; reflexivity.
Qed.

End DecimalFacts.

Section Rounding.

(** Rounding a truncated quotient half away from zero leaves at most half
    a divisor of error. *)
Lemma round_half_away (aa bb : Z) :
  bb <> 0 ->
  let q := Z.quot aa bb in
  let r := Z.rem aa bb in
  let q' := if Z.abs r * 2 <? Z.abs bb then q
            else if Z.sgn aa * Z.sgn bb <? 0 then q - 1 else q + 1 in
  2 * Z.abs (q' * bb - aa) <= Z.abs bb.
Proof.
  intros Hbb q r q'.
  pose proof (Z.quot_rem' aa bb) as Hqr. fold q r in Hqr.
  pose proof (Z.rem_bound_abs aa bb Hbb) as Hrb. fold r in Hrb.
  pose proof (Z.rem_sign_mul aa bb Hbb) as Hrs. fold r in Hrs.
  subst q'. destruct (Z.ltb_spec (Z.abs r * 2) (Z.abs bb)) as [Hlt|Hge].
  - replace (q * bb - aa) with (- r) by lia. lia.
  - destruct (Z.ltb_spec (Z.sgn aa * Z.sgn bb) 0) as [Hneg|Hpos].
    + replace ((q - 1) * bb - aa) with (- (bb + r)) by lia.
      assert (aa <> 0) by (intros ->; simpl in Hneg; lia).
      destruct (Z.sgn_spec aa) as [[? Ha]|[[? Ha]|[? Ha]]];
      destruct (Z.sgn_spec bb) as [[? Hb]|[[? Hb]|[? Hb]]];
        rewrite Ha, Hb in Hneg; try lia; nia.
    + replace ((q + 1) * bb - aa) with (bb - r) by lia.
      assert (r <> 0) by lia.
      assert (aa <> 0) by (intros ->; unfold r in *; rewrite Z.rem_0_l in *; lia).
      destruct (Z.sgn_spec aa) as [[? Ha]|[[? Ha]|[? Ha]]];
      destruct (Z.sgn_spec bb) as [[? Hb]|[[? Hb]|[? Hb]]];
        rewrite Ha, Hb in Hpos; try lia; nia.
Qed.

Lemma sgn_scale (v k : Z) : 0 <= k -> Z.sgn (v * 10 ^ k) = Z.sgn v.
Proof.
  intros Hk. rewrite Z.sgn_mul.
  rewrite (Z.sgn_pos (10 ^ k)) by (apply Z.pow_pos_nonneg; lia). lia.
Qed.

(** The shape of [Div]: a coefficient at exponent -16, off the exact
    quotient [aa/bb] of the two rescaled coefficients by at most a half. *)
Lemma Div_shape (a b q : Decimal.t) :
  value b <> 0 ->
  Div a b = Ok q ->
  let e := exp a - exp b + DivisionPrecision in
  let aa := if e <? 0 then value a else value a * 10 ^ e in
  let bb := if e <? 0 then value b * 10 ^ (- e) else value b in
  exp q = - DivisionPrecision /\
  2 * Z.abs (value q * bb - aa) <= Z.abs bb.
Proof.
  intros Hb HDiv e aa bb.
  assert (Hbb : bb <> 0).
  { unfold bb. destruct (Z.ltb_spec e 0); [|exact Hb].
    apply Z.neq_mul_0. split; [exact Hb|]. apply Z.pow_nonzero; lia. }
  assert (Hsgn : Z.sgn (value a) * Z.sgn (value b) = Z.sgn aa * Z.sgn bb).
  { unfold aa, bb. destruct (Z.ltb_spec e 0).
    - rewrite sgn_scale by lia. reflexivity.
    - rewrite sgn_scale by lia. reflexivity. }
  pose proof (round_half_away aa bb Hbb) as Hround. cbv zeta in Hround.
  rewrite <- Hsgn in Hround.
  unfold Div, DivRound, QuoRem in HDiv.
  destruct (Z.eqb_spec (Z.sgn (value b)) 0) as [H0|_].
  { rewrite Z.sgn_null_iff in H0. contradiction. }
  replace (exp a - exp b - - DivisionPrecision) with e in HDiv by (unfold e; lia).
  assert (Hc : (Cmp (mk (Z.abs (Z.rem aa bb) * 2)
                        ((if e <? 0 then exp a else - DivisionPrecision + exp b)
                         + DivisionPrecision)) (Abs b) <? 0)
               = (Z.abs (Z.rem aa bb) * 2 <? Z.abs bb)).
  { assert (HAbs : Abs b = mk (Z.abs (value b)) (exp b)).
    { unfold Abs. destruct (Z.ltb_spec (value b) 0); [reflexivity|].
      destruct b as [vb eb]; simpl in *. f_equal. lia. }
    rewrite HAbs. unfold Cmp, bb; simpl.
    destruct (Z.ltb_spec e 0) as [He|He].
    - destruct (Z.eqb_spec (exp a + DivisionPrecision) (exp b)) as [Heq|_];
        [unfold e in He; lia|].
      unfold RescalePair; simpl.
      destruct (Z.ltb_spec (exp a + DivisionPrecision) (exp b)) as [_|Hge];
        [|unfold e in He; lia].
      unfold rescale; simpl.
      destruct (Z.eqb_spec (exp b) (exp a + DivisionPrecision)) as [Heq|_];
        [unfold e in He; lia|].
      destruct (Z.ltb_spec (exp b) (exp a + DivisionPrecision)) as [Hlt|_];
        [unfold e in He; lia|].
      simpl.
      replace (Z.abs (exp a + DivisionPrecision - exp b)) with (- e)
        by (unfold e in *; lia).
      rewrite Z.abs_mul, (Z.abs_eq (10 ^ (- e))) by (apply Z.pow_nonneg; lia).
      unfold big_Cmp.
      destruct (Z.compare_spec (Z.abs (Z.rem aa (value b * 10 ^ (- e))) * 2)
                  (Z.abs (value b) * 10 ^ (- e)));
        destruct (Z.ltb_spec (Z.abs (Z.rem aa (value b * 10 ^ (- e))) * 2)
                    (Z.abs (value b) * 10 ^ (- e))); try reflexivity; lia.
    - replace (- DivisionPrecision + exp b + DivisionPrecision) with (exp b)
        by lia.
      rewrite Z.eqb_refl. unfold big_Cmp.
      destruct (Z.compare_spec (Z.abs (Z.rem aa (value b)) * 2)
                  (Z.abs (value b)));
        destruct (Z.ltb_spec (Z.abs (Z.rem aa (value b)) * 2)
                    (Z.abs (value b))); try reflexivity; lia. }
  assert (HDiv' :
    (if Z.abs (Z.rem aa bb) * 2 <? Z.abs bb then Ok (mk (Z.quot aa bb) (- DivisionPrecision))
     else if Z.sgn (value a) * Z.sgn (value b) <? 0
          then Ok (Sub (mk (Z.quot aa bb) (- DivisionPrecision)) (New 1 (- DivisionPrecision)))
          else Ok (Add (mk (Z.quot aa bb) (- DivisionPrecision)) (New 1 (- DivisionPrecision))))
    = Ok q).
  { rewrite <- Hc. rewrite <- HDiv. unfold aa, bb.
    destruct (e <? 0); reflexivity. }
  clear HDiv Hc.
  destruct (Z.abs (Z.rem aa bb) * 2 <? Z.abs bb).
  - injection HDiv' as <-. simpl. split; [reflexivity | exact Hround].
  - destruct (Z.sgn (value a) * Z.sgn (value b) <? 0);
      injection HDiv' as <-; simpl; (split; [reflexivity | exact Hround]).
Qed.


Lemma inject_Z_sub (x y : Z) :
  inject_Z (x - y) = (inject_Z x - inject_Z y)%Q.
Proof.
  unfold Z.sub, Qminus. rewrite inject_Z_plus, inject_Z_opp. reflexivity.
Qed.

Lemma Qabs_inject_Z (z : Z) : (Qabs (inject_Z z) == inject_Z (Z.abs z))%Q.
Proof. reflexivity. Qed.

Lemma toQ_nonzero (b : Decimal.t) : value b <> 0 -> ~ (toQ b == 0)%Q.
Proof.
  intros Hb H0. unfold toQ in H0. apply Qmult_integral in H0 as [H0|H0].
  - apply Hb. apply (inject_Z_injective (value b) 0). exact H0.
  - pose proof (pow10_pos (exp b)) as Hp. rewrite H0 in Hp.
    exact (Qlt_irrefl _ Hp).
Qed.

#[local] Open Scope Q_scope.

(** In numbers: [Div] is the exact quotient up to half a unit of the
    sixteenth decimal place. *)
Lemma Div_accuracy (a b q : Decimal.t) :
  value b <> 0%Z ->
  Div a b = Ok q ->
  Qabs (toQ q - toQ a / toQ b) <= (1 # 2) * Qpower (10 # 1) (-16).
Proof.
  intros Hb HDiv.
  destruct (Div_shape a b q Hb HDiv) as [Hexp Hround].
  pose proof (toQ_nonzero b Hb) as HbQ.
  unfold DivisionPrecision in *. change (- (16))%Z with (-16)%Z in Hexp.
  set (e := (exp a - exp b + 16)%Z) in *.
  set (aa := if (e <? 0)%Z then value a else (value a * 10 ^ e)%Z) in *.
  set (bb := if (e <? 0)%Z then (value b * 10 ^ (- e))%Z else value b) in *.
  set (s := if (e <? 0)%Z then Qpower (10 # 1) (exp a)
            else Qpower (10 # 1) (exp b + -16)).
  assert (Hs : 0 < s) by (unfold s; destruct (e <? 0)%Z; apply pow10_pos).
  assert (H16 : Qpower (10 # 1) (-16) * Qpower (10 # 1) 16 == 1)
    by reflexivity.
  assert (Hnum : toQ q * toQ b - toQ a == s * inject_Z (value q * bb - aa)).
  { unfold toQ, s, aa, bb. rewrite Hexp.
    destruct (Z.ltb_spec e 0) as [He|He].
    - rewrite inject_Z_sub, !inject_Z_mult.
      rewrite pow10_inject by lia.
      replace (exp b) with (exp a + 16 + - e)%Z at 1 by (unfold e; lia).
      rewrite !pow10_split.
      transitivity
        ((Qpower (10 # 1) (-16) * Qpower (10 # 1) 16) *
         (Qpower (10 # 1) (exp a) *
          (inject_Z (value q) * (inject_Z (value b) * Qpower (10 # 1) (- e))))
         - inject_Z (value a) * Qpower (10 # 1) (exp a)); [ring|].
      rewrite H16. ring.
    - rewrite inject_Z_sub, !inject_Z_mult.
      rewrite pow10_inject by lia.
      replace (exp a) with (exp b + -16 + e)%Z at 1 by (unfold e; lia).
      rewrite !pow10_split. ring. }
  assert (Hden : Qabs (toQ b) * Qpower (10 # 1) (-16) == s * inject_Z (Z.abs bb)).
  { unfold toQ, s, bb.
    rewrite Qabs_Qmult, (Qabs_pos (Qpower (10 # 1) (exp b)))
      by (apply Qlt_le_weak, pow10_pos).
    rewrite Qabs_inject_Z.
    destruct (Z.ltb_spec e 0) as [He|He].
    - rewrite Z.abs_mul, (Z.abs_eq (10 ^ (- e))) by (apply Z.pow_nonneg; lia).
      rewrite inject_Z_mult, pow10_inject by lia.
      replace (exp b) with (exp a + 16 + - e)%Z at 1 by (unfold e; lia).
      rewrite !pow10_split.
      transitivity
        ((Qpower (10 # 1) (-16) * Qpower (10 # 1) 16) *
         (Qpower (10 # 1) (exp a) *
          (inject_Z (Z.abs (value b)) * Qpower (10 # 1) (- e)))); [ring|].
      rewrite H16. ring.
    - rewrite pow10_split. ring. }
  assert (Hle : 2 * Qabs (toQ q * toQ b - toQ a)
                <= Qabs (toQ b) * Qpower (10 # 1) (-16)).
  { rewrite Hnum, Hden, Qabs_Qmult, (Qabs_pos s)
      by (apply Qlt_le_weak; exact Hs).
    rewrite Qabs_inject_Z.
    setoid_replace (2 * (s * inject_Z (Z.abs (value q * bb - aa))))
      with (s * inject_Z (2 * Z.abs (value q * bb - aa)))
      using relation Qeq by (rewrite inject_Z_mult; ring).
    apply Qmult_le_l; [exact Hs|]. rewrite <- Zle_Qle. exact Hround. }
  assert (HbA : 0 < Qabs (toQ b)).
  { destruct (Qlt_le_dec 0 (Qabs (toQ b))) as [|Hneg]; [assumption|].
    exfalso. apply HbQ. apply Qabs_Qle_condition in Hneg. lra. }
  setoid_replace (toQ q - toQ a / toQ b)
    with ((toQ q * toQ b - toQ a) / toQ b)
    using relation Qeq by (field; exact HbQ).
  unfold Qdiv at 1. rewrite Qabs_Qmult, Qabs_Qinv.
  apply Qmult_le_r with (z := Qabs (toQ b)); [exact HbA|].
  setoid_replace (Qabs (toQ q * toQ b - toQ a) * / Qabs (toQ b) * Qabs (toQ b))
    with (Qabs (toQ q * toQ b - toQ a))
    using relation Qeq by (field; lra).
  lra.
Qed.

End Rounding.

#[local] Close Scope Q_scope.

(* ===================================================================== *)
(** * Facts about float64: the smoothing factor is finite *)
(* ===================================================================== *)

Section FloatFacts.

Lemma digits2_pos_size (p : positive) : digits2_pos p = Pos.size p.
Proof. induction p as [p IH|p IH|]; cbn; rewrite ?IH; reflexivity. Qed.

Lemma Zdigits2_nonneg (m : Z) : 0 <= Zdigits2 m.
Proof. destruct m; cbn; lia. Qed.

Lemma Zdigits2_pos (m : positive) : 1 <= Zdigits2 (Zpos m).
Proof. cbn. lia. Qed.

(** [m < 2^(Zdigits2 m)] and [2^(Zdigits2 m - 1) <= m]. *)
Lemma Zdigits2_gt (m : positive) : Zpos m < 2 ^ Zdigits2 (Zpos m).
Proof.
  cbn [Zdigits2]. rewrite digits2_pos_size.
  pose proof (Pos.size_gt m) as H.
  apply Pos2Z.pos_lt_pos in H. rewrite Pos2Z.inj_pow in H. exact H.
Qed.

Lemma Zdigits2_le_value (m : positive) : 2 ^ (Zdigits2 (Zpos m) - 1) <= Zpos m.
Proof.
  cbn [Zdigits2]. rewrite digits2_pos_size.
  pose proof (Pos.size_le m) as H.
  apply Pos2Z.pos_le_pos in H. rewrite Pos2Z.inj_pow in H.
  replace (Z.pos (Pos.size m)) with (Z.succ (Z.pos (Pos.size m) - 1)) in H by lia.
  rewrite Z.pow_succ_r in H by lia. lia.
Qed.

Lemma Zdigits2_upper (m k : Z) : 0 <= m -> 0 <= k -> m < 2 ^ k -> Zdigits2 m <= k.
Proof.
  intros Hm Hk Hlt. destruct m as [|m|m]; [cbn; lia| |lia].
  pose proof (Zdigits2_le_value m) as Hle.
  pose proof (Zdigits2_pos m) as Hp.
  destruct (Z.le_gt_cases (Zdigits2 (Zpos m)) k) as [|Hgt]; [assumption|].
  exfalso.
  assert (2 ^ k <= 2 ^ (Zdigits2 (Z.pos m) - 1)) by (apply Z.pow_le_mono_r; lia).
  lia.
Qed.

Lemma shr_1_m (r : shr_record) :
  0 <= shr_m r -> shr_m (shr_1 r) = shr_m r / 2.
Proof.
  destruct r as [m b s]. cbn [shr_m]. intros Hm.
  destruct m as [|[p|p|]|p]; cbn [shr_1 shr_m]; try lia; try reflexivity.
  - apply Z.div_unique with (r := 1); lia.
  - apply Z.div_unique with (r := 0); lia.
Qed.

Lemma iter_shr_m (p : positive) :
  forall r, 0 <= shr_m r ->
    shr_m (SpecFloat.iter_pos shr_1 p r) = shr_m r / 2 ^ Zpos p.
Proof.
  assert (Hstep : forall r, 0 <= shr_m r -> 0 <= shr_m (shr_1 r)).
  { intros r Hr. rewrite shr_1_m by exact Hr. apply Z.div_pos; lia. }
  assert (Hpow : forall q, 0 < 2 ^ Zpos q) by (intros; apply Z.pow_pos_nonneg; lia).
  induction p as [p IH|p IH|]; intros r Hr; cbn [SpecFloat.iter_pos].
  - rewrite IH, IH, shr_1_m by (rewrite ?IH; auto; apply Z.div_pos; auto).
    rewrite !Z.div_div by (auto; lia).
    f_equal. rewrite <- Z.pow_add_r, <- Z.pow_succ_r by lia.
    f_equal. lia.
  - rewrite IH, IH by (rewrite ?IH; auto; apply Z.div_pos; auto).
    rewrite !Z.div_div by (auto; lia).
    f_equal. rewrite <- Z.pow_add_r by lia.
    f_equal. lia.
  - rewrite shr_1_m by exact Hr. reflexivity.
Qed.


Lemma fexp_eq (x : Z) : fexp prec emax x = Z.max (x - 53) (-1074).
Proof. reflexivity. Qed.

(** A right shift to the canonical exponent: the exponent reached and the
    mantissa left. *)
Lemma shr_fexp_spec (m e : Z) (l : location) :
  0 <= m ->
  exists mrs e',
    shr_fexp prec emax m e l = (mrs, e') /\
    e' = Z.max e (fexp prec emax (Zdigits2 m + e)) /\
    shr_m mrs = m / 2 ^ (e' - e).
Proof.
  intros Hm. unfold shr_fexp, shr.
  assert (Hrec : shr_m (shr_record_of_loc m l) = m)
    by (destruct l as [|[]]; reflexivity).
  destruct (fexp prec emax (Zdigits2 m + e) - e) as [|p|p] eqn:Hn.
  - eexists _, _. split; [reflexivity|]. split; [lia|].
    rewrite Hrec, Z.sub_diag, Z.pow_0_r, Z.div_1_r. reflexivity.
  - eexists _, _. split; [reflexivity|]. split; [lia|].
    rewrite iter_shr_m by (rewrite Hrec; exact Hm). rewrite Hrec.
    f_equal. f_equal. lia.
  - eexists _, _. split; [reflexivity|]. split; [lia|].
    rewrite Hrec, Z.sub_diag, Z.pow_0_r, Z.div_1_r. reflexivity.
Qed.

Lemma round_nearest_even_bounds (m : Z) (l : location) :
  m <= round_nearest_even m l <= m + 1.
Proof.
  unfold round_nearest_even. destruct l as [|[]]; try lia.
  destruct (Z.even m); lia.
Qed.

(** A shift that stays below the number of digits leaves a positive
    mantissa. *)
Lemma shifted_pos (m k : Z) :
  0 < m -> 0 <= k <= Zdigits2 m - 1 -> 0 < m / 2 ^ k.
Proof.
  intros Hm Hk. destruct m as [|m|m]; try lia.
  pose proof (Zdigits2_le_value m) as Hle.
  apply Z.div_str_pos. split; [apply Z.pow_pos_nonneg; lia|].
  apply Z.le_trans with (2 ^ (Zdigits2 (Z.pos m) - 1)); [|exact Hle].
  apply Z.pow_le_mono_r; lia.
Qed.

(** Rounding a mantissa below 2^120 at a moderate exponent gives zero or a
    finite float, a finite one when the mantissa is positive; the exponent
    does not go down. *)
Lemma binary_round_aux_finite (sx : bool) (mz ez : Z) (lz : location) :
  0 <= mz < 2 ^ 120 -> -1021 <= ez <= 700 ->
  match binary_round_aux prec emax sx mz ez lz with
  | S754_zero _ => mz = 0
  | S754_finite _ m e => ez <= e <= ez + 140
  | _ => False
  end.
Proof.
  intros [Hm0 Hm] [He0 He]. unfold binary_round_aux.
  destruct (shr_fexp_spec mz ez lz Hm0) as (mrs' & e' & -> & He' & Hm').
  pose proof (Zdigits2_nonneg mz) as HD0.
  assert (HD : Zdigits2 mz <= 120) by (apply Zdigits2_upper; lia).
  rewrite fexp_eq in He'.
  assert (Hm'0 : 0 <= shr_m mrs' <= mz).
  { rewrite Hm'. split.
    - apply Z.div_pos; [lia | apply Z.pow_pos_nonneg; lia].
    - apply Z.div_le_upper_bound; [apply Z.pow_pos_nonneg; lia|].
      assert (1 <= 2 ^ (e' - ez)) by (apply (Z.pow_le_mono_r 2 0); lia).
      nia. }
  set (m1 := round_nearest_even (shr_m mrs') (loc_of_shr_record mrs')).
  pose proof (round_nearest_even_bounds (shr_m mrs') (loc_of_shr_record mrs'))
    as Hm1. fold m1 in Hm1.
  destruct (shr_fexp_spec m1 e' loc_Exact ltac:(lia))
    as (mrs'' & e'' & -> & He'' & Hm'').
  pose proof (Zdigits2_nonneg m1) as HD10.
  assert (HD1 : Zdigits2 m1 <= 121)
    by (apply Zdigits2_upper; try lia;
        change (2 ^ 121) with (2 * 2 ^ 120); lia).
  rewrite fexp_eq in He''.
  assert (Hm''0 : 0 <= shr_m mrs'').
  { rewrite Hm''. apply Z.div_pos; [lia | apply Z.pow_pos_nonneg; lia]. }
  destruct (shr_m mrs'') as [|m|m] eqn:Hfin; [| |lia].
  - (* a zero mantissa at the end means there was none at the start *)
    destruct (Z.eq_dec mz 0) as [|Hnz]; [assumption|]. exfalso.
    assert (Hdig : forall z, 0 < z -> 1 <= Zdigits2 z).
    { intros [|z|z] Hz; try lia. apply Zdigits2_pos. }
    pose proof (Hdig mz ltac:(lia)) as HDp.
    assert (H1 : 0 < shr_m mrs').
    { rewrite Hm'. apply shifted_pos; lia. }
    pose proof (Hdig m1 ltac:(lia)) as HD1p.
    assert (H2 : 0 < m1 / 2 ^ (e'' - e')) by (apply shifted_pos; lia).
    lia.
  - destruct (Z.leb_spec e'' (emax - prec)) as [_|Hbig].
    + lia.
    + change (emax - prec) with 971 in Hbig. lia.
Qed.


Lemma iter_xO (mx d : positive) :
  Zpos (Pos.iter xO mx d) = Zpos mx * 2 ^ Zpos d.
Proof.
  induction d as [|d IH] using Pos.peano_ind.
  - cbn. lia.
  - rewrite Pos.iter_succ, Pos2Z.inj_xO, IH, Pos2Z.inj_succ.
    rewrite Z.pow_succ_r by lia. lia.
Qed.

(** [float64(n)] of a positive integer below 2^63 is a finite float. *)
Lemma of_uint63_finite (n : Z) :
  1 <= n < 2 ^ 63 ->
  exists my ey,
    Prim2SF (of_uint63 (of_Z n)) = S754_finite false my ey /\
    -53 <= ey <= 150 /\ Zdigits2 (Zpos my) <= 53.
Proof.
  intros Hn.
  pose proof (Prim2SF_valid (of_uint63 (of_Z n))) as Hvalid.
  rewrite of_uint63_spec in Hvalid |- *.
  rewrite of_Z_spec, Z.mod_small in Hvalid |- * by (change wB with (2 ^ 63); lia).
  destruct n as [|p|p]; try lia.
  cbn [binary_normalize] in Hvalid |- *. unfold binary_round in Hvalid |- *.
  pose proof (Zdigits2_gt p) as Hgt. pose proof (Zdigits2_pos p) as Hpos.
  assert (HD : Zdigits2 (Zpos p) <= 63) by (apply Zdigits2_upper; lia).
  cbn [Zdigits2] in Hgt, Hpos, HD.
  set (D := Zpos (digits2_pos p)) in *.
  assert (Hfexp : fexp prec emax (D + 0) = D - 53) by (rewrite fexp_eq; lia).
  rewrite Hfexp in Hvalid |- *. unfold shl_align in Hvalid |- *.
  assert (Hround : forall mz ez,
            0 < Zpos mz < 2 ^ 120 -> -53 <= ez <= 10 ->
            valid_binary
              (binary_round_aux prec emax false (Zpos mz) ez loc_Exact) = true ->
            exists my ey,
              binary_round_aux prec emax false (Zpos mz) ez loc_Exact
              = S754_finite false my ey /\
              -53 <= ey <= 150 /\ Zdigits2 (Zpos my) <= 53).
  { intros mz ez Hmz Hez Hv.
    pose proof (binary_round_aux_finite false (Zpos mz) ez loc_Exact
                  ltac:(lia) ltac:(lia)) as Hfin.
    destruct (binary_round_aux prec emax false (Zpos mz) ez loc_Exact)
      as [s|s| |s my ey] eqn:E; try contradiction; try lia.
    assert (s = false) as ->.
    { unfold binary_round_aux in E.
      destruct (shr_fexp prec emax (Z.pos mz) ez loc_Exact) as [mrs' e'].
      destruct (shr_fexp prec emax _ e' loc_Exact) as [mrs'' e''].
      destruct (shr_m mrs''); try discriminate.
      destruct (e'' <=? emax - prec); congruence. }
    exists my, ey. split; [reflexivity|]. split; [lia|].
    unfold SpecFloat.valid_binary, bounded, canonical_mantissa in Hv.
    apply andb_prop in Hv as [Hc _]. apply Z.eqb_eq in Hc.
    rewrite fexp_eq in Hc. cbn [Zdigits2]. lia. }
  destruct (D - 53 - 0) as [|d|d] eqn:Hd.
  - apply Hround; [lia | lia | exact Hvalid].
  - apply Hround; [lia | lia | exact Hvalid].
  - apply Hround; [| lia | exact Hvalid].
    rewrite iter_xO. split; [lia|].
    assert (2 ^ Zpos d <= 2 ^ 52) by (apply Z.pow_le_mono_r; lia).
    change (2 ^ 120) with (2 ^ 63 * 2 ^ 57).
    assert (2 ^ 52 < 2 ^ 57) by reflexivity. nia.
Qed.


(** Two divided by a finite float of magnitude at least 2^-53 is zero or
    finite. *)
Lemma two_over_finite (my : positive) (ey : Z) :
  -53 <= ey <= 150 -> Zdigits2 (Zpos my) <= 53 ->
  match SF64div (Prim2SF 2) (S754_finite false my ey) with
  | S754_zero _ | S754_finite _ _ _ => True
  | _ => False
  end.
Proof.
  intros Hey HD.
  assert (H2 : Prim2SF 2 = S754_finite false 4503599627370496 (-51))
    by (vm_compute; reflexivity).
  rewrite H2. unfold SF64div, SFdiv, SFdiv_core_binary.
  pose proof (Zdigits2_pos my) as HD1.
  change (Zdigits2 (Z.pos 4503599627370496)) with 53.
  set (D := Zdigits2 (Zpos my)) in *.
  rewrite fexp_eq.
  set (e' := Z.min (Z.max (53 + -51 - (D + ey) - 53) (-1074)) (-51 - ey)).
  assert (He' : -51 - D - ey <= e' <= -51 - ey) by (unfold e'; lia).
  set (m' := match -51 - ey - e' with
             | 0 => Z.pos 4503599627370496
             | Z.pos _ => Z.shiftl (Z.pos 4503599627370496) (-51 - ey - e')
             | Z.neg _ => 0
             end).
  assert (Hm' : 0 <= m' < 2 ^ 106).
  { unfold m'. destruct (-51 - ey - e') as [|s|s] eqn:Hs.
    - split; [lia | reflexivity].
    - rewrite Z.shiftl_mul_pow2 by lia.
      assert (2 ^ Zpos s <= 2 ^ 53) by (apply Z.pow_le_mono_r; lia).
      change (2 ^ 106) with (2 ^ 53 * 2 ^ 53).
      change (Z.pos 4503599627370496) with (2 ^ 52).
      assert (2 ^ 52 < 2 ^ 53) by reflexivity.
      assert (0 < 2 ^ Zpos s) by (apply Z.pow_pos_nonneg; lia).
      split; nia.
    - split; [lia | reflexivity]. }
  pose proof (Z.div_eucl_eq m' (Zpos my) ltac:(lia)) as Hdiv.
  pose proof (Z.mod_pos_bound m' (Zpos my) ltac:(lia)) as Hmod.
  unfold Z.modulo in Hmod.
  destruct (Z.div_eucl m' (Z.pos my)) as [q r].
  assert (Hq : 0 <= q < 2 ^ 120).
  { assert (2 ^ 106 < 2 ^ 120) by reflexivity. split; nia. }
  pose proof (binary_round_aux_finite (xorb false false) q e'
                (new_location (Z.pos my) r) Hq ltac:(lia)) as Hfin.
  destruct (binary_round_aux prec emax (xorb false false) q e'
              (new_location (Z.pos my) r)); tauto.
Qed.

(** The smoothing factor of a positive period is a finite float. *)
Lemma alpha_finite (n : Z) :
  2 <= n < 2 ^ 63 ->
  match Prim2SF (2 / of_uint63 (of_Z n))%float with
  | S754_zero _ | S754_finite _ _ _ => True
  | _ => False
  end.
Proof.
  intros Hn. rewrite FloatAxioms.div_spec.
  destruct (of_uint63_finite n ltac:(lia)) as (my & ey & -> & Hey & HD).
  apply two_over_finite; assumption.
Qed.

End FloatFacts.

(* ===================================================================== *)
(** * The loops of the smoothing and tunnel code *)
(* ===================================================================== *)

Section Loops.

Lemma bind_Ok {A B} (a : A) (k : A -> res B) : (Ok a ≫= k) = k a.
Proof. reflexivity. Qed.

Lemma index_lookup {A} (s : list A) (i : nat) (x : A) :
  s !! i = Some x -> index s (Z.of_nat i) = Ok x.
Proof.
  intros H. unfold index.
  destruct (Z.ltb_spec (Z.of_nat i) 0) as [Hneg|_]; [lia|].
  rewrite Nat2Z.id, H. reflexivity.
Qed.

Lemma index_Ok_inv {A} (s : list A) (i : Z) (x : A) :
  index s i = Ok x -> 0 <= i /\ s !! Z.to_nat i = Some x.
Proof.
  unfold index. destruct (Z.ltb_spec i 0) as [|Hi]; [discriminate|].
  destruct (s !! Z.to_nat i) eqn:E; [|discriminate].
  intros [= ->]. split; [exact Hi | reflexivity].
Qed.

Lemma store_insert {A} (s : list A) (i : nat) (x : A) :
  (i < length s)%nat -> store s (Z.of_nat i) x = Ok (<[i := x]> s).
Proof.
  intros H. unfold store.
  destruct (Z.ltb_spec (Z.of_nat i) 0) as [Hneg|_]; [lia|].
  destruct (Z.leb_spec (Z.of_nat (length s)) (Z.of_nat i)) as [Hge|_]; [lia|].
  simpl. rewrite Nat2Z.id. reflexivity.
Qed.

Lemma store_negative {A} (s : list A) (i : Z) (x : A) :
  i < 0 -> store s i x = Panic.
Proof.
  intros H. unfold store. destruct (Z.ltb_spec i 0) as [_|]; [reflexivity|lia].
Qed.

Lemma for_loop_empty {S} (lo hi : Z) (body : Z -> S -> res S) (s : S) :
  hi <= lo -> for_loop lo hi body s = Ok s.
Proof.
  intros H. unfold for_loop. replace (Z.to_nat (hi - lo)) with O by lia.
  reflexivity.
Qed.

(** The summation loop of [CalculateEMA]. *)
Lemma sum_loop (prices : list Decimal.t) :
  forall (n i : nat) (acc : Decimal.t),
    (i + n <= length prices)%nat ->
    for_range n (Z.of_nat i)
      (fun i sum => p ← index prices i; Ok (Add sum p)) acc
    = Ok (foldl Add acc (take n (drop i prices))).
Proof.
  induction n as [|n IH]; intros i acc Hlen; [reflexivity|].
  destruct (lookup_lt_is_Some_2 prices i ltac:(lia)) as [x Hx].
  cbn [for_range]. rewrite (index_lookup _ _ _ Hx), !bind_Ok.
  replace (Z.of_nat i + 1) with (Z.of_nat (S i)) by lia.
  rewrite IH by lia.
  rewrite (drop_S _ _ _ Hx). reflexivity.
Qed.

(** The smoothing loop of [CalculateEMA]: with the entries up to [prev]
    written and the rest still zero, it writes [ema_tail]. *)
Lemma ema_loop (alpha : Decimal.t) (prices : list Decimal.t) :
  forall (ps pre : list Decimal.t) (prev : Decimal.t),
    drop (S (length pre)) prices = ps ->
    for_range (length ps) (Z.of_nat (S (length pre)))
      (fun i result =>
         p ← index prices i;
         prev ← index result (i - 1);
         store result i
           (Add (Mul p alpha) (Mul prev (Sub (NewFromInt 1) alpha))))
      (pre ++ prev :: replicate (length ps) zero_value)
    = Ok (pre ++ prev :: ema_tail alpha prev ps).
Proof.
  induction ps as [|x ps IH]; intros pre prev Hdrop; [reflexivity|].
  assert (Hx : prices !! S (length pre) = Some x).
  { rewrite <- (Nat.add_0_r (S (length pre))), <- lookup_drop, Hdrop.
    reflexivity. }
  cbn [for_range length]. rewrite (index_lookup _ _ _ Hx), bind_Ok.
  replace (Z.of_nat (S (length pre)) - 1) with (Z.of_nat (length pre)) by lia.
  rewrite (index_lookup _ (length pre) prev), bind_Ok
    by (rewrite lookup_app_r, Nat.sub_diag by lia; reflexivity).
  rewrite store_insert
    by (rewrite length_app; cbn; rewrite length_replicate; lia).
  rewrite bind_Ok.
  replace (<[S (length pre):=_]> (pre ++ prev :: replicate (S (length ps)) zero_value))
    with ((pre ++ [prev]) ++ ema_step alpha x prev
            :: replicate (length ps) zero_value).
  2:{ rewrite <- app_assoc. cbn.
      rewrite insert_app_r_alt by lia.
      replace (S (length pre) - length pre)%nat with 1%nat by lia.
      reflexivity. }
  replace (Z.of_nat (S (length pre)) + 1)
    with (Z.of_nat (S (length (pre ++ [prev]))))
    by (rewrite length_app; cbn; lia).
  rewrite IH.
  - rewrite <- app_assoc. reflexivity.
  - rewrite length_app; cbn.
    replace (S (length pre + 1)) with (S (S (length pre))) by lia.
    rewrite <- (drop_drop prices 1 (S (length pre))) || idtac.
    apply (f_equal (drop 1)) in Hdrop. rewrite drop_drop in Hdrop.
    replace (S (length pre) + 1)%nat with (S (S (length pre))) in Hdrop by lia.
    exact Hdrop.
Qed.

End Loops.

Section EMA.

Lemma period_ok_pos (p : Z) : period_ok p = true -> 1 <= p.
Proof.
  unfold period_ok. intros H. apply andb_prop in H as [H _].
  apply Z.leb_le. exact H.
Qed.

(** The smoothing factor of a usable period converts to a decimal. *)
Lemma alpha_converts (p : Z) :
  period_ok p = true -> exists alpha, NewFromFloat (alpha_float p) = Ok alpha.
Proof.
  unfold period_ok, int_max. intros H. apply andb_prop in H as [H1 H2].
  apply Z.leb_le in H1. apply Z.ltb_lt in H2.
  unfold NewFromFloat, alpha_float, float64_of_int.
  destruct (Z.ltb_spec (p + 1) 0) as [|_]; [lia|].
  pose proof (alpha_finite (p + 1) ltac:(lia)) as Hfin.
  destruct (Prim2SF (2 / of_uint63 (of_Z (p + 1)))) as [s|s| |s m e];
    try contradiction.
  - eauto.
  - destruct (nd _ <? 19); eauto.
Qed.

(** What [CalculateEMA] returns on a series at least as long as the
    period, as one list. *)
Lemma CalculateEMA_unfold (prices : list Decimal.t) (p : Z)
    (alpha sma : Decimal.t) :
  1 <= p <= len prices ->
  NewFromFloat (alpha_float p) = Ok alpha ->
  Div (foldl Add Zero (take (Z.to_nat p) prices)) (NewFromInt p) = Ok sma ->
  CalculateEMA prices p
  = Ok (Some (replicate (Z.to_nat p - 1) zero_value
              ++ sma :: ema_tail alpha sma (drop (Z.to_nat p) prices))).
Proof.
  intros [Hp Hlen] Halpha Hsma. unfold CalculateEMA, len in *.
  destruct (Z.ltb_spec (Z.of_nat (length prices)) p) as [Hlt|_]; [lia|].
  unfold alpha_float in Halpha. rewrite Halpha, bind_Ok.
  unfold for_loop. rewrite Z.sub_0_r.
  change 0 with (Z.of_nat 0) at 1.
  rewrite (sum_loop prices (Z.to_nat p) 0 Zero) by lia.
  rewrite drop_0, bind_Ok, Hsma, bind_Ok.
  replace (p - 1) with (Z.of_nat (Z.to_nat p - 1)) by lia.
  rewrite store_insert by (rewrite length_replicate; lia).
  rewrite bind_Ok.
  set (pre := replicate (Z.to_nat p - 1) zero_value).
  set (ps := drop (Z.to_nat p) prices).
  assert (Hpre : length pre = (Z.to_nat p - 1)%nat)
    by (unfold pre; apply length_replicate).
  assert (Hps : length ps = (length prices - Z.to_nat p)%nat)
    by (unfold ps; apply length_drop).
  replace (<[(Z.to_nat p - 1)%nat:=sma]> (replicate (length prices) zero_value))
    with (pre ++ sma :: replicate (length ps) zero_value).
  2:{ replace (length prices)
        with ((Z.to_nat p - 1) + S (length ps))%nat by lia.
      rewrite replicate_add. cbn [replicate].
      rewrite insert_app_r_alt by (rewrite length_replicate; lia).
      rewrite length_replicate, Nat.sub_diag. reflexivity. }
  replace (Z.to_nat (Z.of_nat (length prices) - p)) with (length ps) by lia.
  replace p with (Z.of_nat (S (length pre))) at 1 by lia.
  rewrite (ema_loop alpha prices ps pre sma).
  - reflexivity.
  - unfold ps. f_equal. lia.
Qed.

End EMA.

Section Tunnel.

Lemma is_ok_inv {A} (m : res A) : is_ok m = true -> exists a, m = Ok a.
Proof. destruct m; [eauto | discriminate]. Qed.

Lemma CalculateEMA_short (prices : list Decimal.t) (p : Z) :
  len prices < p -> CalculateEMA prices p = Ok None.
Proof.
  intros H. unfold CalculateEMA.
  destruct (Z.ltb_spec (len prices) p); [reflexivity | lia].
Qed.

Lemma CalculateEMA_enough (prices : list Decimal.t) (p : Z) :
  period_ok p = true -> p <= len prices ->
  exists result, CalculateEMA prices p = Ok (Some result) /\
                 length result = length prices.
Proof.
  intros Hok Hlen.
  destruct (alpha_converts p Hok) as [alpha Ha].
  apply period_ok_pos in Hok as Hp.
  destruct (Div_ok (foldl Add Zero (take (Z.to_nat p) prices)) (NewFromInt p))
    as [sma Hsma]; [simpl; lia|].
  eexists. split.
  - apply (CalculateEMA_unfold prices p alpha sma); [lia | exact Ha | exact Hsma].
  - assert (Hema : forall ps prev, length (ema_tail alpha prev ps) = length ps).
    { induction ps as [|x ps IH]; intros prev; cbn; [reflexivity|].
      rewrite IH. reflexivity. }
    rewrite length_app, length_replicate. cbn. rewrite Hema, length_drop.
    unfold len in Hlen. lia.
Qed.

(** A loop that stores [h j] at every index [j] it runs through. *)
Lemma store_loop {A} (h : nat -> A) (body : Z -> list A -> res (list A))
    (L : nat) :
  forall (n i : nat) (l : list A),
    length l = L -> (i + n <= L)%nat ->
    (forall (j : nat) (l : list A),
        (i <= j < i + n)%nat -> length l = L ->
        body (Z.of_nat j) l = Ok (<[j := h j]> l)) ->
    exists l', for_range n (Z.of_nat i) body l = Ok l' /\ length l' = L /\
               forall j, (i <= j < i + n)%nat -> l' !! j = Some (h j).
Proof.
  induction n as [|n IH]; intros i l Hl Hin Hbody.
  - exists l. split; [reflexivity|]. split; [exact Hl|]. intros j Hj. lia.
  - cbn [for_range]. rewrite (Hbody i l) by lia. rewrite bind_Ok.
    replace (Z.of_nat i + 1) with (Z.of_nat (S i)) by lia.
    destruct (IH (S i) (<[i := h i]> l)) as (l' & Hrun & Hlen & Hget).
    + rewrite length_insert. exact Hl.
    + lia.
    + intros j l0 Hj Hl0. apply Hbody; [lia | exact Hl0].
    + exists l'. split; [exact Hrun|]. split; [exact Hlen|].
      intros j Hj. destruct (decide (j = i)) as [->|Hne].
      * (* the entry written first is not overwritten *)
        clear Hget IH.
        assert (Hkeep : forall m k (l0 : list A),
                  length l0 = L -> (i < k)%nat -> (k + m <= L)%nat ->
                  (forall (j : nat) (l : list A),
                      (k <= j < k + m)%nat -> length l = L ->
                      body (Z.of_nat j) l = Ok (<[j := h j]> l)) ->
                  forall l1, for_range m (Z.of_nat k) body l0 = Ok l1 ->
                             l1 !! i = l0 !! i).
        { induction m as [|m IHm]; intros k l0 Hl0 Hk Hkm Hb l1 Hl1.
          - cbn in Hl1. injection Hl1 as <-. reflexivity.
          - cbn [for_range] in Hl1. rewrite (Hb k l0) in Hl1 by lia.
            rewrite bind_Ok in Hl1.
            replace (Z.of_nat k + 1) with (Z.of_nat (S k)) in Hl1 by lia.
            rewrite (IHm (S k) (<[k := h k]> l0)) with (l1 := l1); try lia.
            + apply list_lookup_insert_ne. lia.
            + rewrite length_insert. exact Hl0.
            + intros j0 l2 Hj0 Hl2. apply Hb; [lia | exact Hl2].
            + exact Hl1. }
        rewrite (Hkeep n (S i) (<[i := h i]> l)) with (l1 := l'); try lia.
        -- apply list_lookup_insert_eq. lia.
        -- rewrite length_insert. exact Hl.
        -- intros j0 l2 Hj0 Hl2. apply Hbody; [lia | exact Hl2].
        -- exact Hrun.
      * apply Hget. lia.
Qed.

Lemma index_entry (ema : list Decimal.t) (j : nat) :
  (j < length ema)%nat -> index ema (Z.of_nat j) = Ok (entry ema j).
Proof.
  intros Hj. destruct (lookup_lt_is_Some_2 ema j Hj) as [x Hx].
  unfold entry. rewrite Hx. apply index_lookup. exact Hx.
Qed.

Lemma periods_configured_inv (v : VegasTunnelStrategy) :
  periods_configured v = true ->
  period_ok (shortEMAPeriod v) = true /\
  period_ok (midTunnel1Period v) = true /\
  period_ok (midTunnel2Period v) = true /\
  period_ok (longTunnel1Period v) = true /\
  period_ok (longTunnel2Period v) = true.
Proof.
  unfold periods_configured. intros H.
  do 4 (apply andb_prop in H as [H ?]). repeat split; assumption.
Qed.

Lemma configured_inv (v : VegasTunnelStrategy) :
  configured v = true ->
  periods_configured v = true /\
  is_ok (NewFromFloat (riskRewardRatio v)) = true.
Proof.
  intros H. exact (proj1 (andb_true_iff (periods_configured v) _) H).
Qed.

(** [CalculateEMA] returns, whatever the length of the series. *)
Lemma CalculateEMA_cases (prices : list Decimal.t) (p : Z) :
  period_ok p = true ->
  (len prices < p /\ CalculateEMA prices p = Ok None) \/
  (p <= len prices /\ exists result,
      CalculateEMA prices p = Ok (Some result) /\
      length result = length prices).
Proof.
  intros Hok. destruct (Z.lt_ge_cases (len prices) p) as [Hlt|Hge].
  - left. split; [exact Hlt | apply CalculateEMA_short; exact Hlt].
  - right. split; [exact Hge | apply CalculateEMA_enough; assumption].
Qed.

(** With too few bars for one of the averages there is no tunnel data. *)
Lemma CalculateTunnelData_insufficient (v : VegasTunnelStrategy)
    (klines : list KlineData) :
  periods_configured v = true -> ~ sufficient v klines ->
  CalculateTunnelData v klines = Ok None.
Proof.
  intros Hc Hns. apply periods_configured_inv in Hc as (H1 & H2 & H3 & H4 & H5).
  unfold CalculateTunnelData.
  destruct (Z.ltb_spec (len klines) (longTunnel2Period v)) as [|H5l];
    [reflexivity|].
  assert (Hlen : len (Close <$> klines) = len klines)
    by (unfold len; rewrite length_fmap; reflexivity).
  destruct (CalculateEMA_cases (Close <$> klines) _ H1) as [[L1 ->]|[L1 (r1 & -> & _)]];
  destruct (CalculateEMA_cases (Close <$> klines) _ H2) as [[L2 ->]|[L2 (r2 & -> & _)]];
  destruct (CalculateEMA_cases (Close <$> klines) _ H3) as [[L3 ->]|[L3 (r3 & -> & _)]];
  destruct (CalculateEMA_cases (Close <$> klines) _ H4) as [[L4 ->]|[L4 (r4 & -> & _)]];
  destruct (CalculateEMA_cases (Close <$> klines) _ H5) as [[L5 ->]|[L5 (r5 & -> & _)]];
    try reflexivity.
  exfalso. apply Hns. unfold sufficient. rewrite Hlen in *. lia.
Qed.

(** With enough bars the tunnel data is there, as long as the series, and
    from index [longTunnel2Period - 1] on each element is built from the
    five averages at its index. *)
Lemma CalculateTunnelData_sufficient (v : VegasTunnelStrategy)
    (klines : list KlineData) :
  periods_configured v = true -> sufficient v klines ->
  exists ema12 ema144 ema169 ema288 ema338 tunnelData,
    CalculateEMA (Close <$> klines) (shortEMAPeriod v) = Ok (Some ema12) /\
    CalculateEMA (Close <$> klines) (midTunnel1Period v) = Ok (Some ema144) /\
    CalculateEMA (Close <$> klines) (midTunnel2Period v) = Ok (Some ema169) /\
    CalculateEMA (Close <$> klines) (longTunnel1Period v) = Ok (Some ema288) /\
    CalculateEMA (Close <$> klines) (longTunnel2Period v) = Ok (Some ema338) /\
    CalculateTunnelData v klines = Ok (Some tunnelData) /\
    length tunnelData = length klines /\
    forall j : nat,
      longTunnel2Period v - 1 <= Z.of_nat j < len klines ->
      tunnelData !! j
      = Some (tunnel_of (entry ema12 j) (entry ema144 j) (entry ema169 j)
                (entry ema288 j) (entry ema338 j)).
Proof.
  intros Hc (S1 & S2 & S3 & S4 & S5).
  apply periods_configured_inv in Hc as (H1 & H2 & H3 & H4 & H5).
  assert (Hlen : len (Close <$> klines) = len klines)
    by (unfold len; rewrite length_fmap; reflexivity).
  assert (Hlen' : length (Close <$> klines) = length klines)
    by apply length_fmap.
  destruct (CalculateEMA_enough (Close <$> klines) _ H1) as (r1 & E1 & N1); [lia|].
  destruct (CalculateEMA_enough (Close <$> klines) _ H2) as (r2 & E2 & N2); [lia|].
  destruct (CalculateEMA_enough (Close <$> klines) _ H3) as (r3 & E3 & N3); [lia|].
  destruct (CalculateEMA_enough (Close <$> klines) _ H4) as (r4 & E4 & N4); [lia|].
  destruct (CalculateEMA_enough (Close <$> klines) _ H5) as (r5 & E5 & N5); [lia|].
  pose proof (period_ok_pos _ H5) as P5.
  exists r1, r2, r3, r4, r5.
  unfold CalculateTunnelData.
  destruct (Z.ltb_spec (len klines) (longTunnel2Period v)) as [|_]; [lia|].
  rewrite E1, E2, E3, E4, E5, !bind_Ok. unfold for_loop.
  set (h := fun j => tunnel_of (entry r1 j) (entry r2 j) (entry r3 j)
                       (entry r4 j) (entry r5 j)).
  set (body := fun (i : Z) (tunnelData : list TunnelData) => _).
  set (i0 := Z.to_nat (longTunnel2Period v - 1)).
  set (n := Z.to_nat (len klines - (longTunnel2Period v - 1))).
  destruct (store_loop h body (length klines) n i0
              (replicate (length klines) zero_TunnelData))
    as (td & Hrun & Hl & Hget).
  - apply length_replicate.
  - unfold n, i0, len in *. lia.
  - intros j l Hj Hl. unfold body.
    assert (Hjl : (j < length klines)%nat) by (unfold n, i0, len in *; lia).
    destruct (lookup_lt_is_Some_2 l j ltac:(lia)) as [x Hx].
    rewrite (index_lookup _ _ _ Hx), bind_Ok.
    rewrite !index_entry, !bind_Ok by lia.
    apply store_insert. lia.
  - exists td. repeat (split; [reflexivity|]).
    replace (longTunnel2Period v - 1) with (Z.of_nat i0) at 1
      by (unfold i0; lia).
    rewrite Hrun, bind_Ok.
    split; [reflexivity|]. split; [exact Hl|].
    intros j Hj. apply Hget. unfold n, i0, len in *. lia.
Qed.

(** [CalculateTunnelData] never panics once the periods are configured. *)
Lemma CalculateTunnelData_returns (v : VegasTunnelStrategy)
    (klines : list KlineData) :
  periods_configured v = true ->
  CalculateTunnelData v klines = Ok None \/
  exists tunnelData, CalculateTunnelData v klines = Ok (Some tunnelData) /\
                     length tunnelData = length klines /\
                     sufficient v klines.
Proof.
  intros Hc.
  assert (Hdec : sufficient v klines \/ ~ sufficient v klines)
    by (unfold sufficient; lia).
  destruct Hdec as [Hs|Hns].
  - right.
    destruct (CalculateTunnelData_sufficient v klines Hc Hs)
      as (? & ? & ? & ? & ? & td & _ & _ & _ & _ & _ & Htd & Hl & _).
    exists td. auto.
  - left. apply CalculateTunnelData_insufficient; assumption.
Qed.

End Tunnel.

(* ===================================================================== *)
(** * The entry checks and the evaluation *)
(* ===================================================================== *)

Section Signal.

Lemma NewFromFloat_tolerance : NewFromFloat 0.002 = Ok (New 2 (-3)).
Proof. vm_compute. reflexivity. Qed.

Lemma NewFromFloat_long_buffer : NewFromFloat 0.998 = Ok (New 998 (-3)).
Proof. vm_compute. reflexivity. Qed.

Lemma NewFromFloat_short_buffer : NewFromFloat 1.002 = Ok (New 1002 (-3)).
Proof. vm_compute. reflexivity. Qed.

Lemma NewFromFloat_default_ratio : NewFromFloat 2.0 = Ok (New 2 0).
Proof. vm_compute. reflexivity. Qed.

Lemma toQ_lower_band :
  (toQ (Sub (NewFromInt 1) (New 2 (-3))) == 1 - (2 # 1000))%Q.
Proof. reflexivity. Qed.

Lemma toQ_upper_band :
  (toQ (Add (NewFromInt 1) (New 2 (-3))) == 1 + (2 # 1000))%Q.
Proof. reflexivity. Qed.

(** [isPriceNearTunnel] is the band test, for either direction. *)
Lemma isPriceNearTunnel_spec (price : Decimal.t) (tunnel : TunnelData)
    (isLong : bool) :
  exists b, isPriceNearTunnel price tunnel isLong = Ok b /\
            (b = true <-> near_tunnel (toQ price) tunnel).
Proof.
  unfold isPriceNearTunnel. rewrite NewFromFloat_tolerance, bind_Ok.
  set (lo := Sub (NewFromInt 1) (New 2 (-3))).
  set (hi := Add (NewFromInt 1) (New 2 (-3))).
  assert (Hmid :
    GreaterThanOrEqual price (Mul (MidTunnelLower tunnel) lo) &&
    LessThanOrEqual price (Mul (MidTunnelUpper tunnel) hi) = true <->
    (toQ (MidTunnelLower tunnel) * (1 - (2 # 1000)) <= toQ price /\
     toQ price <= toQ (MidTunnelUpper tunnel) * (1 + (2 # 1000)))%Q).
  { rewrite andb_true_iff, GreaterThanOrEqual_spec, LessThanOrEqual_spec.
    rewrite !toQ_Mul. unfold lo, hi.
    rewrite toQ_lower_band, toQ_upper_band. reflexivity. }
  assert (Hlong :
    GreaterThanOrEqual price (Mul (LongTunnelLower tunnel) lo) &&
    LessThanOrEqual price (Mul (LongTunnelUpper tunnel) hi) = true <->
    (toQ (LongTunnelLower tunnel) * (1 - (2 # 1000)) <= toQ price /\
     toQ price <= toQ (LongTunnelUpper tunnel) * (1 + (2 # 1000)))%Q).
  { rewrite andb_true_iff, GreaterThanOrEqual_spec, LessThanOrEqual_spec.
    rewrite !toQ_Mul. unfold lo, hi.
    rewrite toQ_lower_band, toQ_upper_band. reflexivity. }
  unfold near_tunnel.
  destruct (GreaterThanOrEqual price (Mul (MidTunnelLower tunnel) lo) &&
            LessThanOrEqual price (Mul (MidTunnelUpper tunnel) hi));
  destruct (GreaterThanOrEqual price (Mul (LongTunnelLower tunnel) lo) &&
            LessThanOrEqual price (Mul (LongTunnelUpper tunnel) hi));
  destruct isLong; eexists; (split; [reflexivity|]);
    split; intros H; try reflexivity; try discriminate; try tauto.
  all: exfalso; destruct H as [H|H];
    [apply Hmid in H | apply Hlong in H]; discriminate.
Qed.


Lemma checkLongSignal_spec (v : VegasTunnelStrategy)
    (tunnel4H tunnel15M : TunnelData) (kline : KlineData) (symbol : string)
    (ratio : Decimal.t) :
  NewFromFloat (riskRewardRatio v) = Ok ratio ->
  (long_entry tunnel4H tunnel15M (Close kline) /\
   checkLongSignal v tunnel4H tunnel15M kline symbol
   = Ok (Some (buy_signal tunnel4H tunnel15M kline symbol ratio))) \/
  (~ long_entry tunnel4H tunnel15M (Close kline) /\
   checkLongSignal v tunnel4H tunnel15M kline symbol = Ok None).
Proof.
  intros Hratio. unfold checkLongSignal, long_entry.
  destruct (Trend tunnel4H) eqn:Htrend; simpl;
    try (right; split; [intros (H & _); discriminate | reflexivity]).
  destruct (LessThanOrEqual (Close kline) (MidTunnelLower tunnel4H)) eqn:Hpos.
  { right. split; [|reflexivity]. intros (_ & H & _).
    apply LessThanOrEqual_spec in Hpos. lra. }
  destruct (isPriceNearTunnel_spec (Close kline) tunnel15M true)
    as (b & -> & Hb).
  rewrite bind_Ok. destruct b; simpl.
  2:{ right. split; [|reflexivity]. intros (_ & _ & H & _).
      apply Hb in H. discriminate. }
  destruct (LessThanOrEqual (Close kline) (EMA12 tunnel15M)) eqn:Hmom.
  { right. split; [|reflexivity]. intros (_ & _ & _ & H).
    apply LessThanOrEqual_spec in Hmom. lra. }
  left. split.
  - split; [reflexivity|]. split.
    + destruct (Qlt_le_dec (toQ (MidTunnelLower tunnel4H)) (toQ (Close kline)))
        as [|Hle]; [assumption|].
      apply LessThanOrEqual_spec in Hle. congruence.
    + split; [apply Hb; reflexivity|].
      destruct (Qlt_le_dec (toQ (EMA12 tunnel15M)) (toQ (Close kline)))
        as [|Hle]; [assumption|].
      apply LessThanOrEqual_spec in Hle. congruence.
  - unfold calculateStopLossAndTakeProfit.
    rewrite NewFromFloat_long_buffer, bind_Ok. cbn [Price].
    rewrite Hratio, bind_Ok. reflexivity.
Qed.

Lemma checkShortSignal_spec (v : VegasTunnelStrategy)
    (tunnel4H tunnel15M : TunnelData) (kline : KlineData) (symbol : string)
    (ratio : Decimal.t) :
  NewFromFloat (riskRewardRatio v) = Ok ratio ->
  (short_entry tunnel4H tunnel15M (Close kline) /\
   checkShortSignal v tunnel4H tunnel15M kline symbol
   = Ok (Some (sell_signal tunnel4H tunnel15M kline symbol ratio))) \/
  (~ short_entry tunnel4H tunnel15M (Close kline) /\
   checkShortSignal v tunnel4H tunnel15M kline symbol = Ok None).
Proof.
  intros Hratio. unfold checkShortSignal, short_entry.
  destruct (Trend tunnel4H) eqn:Htrend; simpl;
    try (right; split; [intros (H & _); discriminate | reflexivity]).
  destruct (GreaterThanOrEqual (Close kline) (MidTunnelUpper tunnel4H)) eqn:Hpos.
  { right. split; [|reflexivity]. intros (_ & H & _).
    apply GreaterThanOrEqual_spec in Hpos. lra. }
  destruct (isPriceNearTunnel_spec (Close kline) tunnel15M false)
    as (b & -> & Hb).
  rewrite bind_Ok. destruct b; simpl.
  2:{ right. split; [|reflexivity]. intros (_ & _ & H & _).
      apply Hb in H. discriminate. }
  destruct (GreaterThanOrEqual (Close kline) (EMA12 tunnel15M)) eqn:Hmom.
  { right. split; [|reflexivity]. intros (_ & _ & _ & H).
    apply GreaterThanOrEqual_spec in Hmom. lra. }
  left. split.
  - split; [reflexivity|]. split.
    + destruct (Qlt_le_dec (toQ (Close kline)) (toQ (MidTunnelUpper tunnel4H)))
        as [|Hle]; [assumption|].
      apply GreaterThanOrEqual_spec in Hle. congruence.
    + split; [apply Hb; reflexivity|].
      destruct (Qlt_le_dec (toQ (Close kline)) (toQ (EMA12 tunnel15M)))
        as [|Hle]; [assumption|].
      apply GreaterThanOrEqual_spec in Hle. congruence.
  - unfold calculateStopLossAndTakeProfit.
    rewrite NewFromFloat_short_buffer, bind_Ok. cbn [Price].
    rewrite Hratio, bind_Ok. reflexivity.
Qed.

(** The bars handed to [GenerateSignal] are stored nowhere. *)
Lemma UpdateKlineData_15M (v : VegasTunnelStrategy) (kline : KlineData) :
  UpdateKlineData v kline "15M" = v.
Proof. reflexivity. Qed.

Lemma GenerateSignal_feed (v : VegasTunnelStrategy) (klines : list KlineData) :
  foldl (fun v kline => UpdateKlineData v kline "15M") v klines = v.
Proof.
  induction klines as [|k ks IH]; [reflexivity|].
  cbn [foldl]. rewrite UpdateKlineData_15M. exact IH.
Qed.

Lemma last_of_last {A} (s : list A) (x : A) :
  last s = Some x -> last_of s = Ok x.
Proof.
  intros H. unfold last_of, len.
  assert (Hlen : (0 < length s)%nat) by (destruct s; [discriminate | cbn; lia]).
  replace (Z.of_nat (length s) - 1) with (Z.of_nat (pred (length s))) by lia.
  apply index_lookup. rewrite <- last_lookup. exact H.
Qed.

Lemma nonempty_last {A} (s : list A) :
  (0 < length s)%nat -> exists x, last s = Some x.
Proof.
  intros H. destruct (last s) eqn:E; [eauto|].
  apply last_None in E. subst. cbn in H. lia.
Qed.

(** The current tunnel, read off what [CalculateTunnelData] returns. *)
Lemma current_tunnel_cases (v : VegasTunnelStrategy) (klines : list KlineData) :
  periods_configured v = true ->
  (CalculateTunnelData v klines = Ok None /\ current_tunnel v klines = None) \/
  (exists tunnelData tunnel,
      CalculateTunnelData v klines = Ok (Some tunnelData) /\
      last tunnelData = Some tunnel /\
      current_tunnel v klines = Some tunnel /\
      (0 < length klines)%nat).
Proof.
  intros Hc. unfold current_tunnel.
  destruct (CalculateTunnelData_returns v klines Hc)
    as [->|(td & -> & Hl & Hs)]; [left; split; reflexivity|].
  right.
  assert (Hpos : (0 < length klines)%nat).
  { apply periods_configured_inv in Hc as (_ & _ & _ & _ & H5).
    apply period_ok_pos in H5. destruct Hs as (_ & _ & _ & _ & Hs).
    unfold len in Hs. lia. }
  destruct (nonempty_last td) as [x Hx]; [lia|].
  exists td, x. rewrite Hx. auto.
Qed.

(** Every way an evaluation can end. *)
Lemma GenerateSignal_cases (v : VegasTunnelStrategy) (klines : list KlineData) :
  configured v = true ->
  exists ratio, NewFromFloat (riskRewardRatio v) = Ok ratio /\
    ((snd (GenerateSignal v klines) = Ok None /\
      (klines = [] \/
       current_tunnel v (kline4HData v) = None \/
       current_tunnel v (kline15MData v) = None \/
       exists tunnel4H tunnel15M kline,
         evaluation_data v tunnel4H tunnel15M kline /\
         ~ long_entry tunnel4H tunnel15M (Close kline) /\
         ~ short_entry tunnel4H tunnel15M (Close kline))) \/
     (exists first rest tunnel4H tunnel15M kline,
         klines = first :: rest /\
         evaluation_data v tunnel4H tunnel15M kline /\
         long_entry tunnel4H tunnel15M (Close kline) /\
         snd (GenerateSignal v klines)
         = Ok (Some (buy_signal tunnel4H tunnel15M kline (Symbol first) ratio))) \/
     (exists first rest tunnel4H tunnel15M kline,
         klines = first :: rest /\
         evaluation_data v tunnel4H tunnel15M kline /\
         ~ long_entry tunnel4H tunnel15M (Close kline) /\
         short_entry tunnel4H tunnel15M (Close kline) /\
         snd (GenerateSignal v klines)
         = Ok (Some (sell_signal tunnel4H tunnel15M kline (Symbol first) ratio)))).
Proof.
  intros Hc.
  destruct (configured_inv v Hc) as (Hp & Hr).
  apply is_ok_inv in Hr as [ratio Hratio]. exists ratio.
  split; [exact Hratio|].
  destruct klines as [|first rest]; [left; split; [reflexivity | auto]|].
  unfold GenerateSignal. rewrite GenerateSignal_feed. cbn [snd].
  destruct (Z.ltb_spec (len (kline15MData v)) (longTunnel2Period v)) as [H15|H15].
  { left. split; [reflexivity|]. right. right. left.
    unfold current_tunnel, CalculateTunnelData.
    destruct (Z.ltb_spec (len (kline15MData v)) (longTunnel2Period v));
      [reflexivity | lia]. }
  destruct (Z.ltb_spec (len (kline4HData v)) (longTunnel2Period v)) as [H4|H4].
  { left. split; [reflexivity|]. right. left.
    unfold current_tunnel, CalculateTunnelData.
    destruct (Z.ltb_spec (len (kline4HData v)) (longTunnel2Period v));
      [reflexivity | lia]. }
  destruct (current_tunnel_cases v (kline4HData v) Hp)
    as [[-> Hnone]|(td4 & t4 & -> & Hlast4 & Hcur4 & _)].
  { left. split; [reflexivity|]. auto. }
  rewrite bind_Ok, (last_of_last _ _ Hlast4), bind_Ok.
  destruct (current_tunnel_cases v (kline15MData v) Hp)
    as [[-> Hnone]|(td15 & t15 & -> & Hlast15 & Hcur15 & Hpos)].
  { left. split; [reflexivity|]. auto. }
  rewrite bind_Ok, (last_of_last _ _ Hlast15), bind_Ok.
  destruct (nonempty_last (kline15MData v) Hpos) as [k Hk].
  rewrite (last_of_last _ _ Hk), bind_Ok.
  assert (Hdata : evaluation_data v t4 t15 k) by (repeat split; assumption).
  destruct (checkLongSignal_spec v t4 t15 k (Symbol first) ratio Hratio)
    as [[Hlong ->]|[Hnlong ->]].
  { right. left. exists first, rest, t4, t15, k. rewrite bind_Ok. auto. }
  rewrite bind_Ok.
  destruct (checkShortSignal_spec v t4 t15 k (Symbol first) ratio Hratio)
    as [[Hshort ->]|[Hnshort ->]].
  { right. right. exists first, rest, t4, t15, k. auto 6. }
  left. split; [reflexivity|]. right. right. right.
  exists t4, t15, k. auto.
Qed.

End Signal.

Section Configuration.

(** The strategy is configured as it is created, and storing bars does not
    change that. *)
Lemma configured_new : configured NewVegasTunnelStrategy = true.
Proof. vm_compute. reflexivity. Qed.

Lemma configured_UpdateKlineData (v : VegasTunnelStrategy) (kline : KlineData)
    (timeframe : string) :
  configured (UpdateKlineData v kline timeframe) = configured v.
Proof.
  unfold UpdateKlineData.
  destruct (String.eqb timeframe "15m"); [reflexivity|].
  destruct (String.eqb timeframe "4h"); reflexivity.
Qed.

(** Parameters that pass [ValidateParameters] have usable periods, as long
    as they are within the range of [int]. *)
Lemma ValidateParameters_periods (v : VegasTunnelStrategy) :
  ValidateParameters v = None ->
  midTunnel1Period v < int_max ->
  longTunnel1Period v < int_max -> longTunnel2Period v < int_max ->
  periods_configured v = true.
Proof.
  unfold ValidateParameters. intros Hv H0 H1 H2.
  destruct (Z.leb_spec (shortEMAPeriod v) 0) as [|Hs]; [discriminate|].
  destruct (Z.leb_spec (midTunnel1Period v) (shortEMAPeriod v)) as [|Hm1];
    [discriminate|].
  destruct (Z.leb_spec (midTunnel2Period v) (shortEMAPeriod v)) as [|Hm2];
    [discriminate|].
  destruct (Z.leb_spec (longTunnel1Period v) (midTunnel2Period v)) as [|Hl1];
    [discriminate|].
  destruct (Z.leb_spec (longTunnel2Period v) (midTunnel2Period v)) as [|Hl2];
    [discriminate|].
  clear Hv. unfold periods_configured, period_ok.
  repeat (apply andb_true_intro; split);
    first [apply Z.leb_le; lia | apply Z.ltb_lt; lia].
Qed.

End Configuration.

(* ===================================================================== *)
(** * Smoothing engine: C1 and C7 *)
(* ===================================================================== *)

Section SmoothingProperties.

Lemma toQ_foldl_Add (ps : list Decimal.t) :
  forall acc, (toQ (foldl Add acc ps) == toQ acc + sumQ ps)%Q.
Proof.
  induction ps as [|p ps IH]; intros acc; unfold sumQ; cbn [foldl foldr].
  - ring.
  - fold (sumQ ps). rewrite IH, toQ_Add. ring.
Qed.

Lemma ema_tail_lookup (alpha : Decimal.t) (ps : list Decimal.t) :
  forall (prev : Decimal.t) (j : nat) (x : Decimal.t),
    ps !! j = Some x ->
    exists before e,
      (prev :: ema_tail alpha prev ps) !! j = Some before /\
      ema_tail alpha prev ps !! j = Some e /\
      e = ema_step alpha x before.
Proof.
  induction ps as [|p ps IH]; intros prev j x Hj; [discriminate|].
  destruct j as [|j]; cbn in Hj |- *.
  - injection Hj as ->. eauto.
  - destruct (IH (ema_step alpha p prev) j x Hj) as (b & e & Hb & He & Heq).
    exists b, e. auto.
Qed.

Lemma toQ_ema_step (alpha x prev : Decimal.t) :
  (toQ (ema_step alpha x prev)
   == toQ x * toQ alpha + toQ prev * (1 - toQ alpha))%Q.
Proof.
  unfold ema_step. rewrite toQ_Add, !toQ_Mul, toQ_Sub.
  assert (H1 : (toQ (NewFromInt 1) == 1)%Q) by reflexivity.
  rewrite H1. reflexivity.
Qed.

Lemma CalculateEMA_nonpositive (prices : list Decimal.t) (p : Z) :
  p <= 0 -> CalculateEMA prices p = Panic.
Proof.
  intros Hp. unfold CalculateEMA.
  destruct (Z.ltb_spec (len prices) p) as [Hlt|_]; [unfold len in Hlt; lia|].
  destruct (NewFromFloat _) as [alpha|]; [|reflexivity].
  rewrite bind_Ok, for_loop_empty, bind_Ok by lia.
  destruct (Div Zero (NewFromInt p)) as [sma|]; [|reflexivity].
  rewrite bind_Ok, store_negative by lia. reflexivity.
Qed.

(** C1, counterexample.  With prices 1, 0, 0 and period 3 the seed is
    0.3333333333333333, not the mean 1/3; with period 2 the factor is
    0.6666666666666666, not 2/3. *)
Lemma CalculateEMA_not_exact :
  ~ exact_ema_claim [NewFromInt 1; NewFromInt 0; NewFromInt 0] 3 /\
  ~ exact_ema_claim [NewFromInt 0; NewFromInt 0; NewFromInt 3] 2.
Proof.
  split.
  - intros (result & alpha & Hr & _ & _ & (seed & Hs & Hm) & _).
    vm_compute in Hr. injection Hr as <-.
    vm_compute in Hs. injection Hs as <-.
    vm_compute in Hm. discriminate.
  - intros (result & alpha & _ & Ha & Hal & _).
    vm_compute in Ha. injection Ha as <-.
    vm_compute in Hal. discriminate.
Qed.

(** C1, as amended.  For a series of at least [p >= 1] prices, the entry at
    index [p-1] is the sum of the first [p] prices divided by [p] with [Div],
    that is rounded at the sixteenth decimal place and so within 5e-17 of the
    mean; every later entry is [prices[i]*alpha + ema[i-1]*(1-alpha)]
    computed exactly, [alpha] being the decimal that [NewFromFloat] makes of
    the float64 quotient [2.0/float64(p+1)]. *)
Theorem CalculateEMA_seed_and_recurrence (prices : list Decimal.t) (p : Z) :
  1 <= p <= len prices -> p < int_max ->
  exists alpha result seed,
    NewFromFloat (alpha_float p) = Ok alpha /\
    CalculateEMA prices p = Ok (Some result) /\
    result !! Z.to_nat (p - 1) = Some seed /\
    Div (foldl Add Zero (take (Z.to_nat p) prices)) (NewFromInt p) = Ok seed /\
    (Qabs (toQ seed - mean (take (Z.to_nat p) prices))
     <= (1 # 2) * Qpower (10 # 1) (-16))%Q /\
    forall (i : nat) (x : Decimal.t),
      p <= Z.of_nat i -> prices !! i = Some x ->
      exists prev e,
        result !! (i - 1)%nat = Some prev /\
        result !! i = Some e /\
        e = Add (Mul x alpha) (Mul prev (Sub (NewFromInt 1) alpha)) /\
        (toQ e == toQ x * toQ alpha + toQ prev * (1 - toQ alpha))%Q.
Proof.
  intros [Hp Hlen] Hmax.
  destruct (alpha_converts p) as [alpha Halpha].
  { unfold period_ok. apply andb_true_intro.
    split; [apply Z.leb_le | apply Z.ltb_lt]; assumption. }
  exists alpha.
  destruct (Div_ok (foldl Add Zero (take (Z.to_nat p) prices)) (NewFromInt p))
    as [seed Hseed]; [simpl; lia|].
  pose proof (CalculateEMA_unfold prices p alpha seed (conj Hp Hlen) Halpha Hseed)
    as Hrun.
  eexists. exists seed. split; [exact Halpha|]. split; [exact Hrun|].
  set (P := Z.to_nat p).
  assert (HP : (1 <= P <= length prices)%nat) by (unfold P, len in *; lia).
  assert (Hpre : length (replicate (P - 1) zero_value) = (P - 1)%nat)
    by apply length_replicate.
  split.
  { replace (Z.to_nat (p - 1)) with (P - 1)%nat by (unfold P; lia).
    rewrite lookup_app_r by lia. rewrite Hpre, Nat.sub_diag. reflexivity. }
  split; [exact Hseed|].
  split.
  { assert (Hnz : value (NewFromInt p) <> 0) by (simpl; lia).
    pose proof (Div_accuracy _ _ _ Hnz Hseed) as Hacc.
    assert (Hsum : (toQ (foldl Add Zero (take P prices)) / toQ (NewFromInt p)
                    == mean (take P prices))%Q).
    { unfold mean. rewrite toQ_foldl_Add.
      assert (Hz : (toQ Zero == 0)%Q) by reflexivity. rewrite Hz.
      assert (Hn : (toQ (NewFromInt p) == inject_Z (len (take P prices)))%Q).
      { unfold len. rewrite length_take, Nat.min_l by lia.
        unfold toQ, NewFromInt; simpl. unfold P. rewrite Z2Nat.id by lia.
        ring. }
      rewrite Hn. rewrite Qplus_0_l. reflexivity. }
    rewrite <- Hsum. exact Hacc. }
  intros i x Hi Hx.
  assert (HiP : (P <= i)%nat) by (unfold P; lia).
  assert (Hx' : drop P prices !! (i - P)%nat = Some x).
  { rewrite lookup_drop. replace (P + (i - P))%nat with i by lia. exact Hx. }
  destruct (ema_tail_lookup alpha (drop P prices) seed (i - P) x Hx')
    as (prev & e & Hprev & He & Heq).
  exists prev, e. split; [|split; [|split]].
  - rewrite lookup_app_r by lia. rewrite Hpre.
    replace (i - 1 - (P - 1))%nat with (i - P)%nat by lia. exact Hprev.
  - rewrite lookup_app_r by lia. rewrite Hpre.
    replace (i - (P - 1))%nat with (S (i - P)) by lia. exact He.
  - exact Heq.
  - rewrite Heq. apply toQ_ema_step.
Qed.

(** Witness of [CalculateEMA_seed_and_recurrence]: prices 10, 20, 60, 30
    with period 3 (factor 0.5, seed 30, last entry 30). *)
Lemma CalculateEMA_seed_and_recurrence_witness :
  (1 <= 3 <= len [NewFromInt 10; NewFromInt 20; NewFromInt 60; NewFromInt 30] /\
   3 < int_max) /\
  exists alpha result seed,
    NewFromFloat (alpha_float 3) = Ok alpha /\
    CalculateEMA [NewFromInt 10; NewFromInt 20; NewFromInt 60; NewFromInt 30] 3
    = Ok (Some result) /\
    result !! Z.to_nat (3 - 1) = Some seed /\
    Div (foldl Add Zero
           (take (Z.to_nat 3)
              [NewFromInt 10; NewFromInt 20; NewFromInt 60; NewFromInt 30]))
        (NewFromInt 3) = Ok seed /\
    (Qabs (toQ seed -
           mean (take (Z.to_nat 3)
                   [NewFromInt 10; NewFromInt 20; NewFromInt 60; NewFromInt 30]))
     <= (1 # 2) * Qpower (10 # 1) (-16))%Q /\
    forall (i : nat) (x : Decimal.t),
      3 <= Z.of_nat i ->
      [NewFromInt 10; NewFromInt 20; NewFromInt 60; NewFromInt 30] !! i = Some x ->
      exists prev e,
        result !! (i - 1)%nat = Some prev /\
        result !! i = Some e /\
        e = Add (Mul x alpha) (Mul prev (Sub (NewFromInt 1) alpha)) /\
        (toQ e == toQ x * toQ alpha + toQ prev * (1 - toQ alpha))%Q.
Proof.
  split; [unfold len, int_max; simpl; lia|].
  apply (CalculateEMA_seed_and_recurrence
           [NewFromInt 10; NewFromInt 20; NewFromInt 60; NewFromInt 30] 3);
    unfold len, int_max; simpl; lia.
Defined.

(** C7, counterexample.  With prices 5, 7 and period 2 the entry before the
    seed is the decimal zero, equal to [Zero], hence a number; with period 0
    the call panics and returns no sequence at all. *)
Lemma CalculateEMA_prefix_not_undefined :
  ~ undefined_prefix_claim [NewFromInt 5; NewFromInt 7] 2 /\
  ~ undefined_prefix_claim [] 0.
Proof.
  split.
  - intros [_ H]. destruct H as (result & Hr & _ & Hu); [unfold len; simpl; lia|].
    vm_compute in Hr. injection Hr as <-.
    specialize (Hu 0%nat zero_value ltac:(simpl; lia) eq_refl Zero).
    vm_compute in Hu. discriminate.
  - intros [_ H]. destruct H as (result & Hr & _); [unfold len; simpl; lia|].
    vm_compute in Hr. discriminate.
Qed.

(** C7, as amended.  For a period [p >= 1]: a series shorter than [p] gives
    the nil slice; a series of at least [p] prices gives a slice of the same
    length whose first [p-1] entries are the zero value of [Decimal], which
    is the number 0 and compares equal to [Zero]: there is no mark telling
    it from a computed zero. *)
Theorem CalculateEMA_length_and_prefix (prices : list Decimal.t) (p : Z) :
  1 <= p < int_max ->
  (len prices < p -> CalculateEMA prices p = Ok None) /\
  (p <= len prices ->
   exists result,
     CalculateEMA prices p = Ok (Some result) /\
     length result = length prices /\
     forall i : nat, Z.of_nat i < p - 1 -> result !! i = Some zero_value) /\
  (toQ zero_value == 0)%Q /\ Equal zero_value Zero = true.
Proof.
  intros [Hp Hmax]. split; [apply CalculateEMA_short|].
  split; [|split; reflexivity].
  intros Hlen.
  assert (Hok : period_ok p = true).
  { unfold period_ok. apply andb_true_intro.
    split; [apply Z.leb_le | apply Z.ltb_lt]; assumption. }
  destruct (alpha_converts p Hok) as [alpha Halpha].
  destruct (Div_ok (foldl Add Zero (take (Z.to_nat p) prices)) (NewFromInt p))
    as [seed Hseed]; [simpl; lia|].
  pose proof (CalculateEMA_unfold prices p alpha seed (conj Hp Hlen) Halpha Hseed)
    as Hrun.
  destruct (CalculateEMA_enough prices p Hok Hlen) as (result & Hr & Hl).
  exists result. split; [exact Hr|]. split; [exact Hl|].
  intros i Hi. rewrite Hr in Hrun. injection Hrun as ->.
  rewrite lookup_app_l by (rewrite length_replicate; lia).
  apply lookup_replicate_2. lia.
Qed.

(** Witness of [CalculateEMA_length_and_prefix]: prices 5, 7, period 2. *)
Lemma CalculateEMA_length_and_prefix_witness :
  1 <= 2 < int_max /\
  (len [NewFromInt 5; NewFromInt 7] < 2 ->
   CalculateEMA [NewFromInt 5; NewFromInt 7] 2 = Ok None) /\
  (2 <= len [NewFromInt 5; NewFromInt 7] ->
   exists result,
     CalculateEMA [NewFromInt 5; NewFromInt 7] 2 = Ok (Some result) /\
     length result = length [NewFromInt 5; NewFromInt 7] /\
     forall i : nat, Z.of_nat i < 2 - 1 -> result !! i = Some zero_value) /\
  (toQ zero_value == 0)%Q /\ Equal zero_value Zero = true.
Proof.
  split; [unfold int_max; lia|].
  apply (CalculateEMA_length_and_prefix [NewFromInt 5; NewFromInt 7] 2).
  unfold int_max; lia.
Defined.

End SmoothingProperties.

(* ===================================================================== *)
(** * Tunnel classifier and series store: C2, C8 and C10 *)
(* ===================================================================== *)

Section TunnelProperties.

Lemma bounds_ordered (tunnel : TunnelData) :
  bounds_from_pairs tunnel ->
  (toQ (MidTunnelLower tunnel) <= toQ (MidTunnelUpper tunnel))%Q /\
  (toQ (LongTunnelLower tunnel) <= toQ (LongTunnelUpper tunnel))%Q.
Proof.
  intros [Hmid Hlong]. split.
  - destruct (GreaterThan (EMA144 tunnel) (EMA169 tunnel)) eqn:E;
      injection Hmid as -> ->.
    + apply GreaterThan_spec in E. lra.
    + destruct (Qlt_le_dec (toQ (EMA169 tunnel)) (toQ (EMA144 tunnel)))
        as [Hlt|Hle]; [|exact Hle].
      apply GreaterThan_spec in Hlt. congruence.
  - destruct (GreaterThan (EMA288 tunnel) (EMA338 tunnel)) eqn:E;
      injection Hlong as -> ->.
    + apply GreaterThan_spec in E. lra.
    + destruct (Qlt_le_dec (toQ (EMA338 tunnel)) (toQ (EMA288 tunnel)))
        as [Hlt|Hle]; [|exact Hle].
      apply GreaterThan_spec in Hlt. congruence.
Qed.

(** C2.  On a tunnel whose bounds are the max and min of the pairs of
    averages, the direction is Bullish exactly when the mid lower bound is
    strictly above the long upper bound, Bearish exactly when the mid upper
    bound is strictly below the long lower bound, Sideways otherwise; equal
    compared bounds give Sideways, and the two strict separations never hold
    together. *)
Theorem determineTrendDirection_classifies (tunnel : TunnelData) :
  bounds_from_pairs tunnel ->
  (determineTrendDirection tunnel = TrendBullish <->
   (toQ (LongTunnelUpper tunnel) < toQ (MidTunnelLower tunnel))%Q) /\
  (determineTrendDirection tunnel = TrendBearish <->
   (toQ (MidTunnelUpper tunnel) < toQ (LongTunnelLower tunnel))%Q) /\
  (determineTrendDirection tunnel = TrendSideways <->
   ~ (toQ (LongTunnelUpper tunnel) < toQ (MidTunnelLower tunnel))%Q /\
   ~ (toQ (MidTunnelUpper tunnel) < toQ (LongTunnelLower tunnel))%Q) /\
  ((toQ (MidTunnelLower tunnel) == toQ (LongTunnelUpper tunnel))%Q \/
   (toQ (MidTunnelUpper tunnel) == toQ (LongTunnelLower tunnel))%Q ->
   determineTrendDirection tunnel = TrendSideways) /\
  ~ ((toQ (LongTunnelUpper tunnel) < toQ (MidTunnelLower tunnel))%Q /\
     (toQ (MidTunnelUpper tunnel) < toQ (LongTunnelLower tunnel))%Q).
Proof.
  intros Hb. destruct (bounds_ordered tunnel Hb) as [Hmid Hlong].
  unfold determineTrendDirection.
  destruct (GreaterThan (MidTunnelLower tunnel) (LongTunnelUpper tunnel)) eqn:Hup.
  - apply GreaterThan_spec in Hup.
    repeat split; try discriminate; try (intros; lra); try tauto;
      try (intros [H|H]; lra).
  - assert (Hnup : ~ (toQ (LongTunnelUpper tunnel) < toQ (MidTunnelLower tunnel))%Q).
    { intros H. apply GreaterThan_spec in H. congruence. }
    destruct (LessThan (MidTunnelUpper tunnel) (LongTunnelLower tunnel)) eqn:Hdn.
    + apply LessThan_spec in Hdn.
      repeat split; try discriminate; try (intros; lra); try tauto;
        try (intros [H|H]; lra).
    + assert (Hndn : ~ (toQ (MidTunnelUpper tunnel) < toQ (LongTunnelLower tunnel))%Q).
      { intros H. apply LessThan_spec in H. congruence. }
      repeat split; try discriminate; try tauto.
Qed.

(** Witness of [determineTrendDirection_classifies]: averages 70, 62.5 over
    60, 56.25. *)
Lemma determineTrendDirection_classifies_witness :
  bounds_from_pairs
    (tunnel_of (New 80 0) (New 70 0) (New 625 (-1)) (New 60 0) (New 5625 (-2))) /\
  determineTrendDirection
    (tunnel_of (New 80 0) (New 70 0) (New 625 (-1)) (New 60 0) (New 5625 (-2)))
  = TrendBullish.
Proof.
  split; [split; reflexivity|].
  apply (determineTrendDirection_classifies
           (tunnel_of (New 80 0) (New 70 0) (New 625 (-1)) (New 60 0)
                      (New 5625 (-2)))).
  - split; reflexivity.
  - vm_compute. reflexivity.
Defined.

End TunnelProperties.

Section SeriesStore.

(** C8, counterexample.  A series holding one bar of time 2 takes a bar of
    time 1 under ["15m"] and is two bars long afterwards. *)
Lemma UpdateKlineData_takes_out_of_order :
  ~ rejects_out_of_order
      (UpdateKlineData NewVegasTunnelStrategy (flat_bar 100 2) "15m")
      (flat_bar 101 1).
Proof.
  intros H. specialize (H (flat_bar 100 2) eq_refl ltac:(simpl; lia)).
  vm_compute in H. discriminate.
Qed.

(** C8, as amended.  [UpdateKlineData] under ["15m"] or ["4h"] appends the
    bar whatever its time: the bar becomes the last of its series, the other
    series is untouched, and the oldest bar is dropped once the series would
    exceed 1000 (15-minute) or 500 (4-hour) bars.  No bar is rejected and no
    order of times is kept. *)
Theorem UpdateKlineData_appends (v : VegasTunnelStrategy) (kline : KlineData) :
  (last (kline15MData (UpdateKlineData v kline "15m")) = Some kline /\
   kline4HData (UpdateKlineData v kline "15m") = kline4HData v /\
   kline15MData (UpdateKlineData v kline "15m")
   = (if 1000 <=? len (kline15MData v)
      then drop 1 (kline15MData v ++ [kline])
      else kline15MData v ++ [kline])) /\
  (last (kline4HData (UpdateKlineData v kline "4h")) = Some kline /\
   kline15MData (UpdateKlineData v kline "4h") = kline15MData v /\
   kline4HData (UpdateKlineData v kline "4h")
   = (if 500 <=? len (kline4HData v)
      then drop 1 (kline4HData v ++ [kline])
      else kline4HData v ++ [kline])).
Proof.
  assert (Hlast : forall (l : list KlineData),
             (1 <= length l)%nat -> last (drop 1 (l ++ [kline])) = Some kline).
  { intros l Hl. rewrite last_lookup, length_drop, lookup_drop, length_app.
    cbn [length].
    replace (1 + Init.Nat.pred (length l + 1 - 1))%nat with (length l) by lia.
    rewrite lookup_app_r by lia. rewrite Nat.sub_diag. reflexivity. }
  assert (Hstep : forall (l : list KlineData) (cap : Z),
             1 <= cap ->
             (if cap <? len (l ++ [kline]) then drop 1 (l ++ [kline])
              else l ++ [kline])
             = (if cap <=? len l then drop 1 (l ++ [kline]) else l ++ [kline])
             /\ last (if cap <? len (l ++ [kline]) then drop 1 (l ++ [kline])
                      else l ++ [kline]) = Some kline).
  { intros l cap Hcap. unfold len. rewrite length_app. cbn [length].
    destruct (Z.ltb_spec cap (Z.of_nat (length l + 1)));
      destruct (Z.leb_spec cap (Z.of_nat (length l))); try lia.
    - split; [reflexivity|]. apply Hlast. lia.
    - split; [reflexivity|]. apply last_snoc. }
  split.
  - destruct (Hstep (kline15MData v) 1000 ltac:(lia)) as [Heq Hl].
    unfold UpdateKlineData; cbn. rewrite Hl, Heq. auto.
  - destruct (Hstep (kline4HData v) 500 ltac:(lia)) as [Heq Hl].
    unfold UpdateKlineData; cbn. rewrite Hl, Heq. auto.
Qed.

(** C10.  Under a timeframe name other than ["15m"] and ["4h"],
    [UpdateKlineData] returns the strategy as it was; this holds for ["15M"]
    and ["4H"], and so [GenerateSignal], which stores its bars under
    ["15M"], leaves the strategy and its 15-minute series as they were. *)
Theorem UpdateKlineData_other_timeframe (v : VegasTunnelStrategy)
    (kline : KlineData) (timeframe : string) (klines : list KlineData) :
  timeframe <> "15m" -> timeframe <> "4h" ->
  UpdateKlineData v kline timeframe = v /\
  UpdateKlineData v kline "15M" = v /\
  UpdateKlineData v kline "4H" = v /\
  fst (GenerateSignal v klines) = v /\
  kline15MData (fst (GenerateSignal v klines)) = kline15MData v.
Proof.
  intros H15 H4. split.
  - unfold UpdateKlineData.
    destruct (String.eqb_spec timeframe "15m") as [|_]; [contradiction|].
    destruct (String.eqb_spec timeframe "4h") as [|_]; [contradiction|].
    reflexivity.
  - split; [reflexivity|]. split; [reflexivity|].
    assert (Hfst : fst (GenerateSignal v klines) = v).
    { unfold GenerateSignal. destruct klines as [|first rest]; [reflexivity|].
      cbn [fst]. apply GenerateSignal_feed. }
    rewrite Hfst. auto.
Qed.

(** Witness of [UpdateKlineData_other_timeframe]: the timeframe ["1h"]. *)
Lemma UpdateKlineData_other_timeframe_witness :
  ("1h" <> "15m" /\ "1h" <> "4h") /\
  UpdateKlineData NewVegasTunnelStrategy (flat_bar 100 0) "1h"
  = NewVegasTunnelStrategy /\
  UpdateKlineData NewVegasTunnelStrategy (flat_bar 100 0) "15M"
  = NewVegasTunnelStrategy /\
  UpdateKlineData NewVegasTunnelStrategy (flat_bar 100 0) "4H"
  = NewVegasTunnelStrategy /\
  fst (GenerateSignal NewVegasTunnelStrategy [flat_bar 100 0])
  = NewVegasTunnelStrategy /\
  kline15MData (fst (GenerateSignal NewVegasTunnelStrategy [flat_bar 100 0]))
  = kline15MData NewVegasTunnelStrategy.
Proof.
  split; [split; discriminate|].
  apply (UpdateKlineData_other_timeframe NewVegasTunnelStrategy
           (flat_bar 100 0) "1h" [flat_bar 100 0]); discriminate.
Defined.

End SeriesStore.

(* ===================================================================== *)
(** * Signal engine: C3, C4, C5 and C6 *)
(* ===================================================================== *)

Section SignalProperties.

Lemma evaluation_data_unique (v : VegasTunnelStrategy)
    (t4 t15 t4' t15' : TunnelData) (k k' : KlineData) :
  evaluation_data v t4 t15 k -> evaluation_data v t4' t15' k' ->
  t4 = t4' /\ t15 = t15' /\ k = k'.
Proof.
  intros (H1 & H2 & H3) (H1' & H2' & H3').
  rewrite H1 in H1'. rewrite H2 in H2'. rewrite H3 in H3'.
  injection H1' as ->. injection H2' as ->. injection H3' as ->. auto.
Qed.

Lemma long_short_exclusive (t4 t15 : TunnelData) (close : Decimal.t) :
  long_entry t4 t15 close -> short_entry t4 t15 close -> False.
Proof. intros (H & _) (H' & _). congruence. Qed.

(** C3: the code against the claim.  On the history
    [pullback_into_long_tunnel], whose parameters pass [ValidateParameters],
    [GenerateSignal] emits a Buy at 103 with stop-loss 103.3928 above the
    trigger and take-profit 102.2144 below it. *)
Theorem GenerateSignal_buy_stop_above_trigger :
  ValidateParameters pullback_into_long_tunnel = None /\
  snd (GenerateSignal pullback_into_long_tunnel [flat_bar 103 18])
  = Ok (Some long_tunnel_buy) /\
  Type_ long_tunnel_buy = SignalBuy /\
  (toQ (Price long_tunnel_buy) == 103)%Q /\
  (toQ (StopLoss long_tunnel_buy) == 1033928 # 10000)%Q /\
  (toQ (TakeProfit long_tunnel_buy) == 1022144 # 10000)%Q /\
  LessThan (Price long_tunnel_buy) (StopLoss long_tunnel_buy) = true /\
  LessThan (TakeProfit long_tunnel_buy) (Price long_tunnel_buy) = true.
Proof. vm_compute. repeat split; reflexivity. Qed.

(** C4.  With the strategy configured, an evaluation always returns, with a
    signal or with none, and never panics.  A signal is a Buy with all four
    long conditions true or a Sell with all four short conditions true, the
    conditions being read on the current 4-hour tunnel, the current
    15-minute tunnel and the latest 15-minute close; when the history is too
    short for either tunnel, or neither set of conditions holds, there is no
    signal; and on a non-empty call a full set of conditions does give its
    signal. *)
Theorem GenerateSignal_entry_conditions (v : VegasTunnelStrategy)
    (klines : list KlineData) :
  configured v = true ->
  exists r,
    snd (GenerateSignal v klines) = Ok r /\
    (forall signal, r = Some signal ->
       exists tunnel4H tunnel15M kline,
         evaluation_data v tunnel4H tunnel15M kline /\
         ((Type_ signal = SignalBuy /\
           long_entry tunnel4H tunnel15M (Close kline)) \/
          (Type_ signal = SignalSell /\
           short_entry tunnel4H tunnel15M (Close kline)))) /\
    ((current_tunnel v (kline4HData v) = None \/
      current_tunnel v (kline15MData v) = None) -> r = None) /\
    (forall tunnel4H tunnel15M kline,
       evaluation_data v tunnel4H tunnel15M kline ->
       (~ long_entry tunnel4H tunnel15M (Close kline) ->
        ~ short_entry tunnel4H tunnel15M (Close kline) -> r = None) /\
       (klines <> [] -> long_entry tunnel4H tunnel15M (Close kline) ->
        exists signal, r = Some signal /\ Type_ signal = SignalBuy) /\
       (klines <> [] -> short_entry tunnel4H tunnel15M (Close kline) ->
        exists signal, r = Some signal /\ Type_ signal = SignalSell)).
Proof.
  intros Hc.
  destruct (GenerateSignal_cases v klines Hc) as (ratio & _ & Hcases).
  destruct Hcases as [[Hr Hwhy]|[Hbuy|Hsell]].
  - exists None. split; [exact Hr|]. split; [discriminate|].
    split; [reflexivity|].
    intros t4 t15 k Hd. split; [reflexivity|].
    destruct Hd as (H4 & H15 & Hk).
    destruct Hwhy as [->|[Hn|[Hn|(t4' & t15' & k' & Hd' & Hnl & Hns)]]].
    + split; intros Hne; contradiction.
    + congruence.
    + congruence.
    + destruct (evaluation_data_unique v t4 t15 t4' t15' k k')
        as (-> & -> & ->); [repeat split; assumption | exact Hd' |].
      split; intros _ H; contradiction.
  - destruct Hbuy as (first & rest & t4 & t15 & k & -> & Hd & Hl & Hr).
    exists (Some (buy_signal t4 t15 k (Symbol first) ratio)).
    split; [exact Hr|]. split.
    { intros s [= <-]. exists t4, t15, k. split; [exact Hd|].
      left. split; [reflexivity | exact Hl]. }
    split.
    { destruct Hd as (H4 & H15 & _). intros [H|H]; congruence. }
    intros t4' t15' k' Hd'.
    destruct (evaluation_data_unique v t4 t15 t4' t15' k k' Hd Hd')
      as (<- & <- & <-).
    split; [intros Hn; contradiction|]. split.
    + intros _ _. eexists. split; reflexivity.
    + intros _ Hs. exfalso. exact (long_short_exclusive _ _ _ Hl Hs).
  - destruct Hsell as (first & rest & t4 & t15 & k & -> & Hd & Hnl & Hs & Hr).
    exists (Some (sell_signal t4 t15 k (Symbol first) ratio)).
    split; [exact Hr|]. split.
    { intros s [= <-]. exists t4, t15, k. split; [exact Hd|].
      right. split; [reflexivity | exact Hs]. }
    split.
    { destruct Hd as (H4 & H15 & _). intros [H|H]; congruence. }
    intros t4' t15' k' Hd'.
    destruct (evaluation_data_unique v t4 t15 t4' t15' k k' Hd Hd')
      as (<- & <- & <-).
    split; [intros _ Hn; contradiction|]. split.
    + intros _ Hl. contradiction.
    + intros _ _. eexists. split; reflexivity.
Qed.

(** Witness of [GenerateSignal_entry_conditions]: the history
    [pullback_onto_mid_tunnel], on which a Buy is emitted. *)
Lemma GenerateSignal_entry_conditions_witness :
  configured pullback_onto_mid_tunnel = true /\
  exists r,
    snd (GenerateSignal pullback_onto_mid_tunnel [flat_bar 108 18]) = Ok r /\
    (forall signal, r = Some signal ->
       exists tunnel4H tunnel15M kline,
         evaluation_data pullback_onto_mid_tunnel tunnel4H tunnel15M kline /\
         ((Type_ signal = SignalBuy /\
           long_entry tunnel4H tunnel15M (Close kline)) \/
          (Type_ signal = SignalSell /\
           short_entry tunnel4H tunnel15M (Close kline)))) /\
    ((current_tunnel pullback_onto_mid_tunnel
        (kline4HData pullback_onto_mid_tunnel) = None \/
      current_tunnel pullback_onto_mid_tunnel
        (kline15MData pullback_onto_mid_tunnel) = None) -> r = None) /\
    (forall tunnel4H tunnel15M kline,
       evaluation_data pullback_onto_mid_tunnel tunnel4H tunnel15M kline ->
       (~ long_entry tunnel4H tunnel15M (Close kline) ->
        ~ short_entry tunnel4H tunnel15M (Close kline) -> r = None) /\
       ([flat_bar 108 18] <> [] ->
        long_entry tunnel4H tunnel15M (Close kline) ->
        exists signal, r = Some signal /\ Type_ signal = SignalBuy) /\
       ([flat_bar 108 18] <> [] ->
        short_entry tunnel4H tunnel15M (Close kline) ->
        exists signal, r = Some signal /\ Type_ signal = SignalSell)).
Proof.
  split; [vm_compute; reflexivity|].
  apply (GenerateSignal_entry_conditions pullback_onto_mid_tunnel
           [flat_bar 108 18]).
  vm_compute. reflexivity.
Defined.

End SignalProperties.

Section LevelsAndConfidence.

Lemma toQ_long_stop_level (t15 : TunnelData) :
  (toQ (if LessThan (LongTunnelUpper t15) (MidTunnelLower t15)
        then LongTunnelUpper t15 else MidTunnelLower t15)
   == Qmin (toQ (MidTunnelLower t15)) (toQ (LongTunnelUpper t15)))%Q.
Proof.
  destruct (LessThan (LongTunnelUpper t15) (MidTunnelLower t15)) eqn:E.
  - apply LessThan_spec in E. rewrite Q.min_r; [reflexivity|]. lra.
  - rewrite Q.min_l; [reflexivity|].
    destruct (Qlt_le_dec (toQ (LongTunnelUpper t15)) (toQ (MidTunnelLower t15)))
      as [Hlt|Hle]; [|exact Hle].
    apply LessThan_spec in Hlt. congruence.
Qed.

Lemma toQ_short_stop_level (t15 : TunnelData) :
  (toQ (if GreaterThan (LongTunnelLower t15) (MidTunnelUpper t15)
        then LongTunnelLower t15 else MidTunnelUpper t15)
   == Qmax (toQ (MidTunnelUpper t15)) (toQ (LongTunnelLower t15)))%Q.
Proof.
  destruct (GreaterThan (LongTunnelLower t15) (MidTunnelUpper t15)) eqn:E.
  - apply GreaterThan_spec in E. rewrite Q.max_r; [reflexivity|]. lra.
  - rewrite Q.max_l; [reflexivity|].
    destruct (Qlt_le_dec (toQ (MidTunnelUpper t15)) (toQ (LongTunnelLower t15)))
      as [Hlt|Hle]; [|exact Hle].
    apply GreaterThan_spec in Hlt. congruence.
Qed.

(** An emitted signal is one of the two signals of the entry checks. *)
Lemma GenerateSignal_emitted (v : VegasTunnelStrategy)
    (klines : list KlineData) (signal : TradingSignal) :
  configured v = true ->
  snd (GenerateSignal v klines) = Ok (Some signal) ->
  exists tunnel4H tunnel15M kline symbol ratio,
    evaluation_data v tunnel4H tunnel15M kline /\
    NewFromFloat (riskRewardRatio v) = Ok ratio /\
    ((long_entry tunnel4H tunnel15M (Close kline) /\
      signal = buy_signal tunnel4H tunnel15M kline symbol ratio) \/
     (short_entry tunnel4H tunnel15M (Close kline) /\
      signal = sell_signal tunnel4H tunnel15M kline symbol ratio)).
Proof.
  intros Hc Hs.
  destruct (GenerateSignal_cases v klines Hc) as (ratio & Hratio & Hcases).
  destruct Hcases as [[Hr _]|[Hbuy|Hsell]].
  - congruence.
  - destruct Hbuy as (first & rest & t4 & t15 & k & -> & Hd & Hl & Hr).
    rewrite Hr in Hs. injection Hs as <-.
    exists t4, t15, k, (Symbol first), ratio. auto.
  - destruct Hsell as (first & rest & t4 & t15 & k & -> & Hd & _ & Hsh & Hr).
    rewrite Hr in Hs. injection Hs as <-.
    exists t4, t15, k, (Symbol first), ratio. auto.
Qed.

(** When the order of C3 does hold: an emitted Buy has its stop-loss below
    the trigger and its take-profit above it exactly when the latest close
    is above the stop level, the lower support bound times 0.998. *)
Lemma GenerateSignal_buy_order (v : VegasTunnelStrategy)
    (klines : list KlineData) (signal : TradingSignal) :
  configured v = true -> riskRewardRatio v = 2%float ->
  snd (GenerateSignal v klines) = Ok (Some signal) ->
  Type_ signal = SignalBuy ->
  exists tunnel4H tunnel15M kline,
    evaluation_data v tunnel4H tunnel15M kline /\
    ((toQ (StopLoss signal) < toQ (Price signal) /\
      toQ (Price signal) < toQ (TakeProfit signal))%Q <->
     (Qmin (toQ (MidTunnelLower tunnel15M)) (toQ (LongTunnelUpper tunnel15M))
      * (998 # 1000) < toQ (Close kline))%Q).
Proof.
  intros Hc H2 Hs Hbuy.
  destruct (GenerateSignal_emitted v klines signal Hc Hs)
    as (t4 & t15 & k & symbol & ratio & Hd & Hratio & Hkind).
  rewrite H2, NewFromFloat_default_ratio in Hratio. injection Hratio as <-.
  exists t4, t15, k. split; [exact Hd|].
  destruct Hkind as [[_ ->]|[_ ->]]; [|discriminate].
  cbn [buy_signal Price StopLoss TakeProfit].
  rewrite toQ_Add, !toQ_Mul, toQ_Sub, toQ_Mul, toQ_long_stop_level.
  assert (H998 : (toQ (New 998 (-3)) == 998 # 1000)%Q) by reflexivity.
  assert (H2q : (toQ (New 2 0) == 2)%Q) by reflexivity.
  rewrite H998, H2q.
  set (level := Qmin (toQ (MidTunnelLower t15)) (toQ (LongTunnelUpper t15))).
  split; [intros [H _]; exact H | intros H; split; lra].
Qed.

(** C5, counterexample.  On the history [pullback_onto_mid_tunnel] the Buy
    at 108 has both support bounds below it, the mid lower bound 107.15625
    nearer than the long upper bound 106.4; the stop-loss is 106.1872, set
    off the farther one. *)
Lemma GenerateSignal_stop_not_nearer :
  ~ nearer_stop_claim pullback_onto_mid_tunnel [flat_bar 108 18].
Proof.
  intros H.
  destruct (current_tunnel pullback_onto_mid_tunnel
              (kline15MData pullback_onto_mid_tunnel)) as [t15|] eqn:Ht;
    [|vm_compute in Ht; discriminate].
  destruct (H mid_tunnel_buy t15 (New 2 0)) as [Hbuy _].
  - vm_compute. reflexivity.
  - exact Ht.
  - vm_compute. reflexivity.
  - destruct (Hbuy eq_refl) as [Hstop _].
    vm_compute in Ht. injection Ht as <-.
    vm_compute in Hstop. discriminate.
Qed.

(** C5, as amended.  For an emitted Buy the stop-loss is the lower of the
    15-minute mid lower bound and long upper bound, times 0.998; for an
    emitted Sell it is the higher of the 15-minute mid upper bound and long
    lower bound, times 1.002; the price plays no part in the choice.  The
    take-profit is [trigger + (trigger - stop) * ratio] for a Buy and
    [trigger - (stop - trigger) * ratio] for a Sell, the trigger being the
    latest 15-minute close and the ratio the decimal of [riskRewardRatio],
    2 by default. *)
Theorem GenerateSignal_levels (v : VegasTunnelStrategy)
    (klines : list KlineData) (signal : TradingSignal) :
  configured v = true ->
  snd (GenerateSignal v klines) = Ok (Some signal) ->
  exists tunnel4H tunnel15M kline ratio,
    evaluation_data v tunnel4H tunnel15M kline /\
    NewFromFloat (riskRewardRatio v) = Ok ratio /\
    (riskRewardRatio v = 2%float -> ratio = New 2 0) /\
    Price signal = Close kline /\
    (Type_ signal = SignalBuy \/ Type_ signal = SignalSell) /\
    (Type_ signal = SignalBuy ->
     (toQ (StopLoss signal)
      == Qmin (toQ (MidTunnelLower tunnel15M)) (toQ (LongTunnelUpper tunnel15M))
         * (998 # 1000))%Q /\
     (toQ (TakeProfit signal)
      == toQ (Price signal)
         + (toQ (Price signal) - toQ (StopLoss signal)) * toQ ratio)%Q) /\
    (Type_ signal = SignalSell ->
     (toQ (StopLoss signal)
      == Qmax (toQ (MidTunnelUpper tunnel15M)) (toQ (LongTunnelLower tunnel15M))
         * (1002 # 1000))%Q /\
     (toQ (TakeProfit signal)
      == toQ (Price signal)
         - (toQ (StopLoss signal) - toQ (Price signal)) * toQ ratio)%Q).
Proof.
  intros Hc Hs.
  destruct (GenerateSignal_emitted v klines signal Hc Hs)
    as (t4 & t15 & k & symbol & ratio & Hd & Hratio & Hkind).
  exists t4, t15, k, ratio. split; [exact Hd|]. split; [exact Hratio|].
  split.
  { intros H2. rewrite H2, NewFromFloat_default_ratio in Hratio.
    injection Hratio as <-. reflexivity. }
  destruct Hkind as [[_ ->]|[_ ->]]; cbn [buy_signal sell_signal Price Type_
                                            StopLoss TakeProfit].
  - split; [reflexivity|]. split; [left; reflexivity|]. split.
    + intros _. split.
      * rewrite toQ_Mul, toQ_long_stop_level. reflexivity.
      * rewrite toQ_Add, toQ_Mul, toQ_Sub. reflexivity.
    + discriminate.
  - split; [reflexivity|]. split; [right; reflexivity|]. split.
    + discriminate.
    + intros _. split.
      * rewrite toQ_Mul, toQ_short_stop_level. reflexivity.
      * rewrite toQ_Sub, toQ_Mul, toQ_Sub. reflexivity.
Qed.

(** Witness of [GenerateSignal_levels]: the Buy at 108 of
    [pullback_onto_mid_tunnel], stop-loss 106.1872, take-profit 111.6256. *)
Lemma GenerateSignal_levels_witness :
  (configured pullback_onto_mid_tunnel = true /\
   snd (GenerateSignal pullback_onto_mid_tunnel [flat_bar 108 18])
   = Ok (Some mid_tunnel_buy)) /\
  exists tunnel4H tunnel15M kline ratio,
    evaluation_data pullback_onto_mid_tunnel tunnel4H tunnel15M kline /\
    NewFromFloat (riskRewardRatio pullback_onto_mid_tunnel) = Ok ratio /\
    (riskRewardRatio pullback_onto_mid_tunnel = 2%float -> ratio = New 2 0) /\
    Price mid_tunnel_buy = Close kline /\
    (Type_ mid_tunnel_buy = SignalBuy \/ Type_ mid_tunnel_buy = SignalSell) /\
    (Type_ mid_tunnel_buy = SignalBuy ->
     (toQ (StopLoss mid_tunnel_buy)
      == Qmin (toQ (MidTunnelLower tunnel15M)) (toQ (LongTunnelUpper tunnel15M))
         * (998 # 1000))%Q /\
     (toQ (TakeProfit mid_tunnel_buy)
      == toQ (Price mid_tunnel_buy)
         + (toQ (Price mid_tunnel_buy) - toQ (StopLoss mid_tunnel_buy))
           * toQ ratio)%Q) /\
    (Type_ mid_tunnel_buy = SignalSell ->
     (toQ (StopLoss mid_tunnel_buy)
      == Qmax (toQ (MidTunnelUpper tunnel15M)) (toQ (LongTunnelLower tunnel15M))
         * (1002 # 1000))%Q /\
     (toQ (TakeProfit mid_tunnel_buy)
      == toQ (Price mid_tunnel_buy)
         - (toQ (StopLoss mid_tunnel_buy) - toQ (Price mid_tunnel_buy))
           * toQ ratio)%Q).
Proof.
  split; [split; vm_compute; reflexivity|].
  apply (GenerateSignal_levels pullback_onto_mid_tunnel [flat_bar 108 18]
           mid_tunnel_buy); vm_compute; reflexivity.
Defined.

Lemma confidence_long (t4 t15 : TunnelData) :
  calculateSignalConfidence t4 t15 true
  = confidence_score (GreaterThan (MidTunnelLower t4) (LongTunnelUpper t4))
                     (GreaterThan (EMA12 t15) (MidTunnelLower t15)).
Proof. reflexivity. Qed.

Lemma confidence_short (t4 t15 : TunnelData) :
  calculateSignalConfidence t4 t15 false
  = confidence_score (LessThan (MidTunnelUpper t4) (LongTunnelLower t4))
                     (LessThan (EMA12 t15) (MidTunnelUpper t15)).
Proof. reflexivity. Qed.

Lemma confidence_score_values (separation momentum : bool) :
  confidence_score separation momentum
  = (if separation then if momentum then 0.9 else 0.8
     else if momentum then 0.7 else 0.6)%float /\
  PrimFloat.leb 0 (confidence_score separation momentum) = true /\
  PrimFloat.leb (confidence_score separation momentum) 1 = true.
Proof. destruct separation, momentum; vm_compute; repeat split; reflexivity. Qed.

(** C6.  The confidence of an emitted signal is 0.6, plus 0.2 when the
    4-hour mid tunnel is strictly clear of the long tunnel on the side of
    the signal, plus 0.1 when the 15-minute short average is strictly on the
    favourable side of the mid bound, the sum capped at 1.0 by [math.Min];
    in float64 that is 0.6, 0.7, 0.8 or 0.9, and always within [0, 1]. *)
Theorem GenerateSignal_confidence (v : VegasTunnelStrategy)
    (klines : list KlineData) (signal : TradingSignal) :
  configured v = true ->
  snd (GenerateSignal v klines) = Ok (Some signal) ->
  exists tunnel4H tunnel15M kline (separation momentum : bool),
    evaluation_data v tunnel4H tunnel15M kline /\
    (Type_ signal = SignalBuy \/ Type_ signal = SignalSell) /\
    (Type_ signal = SignalBuy ->
     (separation = true <->
      (toQ (LongTunnelUpper tunnel4H) < toQ (MidTunnelLower tunnel4H))%Q) /\
     (momentum = true <->
      (toQ (MidTunnelLower tunnel15M) < toQ (EMA12 tunnel15M))%Q)) /\
    (Type_ signal = SignalSell ->
     (separation = true <->
      (toQ (MidTunnelUpper tunnel4H) < toQ (LongTunnelLower tunnel4H))%Q) /\
     (momentum = true <->
      (toQ (EMA12 tunnel15M) < toQ (MidTunnelUpper tunnel15M))%Q)) /\
    Confidence signal = confidence_score separation momentum /\
    Confidence signal
    = (if separation then if momentum then 0.9 else 0.8
       else if momentum then 0.7 else 0.6)%float /\
    PrimFloat.leb 0 (Confidence signal) = true /\
    PrimFloat.leb (Confidence signal) 1 = true.
Proof.
  intros Hc Hs.
  destruct (GenerateSignal_emitted v klines signal Hc Hs)
    as (t4 & t15 & k & symbol & ratio & Hd & _ & Hkind).
  destruct Hkind as [[_ ->]|[_ ->]].
  - exists t4, t15, k,
      (GreaterThan (MidTunnelLower t4) (LongTunnelUpper t4)),
      (GreaterThan (EMA12 t15) (MidTunnelLower t15)).
    cbn [buy_signal Type_ Confidence]. rewrite confidence_long.
    split; [exact Hd|]. split; [left; reflexivity|]. split.
    { intros _. split; apply GreaterThan_spec. }
    split; [discriminate|]. split; [reflexivity|].
    apply confidence_score_values.
  - exists t4, t15, k,
      (LessThan (MidTunnelUpper t4) (LongTunnelLower t4)),
      (LessThan (EMA12 t15) (MidTunnelUpper t15)).
    cbn [sell_signal Type_ Confidence]. rewrite confidence_short.
    split; [exact Hd|]. split; [right; reflexivity|]. split; [discriminate|].
    split.
    { intros _. split; apply LessThan_spec. }
    split; [reflexivity|].
    apply confidence_score_values.
Qed.

(** Witness of [GenerateSignal_confidence]: the Buy of
    [pullback_onto_mid_tunnel], confidence 0.9. *)
Lemma GenerateSignal_confidence_witness :
  (configured pullback_onto_mid_tunnel = true /\
   snd (GenerateSignal pullback_onto_mid_tunnel [flat_bar 108 18])
   = Ok (Some mid_tunnel_buy)) /\
  exists tunnel4H tunnel15M kline (separation momentum : bool),
    evaluation_data pullback_onto_mid_tunnel tunnel4H tunnel15M kline /\
    (Type_ mid_tunnel_buy = SignalBuy \/ Type_ mid_tunnel_buy = SignalSell) /\
    (Type_ mid_tunnel_buy = SignalBuy ->
     (separation = true <->
      (toQ (LongTunnelUpper tunnel4H) < toQ (MidTunnelLower tunnel4H))%Q) /\
     (momentum = true <->
      (toQ (MidTunnelLower tunnel15M) < toQ (EMA12 tunnel15M))%Q)) /\
    (Type_ mid_tunnel_buy = SignalSell ->
     (separation = true <->
      (toQ (MidTunnelUpper tunnel4H) < toQ (LongTunnelLower tunnel4H))%Q) /\
     (momentum = true <->
      (toQ (EMA12 tunnel15M) < toQ (MidTunnelUpper tunnel15M))%Q)) /\
    Confidence mid_tunnel_buy = confidence_score separation momentum /\
    Confidence mid_tunnel_buy
    = (if separation then if momentum then 0.9 else 0.8
       else if momentum then 0.7 else 0.6)%float /\
    PrimFloat.leb 0 (Confidence mid_tunnel_buy) = true /\
    PrimFloat.leb (Confidence mid_tunnel_buy) 1 = true.
Proof.
  split; [split; vm_compute; reflexivity|].
  apply (GenerateSignal_confidence pullback_onto_mid_tunnel [flat_bar 108 18]
           mid_tunnel_buy); vm_compute; reflexivity.
Defined.

End LevelsAndConfidence.

(* ===================================================================== *)
(** * Exit engine: C9 *)
(* ===================================================================== *)

Section ExitProperties.

Lemma EMA12_tunnel_of (e12 e144 e169 e288 e338 : Decimal.t) :
  EMA12 (tunnel_of e12 e144 e169 e288 e338) = e12.
Proof.
  unfold tunnel_of.
  destruct (GreaterThan e144 e169), (GreaterThan e288 e338); reflexivity.
Qed.

(** With enough bars, the short average in the current tunnel is the last
    entry of the short average. *)
Lemma current_tunnel_EMA12 (v : VegasTunnelStrategy) (klines : list KlineData) :
  periods_configured v = true -> sufficient v klines ->
  exists tunnelData tunnel ema12 ema,
    CalculateTunnelData v klines = Ok (Some tunnelData) /\
    last tunnelData = Some tunnel /\
    CalculateEMA (Close <$> klines) (shortEMAPeriod v) = Ok (Some ema12) /\
    last ema12 = Some ema /\
    EMA12 tunnel = ema.
Proof.
  intros Hc Hs.
  destruct (CalculateTunnelData_sufficient v klines Hc Hs)
    as (e12 & e144 & e169 & e288 & e338 & td & E1 & _ & _ & _ & _ & Htd & Hl & Hget).
  pose proof (periods_configured_inv v Hc) as (H1 & _ & _ & _ & H5).
  pose proof (period_ok_pos _ H5) as P5.
  destruct Hs as (S1 & _ & _ & _ & S5).
  destruct (CalculateEMA_enough (Close <$> klines) _ H1) as (r1 & E1' & N1).
  { unfold len in *. rewrite length_fmap. exact S1. }
  rewrite E1 in E1'. injection E1' as <-. rewrite length_fmap in N1.
  assert (Hpos : (0 < length klines)%nat) by (unfold len in S5; lia).
  exists td, (tunnel_of (entry e12 (pred (length klines)))
                (entry e144 (pred (length klines)))
                (entry e169 (pred (length klines)))
                (entry e288 (pred (length klines)))
                (entry e338 (pred (length klines)))),
    e12, (entry e12 (pred (length klines))).
  split; [exact Htd|]. split.
  { rewrite last_lookup, Hl. apply Hget. unfold len in *. lia. }
  split; [exact E1|]. split.
  { rewrite last_lookup, N1. unfold entry.
    destruct (lookup_lt_is_Some_2 e12 (pred (length klines)) ltac:(lia))
      as [x ->]. reflexivity. }
  apply EMA12_tunnel_of.
Qed.

(** C9.  With the periods configured, [CheckEMA12Exit] always returns and
    never panics.  What it returns is a signal exactly when the 15-minute
    history has at least two bars and at least as many as each period, and
    the latest close is strictly below the latest short average for a long
    position, strictly above it for a short one; that signal has type
    [SignalTakeProfit] and confidence 0.9.  In every other case it returns
    no signal. *)
Theorem CheckEMA12Exit_spec (v : VegasTunnelStrategy) (symbol : string)
    (isLong : bool) :
  periods_configured v = true ->
  exists r,
    CheckEMA12Exit v symbol isLong = Ok r /\
    (forall signal, r = Some signal ->
       Type_ signal = SignalTakeProfit /\ Confidence signal = 0.9%float) /\
    ((exists signal, r = Some signal) <-> exit_due v isLong) /\
    (~ exit_due v isLong -> r = None).
Proof.
  intros Hc. unfold CheckEMA12Exit.
  destruct (Z.ltb_spec (len (kline15MData v)) 2) as [Hlt|Hge].
  { exists None. split; [reflexivity|]. split; [discriminate|]. split.
    - split; [intros [s Hs]; discriminate|].
      intros (H2 & _). lia.
    - reflexivity. }
  assert (Hdec : sufficient v (kline15MData v) \/ ~ sufficient v (kline15MData v))
    by (unfold sufficient; lia).
  destruct Hdec as [Hs|Hns].
  2:{ rewrite (CalculateTunnelData_insufficient v _ Hc Hns), bind_Ok.
      exists None. split; [reflexivity|]. split; [discriminate|]. split.
      - split; [intros [s Hs]; discriminate|].
        intros (_ & Hs & _). contradiction.
      - reflexivity. }
  destruct (current_tunnel_EMA12 v (kline15MData v) Hc Hs)
    as (td & tunnel & ema12 & ema & Htd & Hlast & Hema & Hlema & HE).
  rewrite Htd, bind_Ok.
  destruct (nonempty_last (kline15MData v)) as [k Hk];
    [unfold len in Hge; lia|].
  rewrite (last_of_last _ _ Hk), bind_Ok, (last_of_last _ _ Hlast), bind_Ok.
  rewrite HE.
  assert (Hdue : forall b : bool,
             (b = true <-> exit_condition isLong (Close k) ema) ->
             (b = true <-> exit_due v isLong)).
  { intros b Hb. rewrite Hb. unfold exit_due. split.
    - intros Hx. split; [exact Hge|]. split; [exact Hs|].
      exists ema12, ema, k. auto.
    - intros (_ & _ & (ema12' & ema' & k' & E' & L' & K' & Hx)).
      rewrite Hema in E'. injection E' as <-.
      rewrite Hlema in L'. injection L' as <-.
      rewrite Hk in K'. injection K' as <-. exact Hx. }
  destruct isLong.
  - specialize (Hdue (LessThan (Close k) ema) (LessThan_spec _ _)).
    destruct (LessThan (Close k) ema); cbn.
    + eexists. split; [reflexivity|]. split.
      { intros s [= <-]. split; reflexivity. }
      split.
      * split; [intros _; apply Hdue; reflexivity | intros _; eauto].
      * intros Hn. exfalso. apply Hn, Hdue. reflexivity.
    + exists None. split; [reflexivity|]. split; [discriminate|]. split.
      * split; [intros [s Hs']; discriminate|].
        intros Hd. apply Hdue in Hd. discriminate.
      * reflexivity.
  - specialize (Hdue (GreaterThan (Close k) ema) (GreaterThan_spec _ _)).
    destruct (GreaterThan (Close k) ema); cbn.
    + eexists. split; [reflexivity|]. split.
      { intros s [= <-]. split; reflexivity. }
      split.
      * split; [intros _; apply Hdue; reflexivity | intros _; eauto].
      * intros Hn. exfalso. apply Hn, Hdue. reflexivity.
    + exists None. split; [reflexivity|]. split; [discriminate|]. split.
      * split; [intros [s Hs']; discriminate|].
        intros Hd. apply Hdue in Hd. discriminate.
      * reflexivity.
Qed.

(** Witness of [CheckEMA12Exit_spec]: a short position on the history
    [pullback_onto_mid_tunnel], whose last close 108 is above the short
    average 107.75. *)
Lemma CheckEMA12Exit_spec_witness :
  periods_configured pullback_onto_mid_tunnel = true /\
  exists r,
    CheckEMA12Exit pullback_onto_mid_tunnel "BTCUSDT" false = Ok r /\
    (forall signal, r = Some signal ->
       Type_ signal = SignalTakeProfit /\ Confidence signal = 0.9%float) /\
    ((exists signal, r = Some signal) <->
     exit_due pullback_onto_mid_tunnel false) /\
    (~ exit_due pullback_onto_mid_tunnel false -> r = None).
Proof.
  split; [vm_compute; reflexivity|].
  apply (CheckEMA12Exit_spec pullback_onto_mid_tunnel "BTCUSDT" false).
  vm_compute. reflexivity.
Defined.

End ExitProperties.

(* ===================================================================== *)
(** * Further properties of the series store *)
(* ===================================================================== *)

Section Window.

Lemma window_step {A} (s : list A) (b : A) (bars : list A) (cap : nat) :
  (length s <= cap)%nat ->
  let data := s ++ [b] in
  let s' := if Z.of_nat cap <? len data then drop 1 data else data in
  (length s' <= cap)%nat /\
  drop (length (s' ++ bars) - cap) (s' ++ bars)
  = drop (length (s ++ b :: bars) - cap) (s ++ b :: bars).
Proof.
  intros Hs data s'. subst data s'. unfold len.
  rewrite length_app. cbn [length].
  destruct (Z.ltb_spec (Z.of_nat cap) (Z.of_nat (length s + 1))) as [Hlt|Hge].
  - assert (length s = cap) by lia.
    split; [rewrite length_drop, length_app; simpl; lia|].
    rewrite !length_app, length_drop, length_app. cbn [length].
    replace (s ++ b :: bars) with ((s ++ [b]) ++ bars)
      by (rewrite <- app_assoc; reflexivity).
    replace (drop 1 (s ++ [b]) ++ bars) with (drop 1 ((s ++ [b]) ++ bars)).
    2:{ rewrite drop_app_le; [reflexivity|]. rewrite length_app. simpl. lia. }
    rewrite drop_drop. f_equal. lia.
  - split; [rewrite length_app; simpl; lia|].
    rewrite <- app_assoc. reflexivity.
Qed.

Lemma store_bars_15m (bars : list KlineData) :
  forall v : VegasTunnelStrategy,
    (length (kline15MData v) <= 1000)%nat ->
    kline15MData (store_bars "15m" v bars)
    = drop (length (kline15MData v ++ bars) - 1000) (kline15MData v ++ bars) /\
    kline4HData (store_bars "15m" v bars) = kline4HData v.
Proof.
  induction bars as [|b bars IH]; intros v Hv.
  - cbn [store_bars foldl]. rewrite app_nil_r.
    replace (length (kline15MData v) - 1000)%nat with 0%nat by lia.
    split; reflexivity.
  - cbn [store_bars foldl]. fold (store_bars "15m" (UpdateKlineData v b "15m") bars).
    pose proof (window_step (kline15MData v) b bars 1000 Hv) as [Hlen Heq].
    cbn zeta in Hlen, Heq.
    destruct (IH (UpdateKlineData v b "15m")) as [H15 H4].
    { exact Hlen. }
    rewrite H15, H4. split; [exact Heq | reflexivity].
Qed.

Lemma store_bars_4h (bars : list KlineData) :
  forall v : VegasTunnelStrategy,
    (length (kline4HData v) <= 500)%nat ->
    kline4HData (store_bars "4h" v bars)
    = drop (length (kline4HData v ++ bars) - 500) (kline4HData v ++ bars) /\
    kline15MData (store_bars "4h" v bars) = kline15MData v.
Proof.
  induction bars as [|b bars IH]; intros v Hv.
  - cbn [store_bars foldl]. rewrite app_nil_r.
    replace (length (kline4HData v) - 500)%nat with 0%nat by lia.
    split; reflexivity.
  - cbn [store_bars foldl]. fold (store_bars "4h" (UpdateKlineData v b "4h") bars).
    pose proof (window_step (kline4HData v) b bars 500 Hv) as [Hlen Heq].
    cbn zeta in Hlen, Heq.
    destruct (IH (UpdateKlineData v b "4h")) as [H4 H15].
    { exact Hlen. }
    rewrite H15, H4. split; [exact Heq | reflexivity].
Qed.

End Window.

Section StoreProperties.

(** X1.  Stored under ["15m"], a run of bars leaves the last 1000 of the
    series followed by the run, in arrival order, and does not touch the
    4-hour series; under ["4h"] the last 500, and the 15-minute series is
    untouched.  The series never grows beyond its cap. *)
Theorem UpdateKlineData_sliding_window (v : VegasTunnelStrategy)
    (bars : list KlineData) :
  len (kline15MData v) <= 1000 -> len (kline4HData v) <= 500 ->
  (kline15MData (store_bars "15m" v bars)
   = drop (length (kline15MData v ++ bars) - 1000) (kline15MData v ++ bars) /\
   kline4HData (store_bars "15m" v bars) = kline4HData v /\
   len (kline15MData (store_bars "15m" v bars)) <= 1000) /\
  (kline4HData (store_bars "4h" v bars)
   = drop (length (kline4HData v ++ bars) - 500) (kline4HData v ++ bars) /\
   kline15MData (store_bars "4h" v bars) = kline15MData v /\
   len (kline4HData (store_bars "4h" v bars)) <= 500).
Proof.
  unfold len. intros H15 H4.
  destruct (store_bars_15m bars v) as [E15 F4]; [lia|].
  destruct (store_bars_4h bars v) as [E4 F15]; [lia|].
  split; (split; [assumption|]; split; [assumption|]).
  - rewrite E15, length_drop. lia.
  - rewrite E4, length_drop. lia.
Qed.

Lemma UpdateKlineData_sliding_window_witness :
  (len (kline15MData NewVegasTunnelStrategy) <= 1000 /\
   len (kline4HData NewVegasTunnelStrategy) <= 500) /\
  kline15MData
    (store_bars "15m" NewVegasTunnelStrategy
       (imap (fun i price => flat_bar price (Z.of_nat i)) (seqZ 0 1002)))
  = drop (length (kline15MData NewVegasTunnelStrategy ++
                  imap (fun i price => flat_bar price (Z.of_nat i))
                    (seqZ 0 1002)) - 1000)
      (kline15MData NewVegasTunnelStrategy ++
       imap (fun i price => flat_bar price (Z.of_nat i)) (seqZ 0 1002)).
Proof.
  split; [split; vm_compute; discriminate|].
  apply (UpdateKlineData_sliding_window NewVegasTunnelStrategy
           (imap (fun i price => flat_bar price (Z.of_nat i)) (seqZ 0 1002)));
    vm_compute; discriminate.
Defined.

(** In every state the exported calls can reach, the two series are within
    their caps and the reward ratio, the minimal tunnel period and the
    volume factor are those of the constructor. *)
Lemma reachable_fields (v : VegasTunnelStrategy) :
  reachable v ->
  len (kline15MData v) <= 1000 /\ len (kline4HData v) <= 500 /\
  riskRewardRatio v = 2.0%float /\ minTunnelPeriod v = 3 /\
  volumeFactor v = 1.5%float.
Proof.
  induction 1 as [|v a b c d e sl tp _ IH|v kline timeframe _ IH|v klines _ IH].
  - repeat split; vm_compute; discriminate.
  - exact IH.
  - destruct IH as (H15 & H4 & Hr & Hm & Hv). unfold UpdateKlineData, len in *.
    destruct (String.eqb timeframe "15m").
    + cbn [set_kline15MData kline15MData kline4HData riskRewardRatio
             minTunnelPeriod volumeFactor].
      repeat split; try assumption.
      destruct (Z.ltb_spec 1000 (Z.of_nat (length (kline15MData v ++ [kline]))))
        as [Hlt|Hge].
      * rewrite length_drop, length_app. simpl. lia.
      * lia.
    + destruct (String.eqb timeframe "4h").
      * cbn [set_kline4HData kline15MData kline4HData riskRewardRatio
               minTunnelPeriod volumeFactor].
        repeat split; try assumption.
        destruct (Z.ltb_spec 500 (Z.of_nat (length (kline4HData v ++ [kline]))))
          as [Hlt|Hge].
        -- rewrite length_drop, length_app. simpl. lia.
        -- lia.
      * repeat split; assumption.
  - replace (fst (GenerateSignal v klines)) with v; [exact IH|].
    unfold GenerateSignal. destruct klines; [reflexivity|].
    cbn [fst]. symmetry. apply GenerateSignal_feed.
Qed.

(** X2.  No exported call changes the reward ratio: in every reachable
    state the two series are within their caps of 1000 and 500 bars, the
    ratio is the 2.0 of the constructor, and every signal emitted has its
    take-profit at twice the distance of its stop-loss, on the other side of
    the trigger: [TakeProfit - Price = 2 * (Price - StopLoss)], for a Buy
    and for a Sell. *)
Theorem reachable_state_limits (v : VegasTunnelStrategy) :
  reachable v ->
  len (kline15MData v) <= 1000 /\ len (kline4HData v) <= 500 /\
  riskRewardRatio v = 2.0%float /\
  forall (klines : list KlineData) (signal : TradingSignal),
    periods_configured v = true ->
    snd (GenerateSignal v klines) = Ok (Some signal) ->
    (toQ (TakeProfit signal) - toQ (Price signal)
     == 2 * (toQ (Price signal) - toQ (StopLoss signal)))%Q.
Proof.
  intros Hr. destruct (reachable_fields v Hr) as (H15 & H4 & Hratio & _).
  repeat (split; [assumption|]).
  intros klines signal Hp Hs.
  assert (Hc : configured v = true).
  { unfold configured. rewrite Hp, Hratio. reflexivity. }
  destruct (GenerateSignal_emitted v klines signal Hc Hs)
    as (t4 & t15 & k & symbol & ratio & _ & Hrat & Hkind).
  rewrite Hratio, NewFromFloat_default_ratio in Hrat. injection Hrat as <-.
  assert (H2q : (toQ (New 2 0) == 2)%Q) by reflexivity.
  destruct Hkind as [[_ ->]|[_ ->]].
  - cbn [buy_signal Price StopLoss TakeProfit].
    rewrite toQ_Add, toQ_Mul, toQ_Sub, H2q. ring.
  - cbn [sell_signal Price StopLoss TakeProfit].
    rewrite toQ_Sub, toQ_Mul, toQ_Sub, H2q. ring.
Qed.

Lemma reachable_state_limits_witness :
  reachable (UpdateKlineData
               (SetParameters NewVegasTunnelStrategy 3 4 7 9 15 0.02 0.04)
               (flat_bar 100 0) "15m") /\
  riskRewardRatio (UpdateKlineData
                     (SetParameters NewVegasTunnelStrategy 3 4 7 9 15 0.02 0.04)
                     (flat_bar 100 0) "15m") = 2.0%float.
Proof.
  split; [repeat constructor|].
  apply (reachable_state_limits
           (UpdateKlineData
              (SetParameters NewVegasTunnelStrategy 3 4 7 9 15 0.02 0.04)
              (flat_bar 100 0) "15m")).
  repeat constructor.
Defined.

End StoreProperties.

Section EngineInputs.

(** X3.  A strategy whose 15-minute series is empty gives no signal, and
    [GenerateSignal] stores nothing: called any number of times, with any
    bars, on a strategy that was never fed through [UpdateKlineData], it
    returns no signal every time and leaves the strategy as it was. *)
Theorem GenerateSignal_alone_never_signals (v : VegasTunnelStrategy)
    (calls : list (list KlineData)) :
  kline15MData v = [] -> 1 <= longTunnel2Period v ->
  signal_runs v calls = (v, replicate (length calls) (Ok None)).
Proof.
  intros Hempty Hp. induction calls as [|klines calls IH]; [reflexivity|].
  cbn [signal_runs length replicate].
  assert (Hcall : GenerateSignal v klines = (v, Ok None)).
  { unfold GenerateSignal. destruct klines as [|first rest]; [reflexivity|].
    rewrite GenerateSignal_feed, Hempty.
    destruct (Z.ltb_spec (len (@nil KlineData)) (longTunnel2Period v))
      as [_|Hge]; [reflexivity|]. unfold len in Hge. simpl in Hge. lia. }
  rewrite Hcall, IH. reflexivity.
Qed.

Lemma GenerateSignal_alone_never_signals_witness :
  (kline15MData NewVegasTunnelStrategy = [] /\
   1 <= longTunnel2Period NewVegasTunnelStrategy) /\
  signal_runs NewVegasTunnelStrategy
    [[flat_bar 100 0]; [flat_bar 101 1; flat_bar 102 2]]
  = (NewVegasTunnelStrategy, [Ok None; Ok None]).
Proof.
  split; [split; [reflexivity | vm_compute; discriminate]|].
  apply (GenerateSignal_alone_never_signals NewVegasTunnelStrategy
           [[flat_bar 100 0]; [flat_bar 101 1; flat_bar 102 2]]).
  - reflexivity.
  - vm_compute; discriminate.
Defined.

Lemma same_inputs_tunnel (v v' : VegasTunnelStrategy) (klines : list KlineData) :
  same_inputs v v' -> CalculateTunnelData v klines = CalculateTunnelData v' klines.
Proof.
  intros (H1 & H2 & H3 & H4 & H5 & _). unfold CalculateTunnelData.
  rewrite H1, H2, H3, H4, H5. reflexivity.
Qed.

(** X4.  The signal and exit engines read the five periods, the reward ratio
    and the two stored series, nothing else: two strategies that agree on
    these give the same results.  The stop-loss and take-profit percents set
    by [SetParameters] (and the minimal tunnel period and the volume factor)
    change no signal, no level and no exit. *)
Theorem engines_ignore_percents (v v' : VegasTunnelStrategy)
    (klines : list KlineData) (symbol : string) (isLong : bool) :
  same_inputs v v' ->
  snd (GenerateSignal v klines) = snd (GenerateSignal v' klines) /\
  CheckEMA12Exit v symbol isLong = CheckEMA12Exit v' symbol isLong.
Proof.
  intros Hs. pose proof (same_inputs_tunnel v v') as Ht.
  destruct Hs as (H1 & H2 & H3 & H4 & H5 & Hr & H15 & H4h).
  assert (Hs : same_inputs v v') by (repeat split; assumption).
  split.
  - unfold GenerateSignal. destruct klines as [|first rest]; [reflexivity|].
    rewrite !GenerateSignal_feed. cbn [snd].
    rewrite !(Ht _ Hs), H5, H15, H4h.
    unfold checkLongSignal, checkShortSignal, calculateStopLossAndTakeProfit.
    rewrite Hr. reflexivity.
  - unfold CheckEMA12Exit. rewrite !(Ht _ Hs), H15. reflexivity.
Qed.

Lemma engines_ignore_percents_witness :
  same_inputs (SetParameters pullback_onto_mid_tunnel 3 4 7 9 15 0.02 0.04)
              (SetParameters pullback_onto_mid_tunnel 3 4 7 9 15 0.1 0.2) /\
  snd (GenerateSignal
         (SetParameters pullback_onto_mid_tunnel 3 4 7 9 15 0.02 0.04)
         [flat_bar 108 18])
  = snd (GenerateSignal
           (SetParameters pullback_onto_mid_tunnel 3 4 7 9 15 0.1 0.2)
           [flat_bar 108 18]).
Proof.
  split; [repeat split|].
  apply (engines_ignore_percents
           (SetParameters pullback_onto_mid_tunnel 3 4 7 9 15 0.02 0.04)
           (SetParameters pullback_onto_mid_tunnel 3 4 7 9 15 0.1 0.2)
           [flat_bar 108 18] "BTCUSDT" true).
  repeat split.
Defined.

End EngineInputs.

(* ===================================================================== *)
(** * Panics and validation *)
(* ===================================================================== *)

Section Panics.

Lemma CalculateEMA_total (prices : list Decimal.t) (p : Z) :
  1 <= p -> len prices < int_max ->
  (len prices < p /\ CalculateEMA prices p = Ok None) \/
  (p <= len prices /\ period_ok p = true /\
   exists result, CalculateEMA prices p = Ok (Some result) /\
                  length result = length prices).
Proof.
  intros Hp Hlen. destruct (Z_lt_le_dec (len prices) p) as [Hlt|Hle].
  - left. split; [exact Hlt | apply CalculateEMA_short; exact Hlt].
  - right. assert (Hok : period_ok p = true).
    { unfold period_ok. apply andb_true_intro.
      split; [apply Z.leb_le | apply Z.ltb_lt]; lia. }
    split; [exact Hle|]. split; [exact Hok|].
    apply CalculateEMA_enough; assumption.
Qed.

Lemma len_closes (klines : list KlineData) :
  len (Close <$> klines) = len klines.
Proof. unfold len. rewrite length_fmap. reflexivity. Qed.

(** With positive periods the tunnel computation returns: nil on a history
    that is too short for one of them, and otherwise all five are usable. *)
Lemma CalculateTunnelData_total (v : VegasTunnelStrategy)
    (klines : list KlineData) :
  1 <= shortEMAPeriod v -> 1 <= midTunnel1Period v ->
  1 <= midTunnel2Period v -> 1 <= longTunnel1Period v ->
  1 <= longTunnel2Period v -> len klines < int_max ->
  (~ sufficient v klines /\ CalculateTunnelData v klines = Ok None) \/
  (sufficient v klines /\ periods_configured v = true).
Proof.
  intros H1 H2 H3 H4 H5 Hlen.
  pose proof (len_closes klines) as Hc. rewrite <- Hc in Hlen.
  destruct (CalculateEMA_total (Close <$> klines) _ H1 Hlen)
    as [[L1 E1]|(L1 & K1 & r1 & E1 & _)];
  destruct (CalculateEMA_total (Close <$> klines) _ H2 Hlen)
    as [[L2 E2]|(L2 & K2 & r2 & E2 & _)];
  destruct (CalculateEMA_total (Close <$> klines) _ H3 Hlen)
    as [[L3 E3]|(L3 & K3 & r3 & E3 & _)];
  destruct (CalculateEMA_total (Close <$> klines) _ H4 Hlen)
    as [[L4 E4]|(L4 & K4 & r4 & E4 & _)];
  destruct (CalculateEMA_total (Close <$> klines) _ H5 Hlen)
    as [[L5 E5]|(L5 & K5 & r5 & E5 & _)];
  rewrite Hc in *;
  first
    [ right; split; [unfold sufficient; lia|];
      unfold periods_configured; rewrite K1, K2, K3, K4, K5; reflexivity
    | left; split; [unfold sufficient; lia|];
      unfold CalculateTunnelData;
      destruct (Z.ltb_spec (len klines) (longTunnel2Period v));
      [reflexivity|]; rewrite E1, E2, E3, E4, E5; reflexivity ].
Qed.

Lemma ValidateParameters_order (v : VegasTunnelStrategy) :
  ValidateParameters v = None ->
  1 <= shortEMAPeriod v /\
  shortEMAPeriod v < midTunnel1Period v /\
  shortEMAPeriod v < midTunnel2Period v /\
  midTunnel2Period v < longTunnel1Period v /\
  midTunnel2Period v < longTunnel2Period v.
Proof.
  unfold ValidateParameters. intros Hv.
  destruct (Z.leb_spec (shortEMAPeriod v) 0) as [|Hs]; [discriminate|].
  destruct (Z.leb_spec (midTunnel1Period v) (shortEMAPeriod v)) as [|Hm1];
    [discriminate|].
  destruct (Z.leb_spec (midTunnel2Period v) (shortEMAPeriod v)) as [|Hm2];
    [discriminate|].
  destruct (Z.leb_spec (longTunnel1Period v) (midTunnel2Period v)) as [|Hl1];
    [discriminate|].
  destruct (Z.leb_spec (longTunnel2Period v) (midTunnel2Period v)) as [|Hl2];
    [discriminate|].
  lia.
Qed.

(** The exit check on a computed tunnel. *)
Lemma CheckEMA12Exit_current (v : VegasTunnelStrategy) (symbol : string)
    (isLong : bool) (tunnel : TunnelData) (kline : KlineData) :
  periods_configured v = true ->
  2 <= len (kline15MData v) ->
  current_tunnel v (kline15MData v) = Some tunnel ->
  last (kline15MData v) = Some kline ->
  CheckEMA12Exit v symbol isLong
  = Ok (if (if isLong then LessThan (Close kline) (EMA12 tunnel)
            else GreaterThan (Close kline) (EMA12 tunnel))
        then Some (mkSignal symbol SignalTakeProfit (Close kline)
                     zero_value zero_value 0.9
                     (if isLong then "15M收盘价跌破EMA12移动止盈线"
                      else "15M收盘价突破EMA12移动止盈线")
                     (Timestamp kline) "15M")
        else None).
Proof.
  intros Hc H2 Ht Hk. unfold CheckEMA12Exit.
  destruct (Z.ltb_spec (len (kline15MData v)) 2) as [|_]; [lia|].
  destruct (current_tunnel_cases v (kline15MData v) Hc)
    as [[_ Hn]|(td & t & Htd & Hl & Hcur & _)]; [congruence|].
  rewrite Hcur in Ht. injection Ht as ->.
  rewrite Htd, bind_Ok, (last_of_last _ _ Hk), bind_Ok,
    (last_of_last _ _ Hl), bind_Ok.
  destruct isLong.
  - destruct (LessThan (Close kline) (EMA12 tunnel)); reflexivity.
  - destruct (GreaterThan (Close kline) (EMA12 tunnel)); reflexivity.
Qed.

Lemma CheckEMA12Exit_no_tunnel (v : VegasTunnelStrategy) (symbol : string)
    (isLong : bool) :
  CalculateTunnelData v (kline15MData v) = Ok None ->
  CheckEMA12Exit v symbol isLong = Ok None.
Proof.
  intros H. unfold CheckEMA12Exit.
  destruct (len (kline15MData v) <? 2); [reflexivity|].
  rewrite H. reflexivity.
Qed.

Lemma GenerateSignal_no_tunnel (v : VegasTunnelStrategy)
    (klines : list KlineData) :
  CalculateTunnelData v (kline4HData v) = Ok None ->
  snd (GenerateSignal v klines) = Ok None.
Proof.
  intros H. unfold GenerateSignal. destruct klines as [|first rest];
    [reflexivity|].
  rewrite GenerateSignal_feed. cbn [snd].
  destruct (len (kline15MData v) <? longTunnel2Period v); [reflexivity|].
  destruct (len (kline4HData v) <? longTunnel2Period v); [reflexivity|].
  rewrite H. reflexivity.
Qed.

Lemma int_max_large : 1000 < int_max.
Proof. reflexivity. Qed.

(** X5.  A strategy in a reachable state whose parameters
    [ValidateParameters] accepts never panics: [GenerateSignal] and
    [CheckEMA12Exit] return on every input, whatever the periods (a period
    above the caps of the stores only makes the history insufficient). *)
Theorem validated_strategy_never_panics (v : VegasTunnelStrategy)
    (klines : list KlineData) (symbol : string) (isLong : bool) :
  reachable v -> ValidateParameters v = None ->
  (exists r, snd (GenerateSignal v klines) = Ok r) /\
  (exists r, CheckEMA12Exit v symbol isLong = Ok r).
Proof.
  intros Hr Hv.
  destruct (reachable_fields v Hr) as (H15 & H4 & Hratio & _).
  destruct (ValidateParameters_order v Hv) as (P1 & P2 & P3 & P4 & P5).
  pose proof int_max_large as Hmax.
  split.
  - destruct (CalculateTunnelData_total v (kline4HData v))
      as [[_ Hn]|[_ Hc]]; try lia.
    + exists None. apply GenerateSignal_no_tunnel. exact Hn.
    + assert (Hconf : configured v = true).
      { unfold configured. rewrite Hc, Hratio. reflexivity. }
      destruct (GenerateSignal_cases v klines Hconf) as (ratio & _ & Hcases).
      destruct Hcases as [[-> _]|[Hb|Hs]]; [eauto| |].
      * destruct Hb as (f & r & t4 & t15 & k & _ & _ & _ & ->). eauto.
      * destruct Hs as (f & r & t4 & t15 & k & _ & _ & _ & _ & ->). eauto.
  - destruct (CalculateTunnelData_total v (kline15MData v))
      as [[_ Hn]|[Hs Hc]]; try lia.
    + exists None. apply CheckEMA12Exit_no_tunnel. exact Hn.
    + destruct (Z_lt_le_dec (len (kline15MData v)) 2) as [Hlt|Hge].
      { exists None. unfold CheckEMA12Exit.
        destruct (Z.ltb_spec (len (kline15MData v)) 2); [reflexivity | lia]. }
      destruct (current_tunnel_cases v (kline15MData v) Hc)
        as [[Hn _]|(td & t & Htd & Hl & Hcur & Hpos)].
      * exists None. apply CheckEMA12Exit_no_tunnel. exact Hn.
      * destruct (nonempty_last (kline15MData v) Hpos) as [k Hk].
        rewrite (CheckEMA12Exit_current v symbol isLong t k Hc Hge Hcur Hk).
        eauto.
Qed.

Lemma validated_strategy_never_panics_witness :
  (reachable pullback_into_long_tunnel /\
   ValidateParameters pullback_into_long_tunnel = None) /\
  (exists r, snd (GenerateSignal pullback_into_long_tunnel [flat_bar 103 18])
             = Ok r) /\
  (exists r, CheckEMA12Exit pullback_into_long_tunnel "BTCUSDT" true = Ok r).
Proof.
  assert (Hfeed : forall tf closes v,
             reachable v -> reachable (feed tf v closes)).
  { intros tf closes. unfold feed.
    generalize (imap (fun i price => flat_bar price (Z.of_nat i)) closes).
    intros bars. induction bars as [|b bars IH]; intros v Hv; [exact Hv|].
    cbn [foldl]. apply IH. constructor. exact Hv. }
  assert (Hreach : reachable pullback_into_long_tunnel).
  { unfold pullback_into_long_tunnel, slow_uptrend, short_periods.
    repeat apply Hfeed. repeat constructor. }
  split; [split; [exact Hreach | reflexivity]|].
  apply (validated_strategy_never_panics pullback_into_long_tunnel
           [flat_bar 103 18] "BTCUSDT" true); [exact Hreach | reflexivity].
Defined.

(** X6.  When the tunnel computation panics: exactly when the history has
    at least [longTunnel2Period] bars and one of the five periods is zero
    or negative.  [SetParameters] stores such periods without complaint. *)
Theorem CalculateTunnelData_panics_iff (v : VegasTunnelStrategy)
    (klines : list KlineData) :
  len klines < int_max ->
  (CalculateTunnelData v klines = Panic <->
   longTunnel2Period v <= len klines /\
   (shortEMAPeriod v <= 0 \/ midTunnel1Period v <= 0 \/
    midTunnel2Period v <= 0 \/ longTunnel1Period v <= 0 \/
    longTunnel2Period v <= 0)).
Proof.
  intros Hlen. split.
  - intros Hp.
    destruct (Z_lt_le_dec (len klines) (longTunnel2Period v)) as [Hlt|Hge].
    { unfold CalculateTunnelData in Hp.
      destruct (Z.ltb_spec (len klines) (longTunnel2Period v));
        [discriminate | lia]. }
    split; [exact Hge|].
    destruct (Z_le_gt_dec (shortEMAPeriod v) 0); [auto|].
    destruct (Z_le_gt_dec (midTunnel1Period v) 0); [auto|].
    destruct (Z_le_gt_dec (midTunnel2Period v) 0); [auto|].
    destruct (Z_le_gt_dec (longTunnel1Period v) 0); [auto|].
    destruct (Z_le_gt_dec (longTunnel2Period v) 0); [auto 6|].
    exfalso.
    destruct (CalculateTunnelData_total v klines) as [[_ Hn]|[_ Hc]];
      try lia; [congruence|].
    destruct (CalculateTunnelData_returns v klines Hc)
      as [Hn|(td & Htd & _)]; congruence.
  - intros [Hge Hbad]. unfold CalculateTunnelData.
    destruct (Z.ltb_spec (len klines) (longTunnel2Period v)); [lia|].
    pose proof (len_closes klines) as Hc. rewrite <- Hc in Hlen.
    destruct (Z_le_gt_dec (shortEMAPeriod v) 0) as [N1|P1].
    { rewrite (CalculateEMA_nonpositive _ _ N1). reflexivity. }
    destruct (CalculateEMA_total (Close <$> klines) (shortEMAPeriod v))
      as [[_ ->]|(_ & _ & r1 & -> & _)]; try lia;
    rewrite bind_Ok;
    (destruct (Z_le_gt_dec (midTunnel1Period v) 0) as [N2|P2];
     [rewrite (CalculateEMA_nonpositive _ _ N2); reflexivity|]);
    (destruct (CalculateEMA_total (Close <$> klines) (midTunnel1Period v))
      as [[_ ->]|(_ & _ & r2 & -> & _)]; try lia);
    rewrite bind_Ok;
    (destruct (Z_le_gt_dec (midTunnel2Period v) 0) as [N3|P3];
     [rewrite (CalculateEMA_nonpositive _ _ N3); reflexivity|]);
    (destruct (CalculateEMA_total (Close <$> klines) (midTunnel2Period v))
      as [[_ ->]|(_ & _ & r3 & -> & _)]; try lia);
    rewrite bind_Ok;
    (destruct (Z_le_gt_dec (longTunnel1Period v) 0) as [N4|P4];
     [rewrite (CalculateEMA_nonpositive _ _ N4); reflexivity|]);
    (destruct (CalculateEMA_total (Close <$> klines) (longTunnel1Period v))
      as [[_ ->]|(_ & _ & r4 & -> & _)]; try lia);
    rewrite bind_Ok;
    (destruct (Z_le_gt_dec (longTunnel2Period v) 0) as [N5|P5];
     [rewrite (CalculateEMA_nonpositive _ _ N5); reflexivity|]);
    exfalso; lia.
Qed.

Lemma CalculateTunnelData_panics_iff_witness :
  len [flat_bar 100 0; flat_bar 101 1] < int_max /\
  CalculateTunnelData (SetParameters NewVegasTunnelStrategy 0 1 2 2 2 0.02 0.04)
    [flat_bar 100 0; flat_bar 101 1] = Panic.
Proof.
  split; [reflexivity|].
  apply (CalculateTunnelData_panics_iff
           (SetParameters NewVegasTunnelStrategy 0 1 2 2 2 0.02 0.04)
           [flat_bar 100 0; flat_bar 101 1]); [reflexivity|].
  split; [vm_compute; discriminate | left; vm_compute; discriminate].
Defined.

End Panics.

(* ===================================================================== *)
(** * The tunnel series and streaming *)
(* ===================================================================== *)

Section TunnelSeries.

Lemma store_Ok_inv {A} (s s' : list A) (i : Z) (x : A) :
  store s i x = Ok s' -> 0 <= i /\ s' = <[Z.to_nat i := x]> s.
Proof.
  unfold store. destruct (Z.ltb_spec i 0) as [|Hi]; [discriminate|].
  destruct (Z.of_nat (length s) <=? i); [discriminate|].
  cbn. intros Hs. injection Hs as <-. split; [assumption | reflexivity].
Qed.

(** A loop whose body writes index [j] only leaves the entries before its
    first index as they were. *)
Lemma for_range_frame {A} (body : Z -> list A -> res (list A)) :
  (forall (j : Z) (l l2 : list A),
      body j l = Ok l2 ->
      forall k : nat, Z.of_nat k <> j -> l2 !! k = l !! k) ->
  forall (n : nat) (i : Z) (l l' : list A),
    for_range n i body l = Ok l' ->
    forall k : nat, Z.of_nat k < i -> l' !! k = l !! k.
Proof.
  intros Hbody. induction n as [|n IH]; intros i l l' Hrun k Hk.
  - cbn in Hrun. injection Hrun as <-. reflexivity.
  - cbn [for_range] in Hrun. destruct (body i l) as [l1|] eqn:Hb;
      [|discriminate].
    rewrite bind_Ok in Hrun.
    rewrite (IH _ _ _ Hrun k) by lia. apply (Hbody _ _ _ Hb). lia.
Qed.

Lemma tunnel_of_bounds (e12 e144 e169 e288 e338 : Decimal.t) :
  bounds_from_pairs (tunnel_of e12 e144 e169 e288 e338) /\
  Trend (tunnel_of e12 e144 e169 e288 e338)
  = determineTrendDirection (tunnel_of e12 e144 e169 e288 e338) /\
  Trend (tunnel_of e12 e144 e169 e288 e338) <> TrendNone.
Proof.
  unfold tunnel_of, bounds_from_pairs, determineTrendDirection.
  destruct (GreaterThan e144 e169) eqn:E1, (GreaterThan e288 e338) eqn:E2;
    cbn [MidTunnelUpper MidTunnelLower LongTunnelUpper LongTunnelLower
         EMA144 EMA169 EMA288 EMA338 Trend];
    rewrite ?E1, ?E2;
    (split; [split; reflexivity|]); (split; [reflexivity|]);
    repeat match goal with
           | |- context [if ?b then _ else _] => destruct b
           end; discriminate.
Qed.

Lemma CalculateTunnelData_prefix (v : VegasTunnelStrategy)
    (klines : list KlineData) (tunnelData : list TunnelData) :
  CalculateTunnelData v klines = Ok (Some tunnelData) ->
  forall j : nat,
    Z.of_nat j < longTunnel2Period v - 1 -> (j < length klines)%nat ->
    tunnelData !! j = Some zero_TunnelData.
Proof.
  unfold CalculateTunnelData. intros H j Hj Hjl.
  destruct (len klines <? longTunnel2Period v); [discriminate|].
  destruct (CalculateEMA _ (shortEMAPeriod v)) as [[r1|]|];
    try discriminate; rewrite bind_Ok in H;
  destruct (CalculateEMA _ (midTunnel1Period v)) as [[r2|]|];
    try discriminate; rewrite bind_Ok in H;
  destruct (CalculateEMA _ (midTunnel2Period v)) as [[r3|]|];
    try discriminate; rewrite bind_Ok in H;
  destruct (CalculateEMA _ (longTunnel1Period v)) as [[r4|]|];
    try discriminate; rewrite bind_Ok in H;
  destruct (CalculateEMA _ (longTunnel2Period v)) as [[r5|]|];
    try discriminate; rewrite bind_Ok in H.
  unfold for_loop in H.
  match type of H with
  | (for_range ?n ?i ?body ?l0 ≫= _) = _ =>
      destruct (for_range n i body l0) as [td|] eqn:Hrun; [|discriminate];
      assert (Hbody : forall (j : Z) (t1 t2 : list TunnelData),
                 body j t1 = Ok t2 ->
                 forall k : nat, Z.of_nat k <> j -> t2 !! k = t1 !! k)
  end.
  { clear. intros i l l2 Hb k Hk. cbn beta in Hb.
    destruct (index l i); [|discriminate]. rewrite bind_Ok in Hb.
    destruct (index r1 i); [|discriminate]. rewrite bind_Ok in Hb.
    destruct (index r2 i); [|discriminate]. rewrite bind_Ok in Hb.
    destruct (index r3 i); [|discriminate]. rewrite bind_Ok in Hb.
    destruct (index r4 i); [|discriminate]. rewrite bind_Ok in Hb.
    destruct (index r5 i); [|discriminate]. rewrite bind_Ok in Hb.
    apply store_Ok_inv in Hb as [Hi ->].
    apply list_lookup_insert_ne. lia. }
  rewrite bind_Ok in H. injection H as <-.
  rewrite (for_range_frame _ Hbody _ _ _ _ Hrun j Hj).
  apply lookup_replicate_2. exact Hjl.
Qed.

(** X7.  The tunnel series is all or nothing: nil exactly when the history
    is shorter than one of the five periods; otherwise one element per bar.
    The elements before index [longTunnel2Period-1] are left at the zero
    value (all averages and bounds 0, direction [TrendNone]); every later
    element has its bounds from the pairs of averages, lower never above
    upper, and a direction other than [TrendNone], the one
    [determineTrendDirection] gives. *)
Theorem CalculateTunnelData_series (v : VegasTunnelStrategy)
    (klines : list KlineData) :
  periods_configured v = true ->
  exists r,
    CalculateTunnelData v klines = Ok r /\
    (r = None <-> ~ sufficient v klines) /\
    forall tunnelData, r = Some tunnelData ->
      length tunnelData = length klines /\
      (forall j : nat,
          Z.of_nat j < longTunnel2Period v - 1 -> (j < length klines)%nat ->
          tunnelData !! j = Some zero_TunnelData) /\
      (forall (j : nat) (tunnel : TunnelData),
          longTunnel2Period v - 1 <= Z.of_nat j ->
          tunnelData !! j = Some tunnel ->
          bounds_from_pairs tunnel /\
          (toQ (MidTunnelLower tunnel) <= toQ (MidTunnelUpper tunnel))%Q /\
          (toQ (LongTunnelLower tunnel) <= toQ (LongTunnelUpper tunnel))%Q /\
          Trend tunnel = determineTrendDirection tunnel /\
          Trend tunnel <> TrendNone).
Proof.
  intros Hc.
  assert (Hdec : sufficient v klines \/ ~ sufficient v klines)
    by (unfold sufficient; lia).
  destruct Hdec as [Hs|Hns].
  - destruct (CalculateTunnelData_sufficient v klines Hc Hs)
      as (r1 & r2 & r3 & r4 & r5 & td & _ & _ & _ & _ & _ & Htd & Hl & Hget).
    exists (Some td). split; [exact Htd|]. split.
    { split; [discriminate | intros H; contradiction]. }
    intros td' Heq. injection Heq as <-. split; [exact Hl|]. split.
    + apply (CalculateTunnelData_prefix v klines td Htd).
    + intros j tunnel Hj Hlook.
      assert (Hjl : (j < length klines)%nat).
      { rewrite <- Hl. apply lookup_lt_is_Some. eauto. }
      rewrite Hget in Hlook by (unfold len; lia). injection Hlook as <-.
      destruct (tunnel_of_bounds (entry r1 j) (entry r2 j) (entry r3 j)
                  (entry r4 j) (entry r5 j)) as (Hb & Ht & Hn).
      destruct (bounds_ordered _ Hb) as [Hm Hlg]. auto 6.
  - exists None. split; [apply CalculateTunnelData_insufficient; assumption|].
    split; [split; auto | discriminate].
Qed.

Lemma CalculateTunnelData_series_witness :
  periods_configured pullback_onto_mid_tunnel = true /\
  exists r,
    CalculateTunnelData pullback_onto_mid_tunnel
      (kline15MData pullback_onto_mid_tunnel) = Ok r /\
    (r = None <->
     ~ sufficient pullback_onto_mid_tunnel
         (kline15MData pullback_onto_mid_tunnel)).
Proof.
  split; [reflexivity|].
  destruct (CalculateTunnelData_series pullback_onto_mid_tunnel
              (kline15MData pullback_onto_mid_tunnel) eq_refl)
    as (r & Hr & Hiff & _).
  exists r. split; [exact Hr | exact Hiff].
Defined.

End TunnelSeries.

Section Streaming.

Lemma ema_tail_app (alpha : Decimal.t) (xs ys : list Decimal.t) :
  forall prev,
    ema_tail alpha prev (xs ++ ys)
    = ema_tail alpha prev xs
      ++ ema_tail alpha (foldl (fun e x => ema_step alpha x e) prev xs) ys.
Proof.
  induction xs as [|x xs IH]; intros prev; [reflexivity|].
  cbn [app ema_tail foldl]. rewrite IH. reflexivity.
Qed.

Lemma ema_tail_last (alpha : Decimal.t) (xs : list Decimal.t) :
  forall (pre : list Decimal.t) (prev : Decimal.t),
    last (pre ++ prev :: ema_tail alpha prev xs)
    = Some (foldl (fun e x => ema_step alpha x e) prev xs).
Proof.
  induction xs as [|x xs IH]; intros pre prev.
  - cbn [ema_tail foldl]. apply last_snoc.
  - cbn [ema_tail foldl].
    replace (pre ++ prev :: ema_step alpha x prev
                            :: ema_tail alpha (ema_step alpha x prev) xs)
      with ((pre ++ [prev]) ++ ema_step alpha x prev
                            :: ema_tail alpha (ema_step alpha x prev) xs)
      by (rewrite <- app_assoc; reflexivity).
    apply IH.
Qed.

(** X8.  The averages extend with the history: on a series that already has
    [p] prices, appending bars keeps every entry computed so far and
    continues the recurrence from the last one. *)
Theorem CalculateEMA_extends (prices more : list Decimal.t) (p : Z) :
  1 <= p <= len prices -> p < int_max ->
  exists alpha result final,
    NewFromFloat (alpha_float p) = Ok alpha /\
    CalculateEMA prices p = Ok (Some result) /\
    last result = Some final /\
    CalculateEMA (prices ++ more) p
    = Ok (Some (result ++ ema_tail alpha final more)).
Proof.
  intros [Hp Hlen] Hmax.
  destruct (alpha_converts p) as [alpha Halpha].
  { unfold period_ok. apply andb_true_intro.
    split; [apply Z.leb_le | apply Z.ltb_lt]; assumption. }
  destruct (Div_ok (foldl Add Zero (take (Z.to_nat p) prices)) (NewFromInt p))
    as [seed Hseed]; [simpl; lia|].
  unfold len in Hlen.
  pose proof (CalculateEMA_unfold prices p alpha seed
                (conj Hp Hlen) Halpha Hseed) as Hrun.
  assert (Htake : take (Z.to_nat p) (prices ++ more) = take (Z.to_nat p) prices)
    by (apply take_app_le; lia).
  assert (Hdrop : drop (Z.to_nat p) (prices ++ more)
                  = drop (Z.to_nat p) prices ++ more)
    by (apply drop_app_le; lia).
  pose proof (CalculateEMA_unfold (prices ++ more) p alpha seed) as Hrun'.
  rewrite Htake, Hdrop in Hrun'.
  rewrite Hrun' by (first [assumption | unfold len; rewrite length_app; lia]).
  set (tail := ema_tail alpha seed (drop (Z.to_nat p) prices)) in *.
  exists alpha, (replicate (Z.to_nat p - 1) zero_value ++ seed :: tail),
    (foldl (fun e x => ema_step alpha x e) seed (drop (Z.to_nat p) prices)).
  split; [exact Halpha|]. split; [exact Hrun|]. split.
  - apply ema_tail_last.
  - rewrite ema_tail_app. fold tail.
    rewrite <- app_assoc. reflexivity.
Qed.

Lemma CalculateEMA_extends_witness :
  (1 <= 3 <= len [NewFromInt 10; NewFromInt 20; NewFromInt 60] /\
   3 < int_max) /\
  exists alpha result final,
    NewFromFloat (alpha_float 3) = Ok alpha /\
    CalculateEMA [NewFromInt 10; NewFromInt 20; NewFromInt 60] 3
    = Ok (Some result) /\
    last result = Some final /\
    CalculateEMA ([NewFromInt 10; NewFromInt 20; NewFromInt 60]
                  ++ [NewFromInt 30; NewFromInt 50]) 3
    = Ok (Some (result ++ ema_tail alpha final [NewFromInt 30; NewFromInt 50])).
Proof.
  split; [split; [split; vm_compute; discriminate | reflexivity]|].
  apply (CalculateEMA_extends [NewFromInt 10; NewFromInt 20; NewFromInt 60]
           [NewFromInt 30; NewFromInt 50] 3).
  - split; vm_compute; discriminate.
  - reflexivity.
Defined.

End Streaming.

(* ===================================================================== *)
(** * Anatomy and order of a signal *)
(* ===================================================================== *)

Section SignalAnatomy.

Lemma last_of_Ok_inv {A} (s : list A) (x : A) :
  last_of s = Ok x -> last s = Some x.
Proof.
  unfold last_of. intros H. apply index_Ok_inv in H as [Hpos Hx].
  rewrite last_lookup. rewrite <- Hx. f_equal. unfold len in *. lia.
Qed.

Lemma levels_fields (v : VegasTunnelStrategy) (signal signal' : TradingSignal)
    (tunnel : TunnelData) (isLong : bool) :
  calculateStopLossAndTakeProfit v signal tunnel isLong = Ok signal' ->
  SignalSymbol signal' = SignalSymbol signal /\
  Type_ signal' = Type_ signal /\ Price signal' = Price signal /\
  Confidence signal' = Confidence signal /\ Reason signal' = Reason signal /\
  SignalTimestamp signal' = SignalTimestamp signal /\
  Timeframe signal' = Timeframe signal.
Proof.
  unfold calculateStopLossAndTakeProfit. intros H.
  destruct isLong.
  - destruct (NewFromFloat 0.998); [|discriminate]. rewrite bind_Ok in H.
    destruct (NewFromFloat (riskRewardRatio v)); [|discriminate].
    rewrite bind_Ok in H. injection H as <-. repeat split.
  - destruct (NewFromFloat 1.002); [|discriminate]. rewrite bind_Ok in H.
    destruct (NewFromFloat (riskRewardRatio v)); [|discriminate].
    rewrite bind_Ok in H. injection H as <-. repeat split.
Qed.

Lemma checkLongSignal_fields (v : VegasTunnelStrategy)
    (t4 t15 : TunnelData) (kline : KlineData) (symbol : string)
    (signal : TradingSignal) :
  checkLongSignal v t4 t15 kline symbol = Ok (Some signal) ->
  SignalSymbol signal = symbol /\ Type_ signal = SignalBuy /\
  Price signal = Close kline /\ SignalTimestamp signal = Timestamp kline /\
  Timeframe signal = "15M" /\
  Reason signal = "4H多头排列，15M回调至隧道获支撑后站上EMA12".
Proof.
  unfold checkLongSignal. intros H.
  destruct (negb _); [discriminate|].
  destruct (LessThanOrEqual _ _); [discriminate|].
  destruct (isPriceNearTunnel _ _ _) as [near|]; [|discriminate].
  rewrite bind_Ok in H. destruct (negb near); [discriminate|].
  destruct (LessThanOrEqual _ _); [discriminate|].
  match type of H with
  | (?m ≫= _) = _ => destruct m as [s|] eqn:Hs; [|discriminate]
  end.
  rewrite bind_Ok in H. injection H as <-.
  apply levels_fields in Hs as (H1 & H2 & H3 & _ & H5 & H6 & H7).
  cbn in *. auto 7.
Qed.

Lemma checkShortSignal_fields (v : VegasTunnelStrategy)
    (t4 t15 : TunnelData) (kline : KlineData) (symbol : string)
    (signal : TradingSignal) :
  checkShortSignal v t4 t15 kline symbol = Ok (Some signal) ->
  SignalSymbol signal = symbol /\ Type_ signal = SignalSell /\
  Price signal = Close kline /\ SignalTimestamp signal = Timestamp kline /\
  Timeframe signal = "15M" /\
  Reason signal = "4H空头排列，15M反弹至隧道受压制后跌破EMA12".
Proof.
  unfold checkShortSignal. intros H.
  destruct (negb _); [discriminate|].
  destruct (GreaterThanOrEqual _ _); [discriminate|].
  destruct (isPriceNearTunnel _ _ _) as [near|]; [|discriminate].
  rewrite bind_Ok in H. destruct (negb near); [discriminate|].
  destruct (GreaterThanOrEqual _ _); [discriminate|].
  match type of H with
  | (?m ≫= _) = _ => destruct m as [s|] eqn:Hs; [|discriminate]
  end.
  rewrite bind_Ok in H. injection H as <-.
  apply levels_fields in Hs as (H1 & H2 & H3 & _ & H5 & H6 & H7).
  cbn in *. auto 7.
Qed.

(** X9.  [GenerateSignal] computes from the stored series, not from the bars
    it is given: of its argument only the symbol of the first bar is read.
    Two calls whose first bars carry the same symbol return the same, and a
    signal carries that symbol with the close and the time of the latest
    stored 15-minute bar, under the timeframe name ["15M"]. *)
Theorem GenerateSignal_reads_store (v : VegasTunnelStrategy)
    (first : KlineData) (rest : list KlineData) :
  (forall (first' : KlineData) (rest' : list KlineData),
      Symbol first' = Symbol first ->
      GenerateSignal v (first' :: rest') = GenerateSignal v (first :: rest)) /\
  (forall signal : TradingSignal,
      snd (GenerateSignal v (first :: rest)) = Ok (Some signal) ->
      SignalSymbol signal = Symbol first /\
      Timeframe signal = "15M" /\
      (Type_ signal = SignalBuy \/ Type_ signal = SignalSell) /\
      exists kline : KlineData,
        last (kline15MData v) = Some kline /\
        Price signal = Close kline /\
        SignalTimestamp signal = Timestamp kline).
Proof.
  split.
  - intros first' rest' Hsym. unfold GenerateSignal.
    rewrite !GenerateSignal_feed, Hsym. reflexivity.
  - intros signal. unfold GenerateSignal. rewrite GenerateSignal_feed.
    cbn [snd]. intros H.
    destruct (len (kline15MData v) <? longTunnel2Period v); [discriminate|].
    destruct (len (kline4HData v) <? longTunnel2Period v); [discriminate|].
    destruct (CalculateTunnelData v (kline4HData v)) as [[td4|]|];
      try discriminate. rewrite bind_Ok in H.
    destruct (last_of td4) as [t4|]; [|discriminate]. rewrite bind_Ok in H.
    destruct (CalculateTunnelData v (kline15MData v)) as [[td15|]|];
      try discriminate. rewrite bind_Ok in H.
    destruct (last_of td15) as [t15|]; [|discriminate]. rewrite bind_Ok in H.
    destruct (last_of (kline15MData v)) as [k|] eqn:Hk; [|discriminate].
    rewrite bind_Ok in H. apply last_of_Ok_inv in Hk.
    destruct (checkLongSignal v t4 t15 k (Symbol first)) as [[s|]|] eqn:Hl;
      try discriminate; rewrite bind_Ok in H.
    + injection H as <-.
      apply checkLongSignal_fields in Hl as (H1 & H2 & H3 & H4 & H5 & _).
      repeat (split; [assumption || (left; assumption)|]). exists k. auto.
    + apply checkShortSignal_fields in H as (H1 & H2 & H3 & H4 & H5 & _).
      repeat (split; [assumption || (right; assumption)|]). exists k. auto.
Qed.

End SignalAnatomy.

Section Orders.

(** X10.  When the levels of a signal are on the right sides of the trigger:
    with the reward ratio 2, an emitted Buy has stop-loss < trigger <
    take-profit exactly when the latest close is above the stop level, the
    lower of the two support bounds times 0.998; an emitted Sell has
    take-profit < trigger < stop-loss exactly when the latest close is below
    the higher of the two resistance bounds times 1.002.  The entry
    conditions do not imply either. *)
Theorem GenerateSignal_level_order (v : VegasTunnelStrategy)
    (klines : list KlineData) (signal : TradingSignal) :
  configured v = true -> riskRewardRatio v = 2%float ->
  snd (GenerateSignal v klines) = Ok (Some signal) ->
  exists tunnel4H tunnel15M kline,
    evaluation_data v tunnel4H tunnel15M kline /\
    (Type_ signal = SignalBuy ->
     ((toQ (StopLoss signal) < toQ (Price signal) /\
       toQ (Price signal) < toQ (TakeProfit signal))%Q <->
      (Qmin (toQ (MidTunnelLower tunnel15M)) (toQ (LongTunnelUpper tunnel15M))
       * (998 # 1000) < toQ (Close kline))%Q)) /\
    (Type_ signal = SignalSell ->
     ((toQ (TakeProfit signal) < toQ (Price signal) /\
       toQ (Price signal) < toQ (StopLoss signal))%Q <->
      (toQ (Close kline)
       < Qmax (toQ (MidTunnelUpper tunnel15M)) (toQ (LongTunnelLower tunnel15M))
         * (1002 # 1000))%Q)).
Proof.
  intros Hc H2 Hs.
  destruct (GenerateSignal_emitted v klines signal Hc Hs)
    as (t4 & t15 & k & symbol & ratio & Hd & Hratio & Hkind).
  rewrite H2, NewFromFloat_default_ratio in Hratio. injection Hratio as <-.
  exists t4, t15, k. split; [exact Hd|].
  assert (H998 : (toQ (New 998 (-3)) == 998 # 1000)%Q) by reflexivity.
  assert (H1002 : (toQ (New 1002 (-3)) == 1002 # 1000)%Q) by reflexivity.
  assert (H2q : (toQ (New 2 0) == 2)%Q) by reflexivity.
  destruct Hkind as [[_ ->]|[_ ->]]; (split; [|]); try discriminate; intros _.
  - cbn [buy_signal Price StopLoss TakeProfit].
    rewrite toQ_Add, !toQ_Mul, toQ_Sub, toQ_Mul, toQ_long_stop_level.
    rewrite H998, H2q.
    set (level := Qmin (toQ (MidTunnelLower t15)) (toQ (LongTunnelUpper t15))).
    split; [intros [H _]; exact H | intros H; split; lra].
  - cbn [sell_signal Price StopLoss TakeProfit].
    rewrite toQ_Sub, !toQ_Mul, toQ_Sub, toQ_Mul, toQ_short_stop_level.
    rewrite H1002, H2q.
    set (level := Qmax (toQ (MidTunnelUpper t15)) (toQ (LongTunnelLower t15))).
    split; [intros [_ H]; exact H | intros H; split; lra].
Qed.

Lemma GenerateSignal_level_order_witness :
  (configured pullback_onto_mid_tunnel = true /\
   riskRewardRatio pullback_onto_mid_tunnel = 2%float /\
   snd (GenerateSignal pullback_onto_mid_tunnel [flat_bar 108 18])
   = Ok (Some mid_tunnel_buy)) /\
  exists tunnel4H tunnel15M kline,
    evaluation_data pullback_onto_mid_tunnel tunnel4H tunnel15M kline /\
    (Type_ mid_tunnel_buy = SignalBuy ->
     ((toQ (StopLoss mid_tunnel_buy) < toQ (Price mid_tunnel_buy) /\
       toQ (Price mid_tunnel_buy) < toQ (TakeProfit mid_tunnel_buy))%Q <->
      (Qmin (toQ (MidTunnelLower tunnel15M)) (toQ (LongTunnelUpper tunnel15M))
       * (998 # 1000) < toQ (Close kline))%Q)) /\
    (Type_ mid_tunnel_buy = SignalSell ->
     ((toQ (TakeProfit mid_tunnel_buy) < toQ (Price mid_tunnel_buy) /\
       toQ (Price mid_tunnel_buy) < toQ (StopLoss mid_tunnel_buy))%Q <->
      (toQ (Close kline)
       < Qmax (toQ (MidTunnelUpper tunnel15M)) (toQ (LongTunnelLower tunnel15M))
         * (1002 # 1000))%Q)).
Proof.
  split; [repeat split; vm_compute; reflexivity|].
  apply (GenerateSignal_level_order pullback_onto_mid_tunnel
           [flat_bar 108 18] mid_tunnel_buy); vm_compute; reflexivity.
Defined.

(** X11.  Entry and exit do not fire together: in a state where
    [GenerateSignal] emits a Buy, [CheckEMA12Exit] for a long position
    returns no signal, and where it emits a Sell, the check for a short
    position returns none. *)
Theorem entry_excludes_exit (v : VegasTunnelStrategy)
    (klines : list KlineData) (symbol : string) (signal : TradingSignal) :
  configured v = true ->
  snd (GenerateSignal v klines) = Ok (Some signal) ->
  (Type_ signal = SignalBuy -> CheckEMA12Exit v symbol true = Ok None) /\
  (Type_ signal = SignalSell -> CheckEMA12Exit v symbol false = Ok None).
Proof.
  intros Hc Hs.
  destruct (GenerateSignal_emitted v klines signal Hc Hs)
    as (t4 & t15 & k & sym & ratio & (_ & Ht15 & Hk) & _ & Hkind).
  apply configured_inv in Hc as [Hp _].
  assert (Hexit : forall isLong : bool,
             (if isLong then LessThan (Close k) (EMA12 t15)
              else GreaterThan (Close k) (EMA12 t15)) = false ->
             CheckEMA12Exit v symbol isLong = Ok None).
  { intros isLong Hno.
    destruct (Z_lt_le_dec (len (kline15MData v)) 2) as [Hlt|Hge].
    - unfold CheckEMA12Exit.
      destruct (Z.ltb_spec (len (kline15MData v)) 2); [reflexivity | lia].
    - rewrite (CheckEMA12Exit_current v symbol isLong t15 k Hp Hge Ht15 Hk).
      rewrite Hno. reflexivity. }
  destruct Hkind as [[(_ & _ & _ & Hl) ->]|[(_ & _ & _ & Hsh) ->]];
    split; try discriminate; intros _; apply Hexit.
  - destruct (LessThan (Close k) (EMA12 t15)) eqn:E; [|reflexivity].
    apply LessThan_spec in E. lra.
  - destruct (GreaterThan (Close k) (EMA12 t15)) eqn:E; [|reflexivity].
    apply GreaterThan_spec in E. lra.
Qed.

Lemma entry_excludes_exit_witness :
  (configured pullback_onto_mid_tunnel = true /\
   snd (GenerateSignal pullback_onto_mid_tunnel [flat_bar 108 18])
   = Ok (Some mid_tunnel_buy)) /\
  (Type_ mid_tunnel_buy = SignalBuy ->
   CheckEMA12Exit pullback_onto_mid_tunnel "BTCUSDT" true = Ok None).
Proof.
  split; [split; vm_compute; reflexivity|].
  apply (entry_excludes_exit pullback_onto_mid_tunnel [flat_bar 108 18]
           "BTCUSDT" mid_tunnel_buy); vm_compute; reflexivity.
Defined.

End Orders.

(* ===================================================================== *)
(** * Flat markets *)
(* ===================================================================== *)

Section FlatSeries.

Lemma Add_same_exp (a : Z) (c : Decimal.t) :
  Add (mk a (exp c)) c = mk (a + value c) (exp c).
Proof.
  unfold Add, RescalePair. cbn [exp value].
  rewrite Z.ltb_irrefl. reflexivity.
Qed.

Lemma foldl_Add_same (c : Decimal.t) (n : nat) :
  forall a : Z,
    foldl Add (mk a (exp c)) (replicate n c)
    = mk (a + Z.of_nat n * value c) (exp c).
Proof.
  induction n as [|n IH]; intros a.
  - cbn. f_equal. lia.
  - cbn [replicate foldl]. rewrite Add_same_exp, IH. f_equal. lia.
Qed.

Lemma Add_Zero (c : Decimal.t) :
  exp c <= 0 -> Add Zero c = mk (value c) (exp c).
Proof.
  intros He. unfold Add, RescalePair, Zero, New, rescale. cbn [exp value].
  destruct (Z.ltb_spec 1 (exp c)); [lia|].
  destruct (Z.ltb_spec (exp c) 1); [|lia].
  destruct (Z.eqb_spec 1 (exp c)); [lia|].
  destruct (Z.ltb_spec 1 (exp c)); [lia|]. reflexivity.
Qed.

Lemma foldl_Add_flat (c : Decimal.t) (n : nat) :
  exp c <= 0 -> (0 < n)%nat ->
  foldl Add Zero (replicate n c) = mk (Z.of_nat n * value c) (exp c).
Proof.
  intros He Hn. destruct n as [|n]; [lia|].
  cbn [replicate foldl]. rewrite (Add_Zero c He), foldl_Add_same.
  f_equal. lia.
Qed.

(** The seed of a flat series is its price: the division is exact when the
    price has at most 16 decimal places. *)
Lemma Div_flat (c : Decimal.t) (p : Z) :
  1 <= p -> -16 <= exp c <= 0 ->
  exists seed, Div (mk (p * value c) (exp c)) (NewFromInt p) = Ok seed /\
               (toQ seed == toQ c)%Q.
Proof.
  intros Hp He.
  destruct (Div_ok (mk (p * value c) (exp c)) (NewFromInt p)) as [q Hq];
    [simpl; lia|].
  exists q. split; [exact Hq|].
  assert (Hnz : value (NewFromInt p) <> 0) by (simpl; lia).
  pose proof (Div_shape _ _ _ Hnz Hq) as Hs.
  cbn [exp value NewFromInt] in Hs. cbn zeta in Hs.
  unfold DivisionPrecision in Hs.
  destruct (Z.ltb_spec (exp c - 0 + 16) 0) as [|_]; [lia|].
  destruct Hs as [Hexp Hval].
  set (X := value c * 10 ^ (exp c - 0 + 16)) in *.
  assert (Hx : value q = X).
  { replace (value q * p - p * value c * 10 ^ (exp c - 0 + 16))
      with (p * (value q - X)) in Hval by (unfold X; ring).
    rewrite Z.abs_mul in Hval. nia. }
  destruct q as [vq eq]. cbn [exp value] in *. subst vq eq.
  destruct c as [vc ec]. cbn [exp value] in *. unfold X.
  rewrite <- (toQ_scale vc ec (ec - 0 + 16)) by lia.
  replace (ec - (ec - 0 + 16)) with (- (16)) by lia. reflexivity.
Qed.

Lemma ema_step_flat (alpha c prev : Decimal.t) :
  (toQ prev == toQ c)%Q -> (toQ (ema_step alpha c prev) == toQ c)%Q.
Proof. intros H. rewrite toQ_ema_step, H. ring. Qed.

Lemma ema_tail_flat (alpha c : Decimal.t) (n : nat) :
  forall prev : Decimal.t,
    (toQ prev == toQ c)%Q ->
    Forall (fun e => (toQ e == toQ c)%Q) (ema_tail alpha prev (replicate n c)).
Proof.
  induction n as [|n IH]; intros prev Hprev; [constructor|].
  cbn [replicate ema_tail]. constructor.
  - apply ema_step_flat. exact Hprev.
  - apply IH. apply ema_step_flat. exact Hprev.
Qed.

Lemma length_ema_tail (alpha : Decimal.t) (ps : list Decimal.t) :
  forall prev, length (ema_tail alpha prev ps) = length ps.
Proof.
  induction ps as [|x ps IH]; intros prev; [reflexivity|].
  cbn [ema_tail length]. rewrite IH. reflexivity.
Qed.

(** The run of [CalculateEMA] on a flat series. *)
Lemma CalculateEMA_flat_run (c : Decimal.t) (n : nat) (p : Z) :
  1 <= p <= Z.of_nat n -> p < int_max -> -16 <= exp c <= 0 ->
  exists alpha seed,
    (toQ seed == toQ c)%Q /\
    CalculateEMA (replicate n c) p
    = Ok (Some (replicate (Z.to_nat p - 1) zero_value
                ++ seed :: ema_tail alpha seed (replicate (n - Z.to_nat p) c))).
Proof.
  intros [Hp Hn] Hmax He.
  destruct (alpha_converts p) as [alpha Halpha].
  { unfold period_ok. apply andb_true_intro.
    split; [apply Z.leb_le | apply Z.ltb_lt]; assumption. }
  assert (Htake : take (Z.to_nat p) (replicate n c) = replicate (Z.to_nat p) c).
  { rewrite take_replicate. f_equal. lia. }
  assert (Hsum : foldl Add Zero (take (Z.to_nat p) (replicate n c))
                 = mk (p * value c) (exp c)).
  { rewrite Htake, foldl_Add_flat by lia. f_equal. lia. }
  destruct (Div_flat c p Hp He) as (seed & Hseed & Hq).
  pose proof (CalculateEMA_unfold (replicate n c) p alpha seed) as Hrun.
  rewrite Hsum in Hrun.
  assert (Hrange : 1 <= p <= len (replicate n c))
    by (unfold len; rewrite length_replicate; lia).
  specialize (Hrun Hrange Halpha Hseed).
  rewrite drop_replicate in Hrun.
  exists alpha, seed. split; [exact Hq | exact Hrun].
Qed.

Lemma flat_entries (alpha c seed : Decimal.t) (m k : nat) :
  (toQ seed == toQ c)%Q ->
  forall (i : nat) (e : Decimal.t),
    (m <= i)%nat ->
    (replicate m zero_value ++ seed :: ema_tail alpha seed (replicate k c)) !! i
    = Some e ->
    (toQ e == toQ c)%Q.
Proof.
  intros Hq i e Hi Hlook.
  rewrite lookup_app_r in Hlook by (rewrite length_replicate; lia).
  rewrite length_replicate in Hlook.
  destruct (i - m)%nat as [|j] eqn:Hj.
  - cbn in Hlook. injection Hlook as <-. exact Hq.
  - cbn [lookup list_lookup] in Hlook.
    pose proof (ema_tail_flat alpha c k seed Hq) as Hall.
    rewrite Forall_lookup in Hall. exact (Hall j e Hlook).
Qed.

(** X12.  On a flat series the average is flat: when every price is the same
    decimal [c] of at most 16 decimal places, every entry from index [p-1]
    on stands for the number [c]; neither the rounded seed nor the float
    factor moves it. *)
Theorem CalculateEMA_flat (c : Decimal.t) (n : nat) (p : Z) :
  1 <= p <= Z.of_nat n -> p < int_max -> -16 <= exp c <= 0 ->
  exists result,
    CalculateEMA (replicate n c) p = Ok (Some result) /\
    length result = n /\
    forall (i : nat) (e : Decimal.t),
      p - 1 <= Z.of_nat i -> result !! i = Some e -> (toQ e == toQ c)%Q.
Proof.
  intros Hp Hmax He.
  destruct (CalculateEMA_flat_run c n p Hp Hmax He) as (alpha & seed & Hq & Hrun).
  eexists. split; [exact Hrun|]. split.
  - rewrite length_app, length_replicate. cbn [length].
    rewrite length_ema_tail, length_replicate. lia.
  - intros i e Hi. apply flat_entries; [exact Hq | lia].
Qed.

Lemma CalculateEMA_flat_witness :
  (1 <= 3 <= Z.of_nat 5 /\ 3 < int_max /\ -16 <= exp (New 2995 (-2)) <= 0) /\
  exists result,
    CalculateEMA (replicate 5 (New 2995 (-2))) 3 = Ok (Some result) /\
    length result = 5%nat /\
    forall (i : nat) (e : Decimal.t),
      3 - 1 <= Z.of_nat i -> result !! i = Some e ->
      (toQ e == toQ (New 2995 (-2)))%Q.
Proof.
  split.
  { repeat split; try reflexivity; vm_compute; discriminate. }
  apply (CalculateEMA_flat (New 2995 (-2)) 5 3).
  - split; vm_compute; discriminate.
  - reflexivity.
  - split; vm_compute; discriminate.
Defined.

End FlatSeries.

Section FlatMarket.

Lemma closes_flat (klines : list KlineData) (c : Decimal.t) :
  Forall (fun k => Close k = c) klines ->
  Close <$> klines = replicate (length klines) c.
Proof.
  induction 1 as [|k klines Hk _ IH]; [reflexivity|].
  cbn [fmap list_fmap length replicate]. rewrite Hk. f_equal. exact IH.
Qed.

(** The current tunnel, from the five averages at the latest index. *)
Lemma current_tunnel_of (v : VegasTunnelStrategy) (klines : list KlineData)
    (tunnel : TunnelData) :
  periods_configured v = true ->
  current_tunnel v klines = Some tunnel ->
  exists ema12 ema144 ema169 ema288 ema338,
    sufficient v klines /\ (0 < length klines)%nat /\
    CalculateEMA (Close <$> klines) (shortEMAPeriod v) = Ok (Some ema12) /\
    CalculateEMA (Close <$> klines) (midTunnel1Period v) = Ok (Some ema144) /\
    CalculateEMA (Close <$> klines) (midTunnel2Period v) = Ok (Some ema169) /\
    CalculateEMA (Close <$> klines) (longTunnel1Period v) = Ok (Some ema288) /\
    CalculateEMA (Close <$> klines) (longTunnel2Period v) = Ok (Some ema338) /\
    tunnel = tunnel_of (entry ema12 (pred (length klines)))
               (entry ema144 (pred (length klines)))
               (entry ema169 (pred (length klines)))
               (entry ema288 (pred (length klines)))
               (entry ema338 (pred (length klines))).
Proof.
  intros Hc Hcur. unfold current_tunnel in Hcur.
  destruct (CalculateTunnelData_returns v klines Hc)
    as [Hn|(td & Htd & Hl & Hs)]; [rewrite Hn in Hcur; discriminate|].
  destruct (CalculateTunnelData_sufficient v klines Hc Hs)
    as (r1 & r2 & r3 & r4 & r5 & td' & E1 & E2 & E3 & E4 & E5 & Htd' & _ & Hget).
  rewrite Htd in Htd'. injection Htd' as <-. rewrite Htd in Hcur.
  pose proof (periods_configured_inv v Hc) as (_ & _ & _ & _ & H5).
  pose proof (period_ok_pos _ H5) as P5.
  pose proof Hs as (_ & _ & _ & _ & S5). unfold len in S5.
  assert (Hpos : (0 < length klines)%nat) by lia.
  exists r1, r2, r3, r4, r5. repeat (split; [assumption|]).
  rewrite last_lookup, Hl, Hget in Hcur by (unfold len; lia).
  injection Hcur as <-. reflexivity.
Qed.

Lemma entry_flat (klines : list KlineData) (c : Decimal.t) (p : Z)
    (ema : list Decimal.t) :
  Forall (fun k => Close k = c) klines -> -16 <= exp c <= 0 ->
  period_ok p = true -> p <= len klines ->
  CalculateEMA (Close <$> klines) p = Ok (Some ema) ->
  (toQ (entry ema (pred (length klines))) == toQ c)%Q.
Proof.
  intros Hflat He Hok Hlen Hema. rewrite (closes_flat _ _ Hflat) in Hema.
  pose proof (period_ok_pos _ Hok) as Hp.
  assert (Hmax : p < int_max).
  { unfold period_ok in Hok. apply andb_prop in Hok as [_ Hm].
    apply Z.ltb_lt. exact Hm. }
  unfold len in Hlen.
  destruct (CalculateEMA_flat_run c (length klines) p) as (alpha & seed & Hq & Hrun);
    [lia | exact Hmax | exact He |].
  rewrite Hrun in Hema. injection Hema as <-. unfold entry.
  match goal with
  | |- (toQ (default _ (?l !! ?i)) == _)%Q =>
      destruct (l !! i) as [e|] eqn:Hlook
  end.
  - cbn [default]. eapply (flat_entries alpha c seed); [exact Hq | | exact Hlook].
    lia.
  - exfalso. apply lookup_ge_None in Hlook.
    rewrite length_app, length_replicate in Hlook. cbn [length] in Hlook.
    rewrite length_ema_tail, length_replicate in Hlook. lia.
Qed.

Lemma tunnel_of_flat (e12 e144 e169 e288 e338 : Decimal.t) (q : Q) :
  (toQ e144 == q)%Q -> (toQ e169 == q)%Q ->
  (toQ e288 == q)%Q -> (toQ e338 == q)%Q ->
  Trend (tunnel_of e12 e144 e169 e288 e338) = TrendSideways.
Proof.
  intros H1 H2 H3 H4. unfold tunnel_of, determineTrendDirection.
  destruct (GreaterThan e144 e169), (GreaterThan e288 e338);
    cbn [MidTunnelUpper MidTunnelLower LongTunnelUpper LongTunnelLower Trend];
    repeat match goal with
           | |- context [GreaterThan ?a ?b] =>
               let E := fresh "E" in
               destruct (GreaterThan a b) eqn:E;
               [apply GreaterThan_spec in E; lra|]
           | |- context [LessThan ?a ?b] =>
               let E := fresh "E" in
               destruct (LessThan a b) eqn:E;
               [apply LessThan_spec in E; lra|]
           end; reflexivity.
Qed.

(** X13.  A flat market gives no entry: when every stored 4-hour close is the
    same price (of at most 16 decimal places), the 4-hour trend is sideways
    and [GenerateSignal] returns no signal, whatever the 15-minute series
    holds. *)
Theorem flat_trend_gives_no_entry (v : VegasTunnelStrategy)
    (klines : list KlineData) (c : Decimal.t) :
  configured v = true ->
  Forall (fun k => Close k = c) (kline4HData v) -> -16 <= exp c <= 0 ->
  snd (GenerateSignal v klines) = Ok None /\
  forall tunnel4H, current_tunnel v (kline4HData v) = Some tunnel4H ->
                   Trend tunnel4H = TrendSideways.
Proof.
  intros Hc Hflat He.
  pose proof (configured_inv v Hc) as [Hp _].
  assert (Hside : forall t4, current_tunnel v (kline4HData v) = Some t4 ->
                             Trend t4 = TrendSideways).
  { intros t4 Ht4.
    destruct (current_tunnel_of v _ t4 Hp Ht4)
      as (r1 & r2 & r3 & r4 & r5 & (S1 & S2 & S3 & S4 & S5) & _
          & E1 & E2 & E3 & E4 & E5 & ->).
    pose proof (periods_configured_inv v Hp) as (K1 & K2 & K3 & K4 & K5).
    apply (tunnel_of_flat _ _ _ _ _ (toQ c)).
    - exact (entry_flat _ c _ r2 Hflat He K2 S2 E2).
    - exact (entry_flat _ c _ r3 Hflat He K3 S3 E3).
    - exact (entry_flat _ c _ r4 Hflat He K4 S4 E4).
    - exact (entry_flat _ c _ r5 Hflat He K5 S5 E5). }
  split; [|exact Hside].
  destruct (GenerateSignal_cases v klines Hc) as (ratio & _ & Hcases).
  destruct Hcases as [[Hr _]|[Hb|Hs]]; [exact Hr| |].
  - destruct Hb as (f & r & t4 & t15 & k & _ & (Ht4 & _) & (Hbull & _) & _).
    rewrite (Hside t4 Ht4) in Hbull. discriminate.
  - destruct Hs as (f & r & t4 & t15 & k & _ & (Ht4 & _) & _ & (Hbear & _) & _).
    rewrite (Hside t4 Ht4) in Hbear. discriminate.
Qed.

Lemma flat_trend_gives_no_entry_witness :
  (configured (feed "4h" short_periods (replicate 20 100)) = true /\
   Forall (fun k => Close k = NewFromInt 100)
     (kline4HData (feed "4h" short_periods (replicate 20 100))) /\
   -16 <= exp (NewFromInt 100) <= 0) /\
  snd (GenerateSignal (feed "4h" short_periods (replicate 20 100))
         [flat_bar 100 20]) = Ok None.
Proof.
  split.
  { split; [reflexivity|]. split.
    - vm_compute. repeat constructor.
    - split; vm_compute; discriminate. }
  apply (flat_trend_gives_no_entry (feed "4h" short_periods (replicate 20 100))
           [flat_bar 100 20] (NewFromInt 100)).
  - reflexivity.
  - vm_compute. repeat constructor.
  - split; vm_compute; discriminate.
Defined.

(** X14.  A flat market gives no exit: when every stored 15-minute close is
    the same price (of at most 16 decimal places), [CheckEMA12Exit] returns
    no signal for a long and for a short position. *)
Theorem flat_series_gives_no_exit (v : VegasTunnelStrategy)
    (symbol : string) (isLong : bool) (c : Decimal.t) :
  periods_configured v = true ->
  Forall (fun k => Close k = c) (kline15MData v) -> -16 <= exp c <= 0 ->
  CheckEMA12Exit v symbol isLong = Ok None.
Proof.
  intros Hp Hflat He.
  destruct (Z_lt_le_dec (len (kline15MData v)) 2) as [Hlt|Hge].
  { unfold CheckEMA12Exit.
    destruct (Z.ltb_spec (len (kline15MData v)) 2); [reflexivity | lia]. }
  destruct (current_tunnel_cases v (kline15MData v) Hp)
    as [[Hn _]|(td & t & Htd & Hl & Hcur & Hpos)].
  { apply CheckEMA12Exit_no_tunnel. exact Hn. }
  destruct (nonempty_last (kline15MData v) Hpos) as [k Hk].
  rewrite (CheckEMA12Exit_current v symbol isLong t k Hp Hge Hcur Hk).
  destruct (current_tunnel_of v _ t Hp Hcur)
    as (r1 & r2 & r3 & r4 & r5 & (S1 & _) & _ & E1 & _ & _ & _ & _ & ->).
  pose proof (periods_configured_inv v Hp) as (K1 & _).
  pose proof (entry_flat _ c _ r1 Hflat He K1 S1 E1) as Hema.
  rewrite EMA12_tunnel_of.
  assert (Hclose : Close k = c).
  { rewrite Forall_lookup in Hflat. rewrite last_lookup in Hk.
    exact (Hflat _ _ Hk). }
  rewrite Hclose.
  destruct isLong.
  - destruct (LessThan c _) eqn:E; [|reflexivity].
    apply LessThan_spec in E. lra.
  - destruct (GreaterThan c _) eqn:E; [|reflexivity].
    apply GreaterThan_spec in E. lra.
Qed.

Lemma flat_series_gives_no_exit_witness :
  (periods_configured (feed "15m" short_periods (replicate 20 100)) = true /\
   Forall (fun k => Close k = NewFromInt 100)
     (kline15MData (feed "15m" short_periods (replicate 20 100))) /\
   -16 <= exp (NewFromInt 100) <= 0) /\
  CheckEMA12Exit (feed "15m" short_periods (replicate 20 100)) "BTCUSDT" true
  = Ok None.
Proof.
  split.
  { split; [reflexivity|]. split.
    - vm_compute. repeat constructor.
    - split; vm_compute; discriminate. }
  apply (flat_series_gives_no_exit (feed "15m" short_periods (replicate 20 100))
           "BTCUSDT" true (NewFromInt 100)).
  - reflexivity.
  - vm_compute. repeat constructor.
  - split; vm_compute; discriminate.
Defined.

End FlatMarket.

(* ===================================================================== *)
(** * Compositions *)
(* ===================================================================== *)

Section Composition.

Lemma current_trend (v : VegasTunnelStrategy) (klines : list KlineData)
    (tunnel : TunnelData) :
  periods_configured v = true ->
  current_tunnel v klines = Some tunnel ->
  Trend tunnel = determineTrendDirection tunnel.
Proof.
  intros Hp Hcur.
  destruct (current_tunnel_of v klines tunnel Hp Hcur)
    as (r1 & r2 & r3 & r4 & r5 & _ & _ & _ & _ & _ & _ & _ & ->).
  apply tunnel_of_bounds.
Qed.

(** X15.  The trend bonus is never missed.  A Buy needs the 4-hour trend
    bullish and a Sell needs it bearish, and the bonus of 0.2 is given on
    the very same comparison: every emitted signal has confidence 0.8, or
    0.9 when the short average is on the favourable side of the 15-minute
    mid tunnel; 0.6 and 0.7 do not occur, and the cap of 1.0 is never
    reached. *)
Theorem emitted_confidence_is_high (v : VegasTunnelStrategy)
    (klines : list KlineData) (signal : TradingSignal) :
  configured v = true ->
  snd (GenerateSignal v klines) = Ok (Some signal) ->
  exists tunnel4H tunnel15M kline,
    evaluation_data v tunnel4H tunnel15M kline /\
    (Type_ signal = SignalBuy ->
     Confidence signal
     = (if GreaterThan (EMA12 tunnel15M) (MidTunnelLower tunnel15M)
        then 0.9 else 0.8)%float) /\
    (Type_ signal = SignalSell ->
     Confidence signal
     = (if LessThan (EMA12 tunnel15M) (MidTunnelUpper tunnel15M)
        then 0.9 else 0.8)%float) /\
    (Confidence signal = 0.8%float \/ Confidence signal = 0.9%float).
Proof.
  intros Hc Hs.
  destruct (GenerateSignal_emitted v klines signal Hc Hs)
    as (t4 & t15 & k & symbol & ratio & Hd & _ & Hkind).
  pose proof (configured_inv v Hc) as [Hp _].
  pose proof Hd as (Ht4 & _ & _).
  pose proof (current_trend v _ t4 Hp Ht4) as Htrend.
  unfold determineTrendDirection in Htrend.
  exists t4, t15, k. split; [exact Hd|].
  destruct Hkind as [[(Hbull & _) ->]|[(Hbear & _) ->]].
  - assert (Hsep : GreaterThan (MidTunnelLower t4) (LongTunnelUpper t4) = true).
    { destruct (GreaterThan (MidTunnelLower t4) (LongTunnelUpper t4));
        [reflexivity|].
      destruct (LessThan (MidTunnelUpper t4) (LongTunnelLower t4));
        congruence. }
    cbn [buy_signal Confidence Type_]. rewrite confidence_long, Hsep.
    destruct (confidence_score_values true
                (GreaterThan (EMA12 t15) (MidTunnelLower t15))) as [-> _].
    split; [reflexivity|]. split; [discriminate|].
    destruct (GreaterThan (EMA12 t15) (MidTunnelLower t15)); auto.
  - assert (Hsep : LessThan (MidTunnelUpper t4) (LongTunnelLower t4) = true).
    { destruct (GreaterThan (MidTunnelLower t4) (LongTunnelUpper t4));
        [congruence|].
      destruct (LessThan (MidTunnelUpper t4) (LongTunnelLower t4));
        [reflexivity | congruence]. }
    cbn [sell_signal Confidence Type_]. rewrite confidence_short, Hsep.
    destruct (confidence_score_values true
                (LessThan (EMA12 t15) (MidTunnelUpper t15))) as [-> _].
    split; [discriminate|]. split; [reflexivity|].
    destruct (LessThan (EMA12 t15) (MidTunnelUpper t15)); auto.
Qed.

Lemma emitted_confidence_is_high_witness :
  (configured pullback_onto_mid_tunnel = true /\
   snd (GenerateSignal pullback_onto_mid_tunnel [flat_bar 108 18])
   = Ok (Some mid_tunnel_buy)) /\
  (Confidence mid_tunnel_buy = 0.8%float \/
   Confidence mid_tunnel_buy = 0.9%float).
Proof.
  split; [split; vm_compute; reflexivity|].
  destruct (emitted_confidence_is_high pullback_onto_mid_tunnel
              [flat_bar 108 18] mid_tunnel_buy)
    as (t4 & t15 & k & _ & _ & _ & H); [vm_compute; reflexivity..|].
  exact H.
Defined.

(** X16.  [ValidateParameters] puts no upper bound on the periods, and the
    stores are capped: with parameters it accepts, a history suffices
    exactly when it reaches the three periods that can be the largest, and
    a strategy with a period above 500 never signals, as its 4-hour series
    cannot grow that long; above 1000 it never exits either. *)
Theorem oversized_period_is_mute (v : VegasTunnelStrategy)
    (klines : list KlineData) (symbol : string) (isLong : bool) :
  reachable v -> ValidateParameters v = None ->
  (forall history : list KlineData,
      sufficient v history <->
      midTunnel1Period v <= len history /\
      longTunnel1Period v <= len history /\
      longTunnel2Period v <= len history) /\
  (500 < midTunnel1Period v \/ 500 < longTunnel1Period v \/
   500 < longTunnel2Period v ->
   snd (GenerateSignal v klines) = Ok None) /\
  (1000 < midTunnel1Period v \/ 1000 < longTunnel1Period v \/
   1000 < longTunnel2Period v ->
   CheckEMA12Exit v symbol isLong = Ok None).
Proof.
  intros Hr Hv.
  destruct (reachable_fields v Hr) as (H15 & H4 & _).
  destruct (ValidateParameters_order v Hv) as (P1 & P2 & P3 & P4 & P5).
  pose proof int_max_large as Hmax.
  split; [|split].
  - intros history. unfold sufficient. lia.
  - intros Hbig. apply GenerateSignal_no_tunnel.
    destruct (CalculateTunnelData_total v (kline4HData v))
      as [[_ Hn]|[Hs _]]; try lia; [exact Hn|].
    unfold sufficient in Hs. lia.
  - intros Hbig. apply CheckEMA12Exit_no_tunnel.
    destruct (CalculateTunnelData_total v (kline15MData v))
      as [[_ Hn]|[Hs _]]; try lia; [exact Hn|].
    unfold sufficient in Hs. lia.
Qed.

Lemma oversized_period_is_mute_witness :
  (reachable (SetParameters NewVegasTunnelStrategy 12 144 169 288 600 0.02 0.04) /\
   ValidateParameters
     (SetParameters NewVegasTunnelStrategy 12 144 169 288 600 0.02 0.04) = None) /\
  (500 < midTunnel1Period
           (SetParameters NewVegasTunnelStrategy 12 144 169 288 600 0.02 0.04) \/
   500 < longTunnel1Period
           (SetParameters NewVegasTunnelStrategy 12 144 169 288 600 0.02 0.04) \/
   500 < longTunnel2Period
           (SetParameters NewVegasTunnelStrategy 12 144 169 288 600 0.02 0.04) ->
   snd (GenerateSignal
          (SetParameters NewVegasTunnelStrategy 12 144 169 288 600 0.02 0.04)
          [flat_bar 100 0]) = Ok None).
Proof.
  split; [split; [repeat constructor | reflexivity]|].
  apply (oversized_period_is_mute
           (SetParameters NewVegasTunnelStrategy 12 144 169 288 600 0.02 0.04)
           [flat_bar 100 0] "BTCUSDT" true); [repeat constructor | reflexivity].
Defined.

End Composition.

(* ===================================================================== *)
(** * Order of binary64 floats *)
(* ===================================================================== *)

Section FloatOrder.

Ltac sf_cases :=
  repeat match goal with
         | s : bool |- _ => destruct s
         end;
  cbn; try discriminate; try reflexivity; try (intros; assumption);
  repeat match goal with
         | |- context [(?a ?= ?b)%Z] =>
             destruct (Z.compare_spec a b); cbn
         end;
  try discriminate; try reflexivity; try lia;
  repeat match goal with
         | |- context [PosDef.Pos.compare_cont Eq ?a ?b] =>
             change (PosDef.Pos.compare_cont Eq a b) with (Pos.compare a b);
             destruct (Pos.compare_spec a b); cbn
         end;
  try discriminate; try reflexivity; try lia.

Lemma SFltb_trans (x y z : spec_float) :
  SFltb x y = true -> SFltb y z = true -> SFltb x z = true.
Proof.
  unfold SFltb, SFcompare.
  destruct x as [s1|s1| |s1 m1 e1], y as [s2|s2| |s2 m2 e2],
           z as [s3|s3| |s3 m3 e3]; sf_cases.
Qed.

Lemma SFltb_leb_trans (x y z : spec_float) :
  SFltb x y = true -> SFleb y z = true -> SFltb x z = true.
Proof.
  unfold SFltb, SFleb, SFcompare.
  destruct x as [s1|s1| |s1 m1 e1], y as [s2|s2| |s2 m2 e2],
           z as [s3|s3| |s3 m3 e3]; sf_cases.
Qed.

Lemma SFleb_trans (x y z : spec_float) :
  SFleb x y = true -> SFleb y z = true -> SFleb x z = true.
Proof.
  unfold SFleb, SFcompare.
  destruct x as [s1|s1| |s1 m1 e1], y as [s2|s2| |s2 m2 e2],
           z as [s3|s3| |s3 m3 e3]; sf_cases.
Qed.

Lemma SFltb_irrefl (x : spec_float) : SFltb x x = false.
Proof.
  unfold SFltb, SFcompare. destruct x as [s|s| |s m e]; sf_cases.
Qed.

Lemma SFltb_leb (x y : spec_float) : SFltb x y = true -> SFleb x y = true.
Proof.
  unfold SFltb, SFleb. destruct (SFcompare x y) as [[]|]; auto.
Qed.

Lemma ltb_trans (x y z : float) :
  PrimFloat.ltb x y = true -> PrimFloat.ltb y z = true ->
  PrimFloat.ltb x z = true.
Proof. rewrite !FloatAxioms.ltb_spec. apply SFltb_trans. Qed.

Lemma ltb_leb_trans (x y z : float) :
  PrimFloat.ltb x y = true -> PrimFloat.leb y z = true ->
  PrimFloat.ltb x z = true.
Proof.
  rewrite !FloatAxioms.ltb_spec, FloatAxioms.leb_spec. apply SFltb_leb_trans.
Qed.

Lemma leb_trans (x y z : float) :
  PrimFloat.leb x y = true -> PrimFloat.leb y z = true ->
  PrimFloat.leb x z = true.
Proof. rewrite !FloatAxioms.leb_spec. apply SFleb_trans. Qed.

Lemma ltb_irrefl (x : float) : PrimFloat.ltb x x = false.
Proof. rewrite FloatAxioms.ltb_spec. apply SFltb_irrefl. Qed.

Lemma ltb_leb (x y : float) :
  PrimFloat.ltb x y = true -> PrimFloat.leb x y = true.
Proof.
  rewrite FloatAxioms.ltb_spec, FloatAxioms.leb_spec. apply SFltb_leb.
Qed.

Lemma leb_nan_l (x : float) : PrimFloat.leb nan x = false.
Proof. rewrite FloatAxioms.leb_spec. reflexivity. Qed.

End FloatOrder.

(* ===================================================================== *)
(** * Selection of results *)
(* ===================================================================== *)

Section Selection.

Import Manager.

Lemma best_loop (rs : list StrategyResult) :
  exists best maxc,
    foldl best_step (Ok (None, 0%float)) (Some <$> rs) = Ok (best, maxc) /\
    best_so_far rs best maxc.
Proof.
  induction rs as [|r rs IH] using rev_ind.
  - exists None, 0%float. split; [reflexivity|]. left.
    repeat split. intros r s Hr. apply elem_of_nil in Hr. contradiction.
  - destruct IH as (best & maxc & Hrun & Hinv).
    rewrite fmap_app, foldl_app, Hrun. cbn [fmap list_fmap foldl].
    unfold best_step at 1. rewrite bind_Ok. cbn match. rewrite bind_Ok.
    destruct (Signal r) as [s|] eqn:Hsig.
    2:{ exists best, maxc. split; [reflexivity|].
        destruct Hinv as [(Hb & Hm & Hall)|(i & b & sb & Hb & Hi & Hsb & Hc & Hpos & Hall)].
        - left. repeat split; try assumption.
          intros r' s' Hin Hs'. apply elem_of_app in Hin as [Hin|Hin].
          + eapply Hall; eassumption.
          + apply list_elem_of_singleton in Hin. subst r'. congruence.
        - right. exists i, b, sb. repeat (split; [assumption|]).
          split; [apply lookup_app_l_Some; exact Hi|]. repeat (split; [assumption|]).
          intros j r' s' Hj Hs'. apply lookup_app_Some in Hj as [Hj|[Hlen Hj]].
          + eapply Hall; eassumption.
          + apply list_lookup_singleton_Some in Hj as [_ <-]. congruence. }
    destruct (PrimFloat.ltb maxc (Confidence s)) eqn:Hlt.
    + (* a new best, at the last index *)
      exists (Some r), (Confidence s). split; [reflexivity|]. right.
      exists (length rs), r, s.
      split; [reflexivity|].
      split; [apply list_lookup_middle; reflexivity|].
      split; [exact Hsig|]. split; [reflexivity|].
      assert (Hpos : PrimFloat.ltb 0 (Confidence s) = true).
      { destruct Hinv as [(_ & -> & _)|(_ & _ & _ & _ & _ & _ & _ & Hp & _)];
          [exact Hlt | eapply ltb_trans; eassumption]. }
      split; [exact Hpos|].
      assert (Hold : forall (j : nat) r' s',
                 rs !! j = Some r' -> Signal r' = Some s' ->
                 PrimFloat.ltb maxc (Confidence s') = false).
      { intros j r' s' Hj Hs'.
        destruct Hinv as [(_ & -> & Hall)|(i & b & sb & _ & _ & _ & _ & _ & Hall)].
        - eapply Hall; [|eassumption]. eapply list_elem_of_lookup_2. eassumption.
        - eapply Hall; eassumption. }
      intros j r' s' Hj Hs'. apply lookup_app_Some in Hj as [Hj|[Hlen Hj]].
      * assert (Hle : PrimFloat.leb (Confidence s) (Confidence s') = false).
        { destruct (PrimFloat.leb (Confidence s) (Confidence s')) eqn:Hle;
            [|reflexivity].
          specialize (Hold j r' s' Hj Hs').
          rewrite (ltb_leb_trans _ _ _ Hlt Hle) in Hold. discriminate. }
        split; [|intros _; exact Hle].
        destruct (PrimFloat.ltb (Confidence s) (Confidence s')) eqn:Hlt';
          [|reflexivity].
        apply ltb_leb in Hlt'. congruence.
      * apply list_lookup_singleton_Some in Hj as [Hj <-].
        assert (s' = s) by congruence. subst s'.
        split; [apply ltb_irrefl | intros Hji; lia].
    + exists best, maxc. split; [reflexivity|].
      destruct Hinv as [(Hb & Hm & Hall)|(i & b & sb & Hb & Hi & Hsb & Hc & Hpos & Hall)].
      * left. repeat split; try assumption.
        intros r' s' Hin Hs'. apply elem_of_app in Hin as [Hin|Hin].
        -- eapply Hall; eassumption.
        -- apply list_elem_of_singleton in Hin. subst r'.
           assert (s' = s) by congruence. subst s' maxc. exact Hlt.
      * right. exists i, b, sb. repeat (split; [assumption|]).
        split; [apply lookup_app_l_Some; exact Hi|].
        repeat (split; [assumption|]).
        intros j r' s' Hj Hs'. apply lookup_app_Some in Hj as [Hj|[Hlen Hj]].
        -- eapply Hall; eassumption.
        -- apply list_lookup_singleton_Some in Hj as [Hj <-].
           assert (s' = s) by congruence. subst s'.
           split; [exact Hlt|]. intros Hji.
           apply lookup_lt_Some in Hi. lia.
Qed.

Lemma foldl_Panic {A B} (f : res A -> B -> res A) (l : list B) :
  (forall b, f Panic b = Panic) -> foldl f Panic l = Panic.
Proof.
  intros Hf. induction l as [|b l IH]; [reflexivity|].
  cbn [foldl]. rewrite Hf. exact IH.
Qed.

Lemma best_step_nil (results : list (option StrategyResult)) :
  None ∈ results ->
  forall acc, foldl best_step acc results = Panic.
Proof.
  induction results as [|r results IH]; intros Hin acc.
  - apply elem_of_nil in Hin. contradiction.
  - cbn [foldl]. apply elem_of_cons in Hin as [<-|Hin].
    + replace (best_step acc None) with (@Panic (option StrategyResult * float)).
      * apply foldl_Panic. reflexivity.
      * unfold best_step. destruct acc as [[b m]|]; reflexivity.
    + apply IH. exact Hin.
Qed.

(** X17.  [GetBestSignal] returns the first result of the highest
    confidence: a result with a signal whose confidence is above 0, which
    no result exceeds and no earlier result equals.  It returns nil exactly
    when no result has a signal of confidence above 0 (a confidence of 0 or
    NaN never wins), and it panics on a nil element. *)
Theorem GetBestSignal_first_maximum (rs : list StrategyResult) :
  (forall results, None ∈ results -> GetBestSignal results = Panic) /\
  exists best,
    GetBestSignal (Some <$> rs) = Ok best /\
    (best = None <->
     forall r s, r ∈ rs -> Signal r = Some s ->
                 PrimFloat.ltb 0 (Confidence s) = false) /\
    forall b, best = Some b ->
      exists (i : nat) (s : TradingSignal),
        rs !! i = Some b /\ Signal b = Some s /\
        PrimFloat.ltb 0 (Confidence s) = true /\
        forall (j : nat) r' s',
          rs !! j = Some r' -> Signal r' = Some s' ->
          PrimFloat.ltb (Confidence s) (Confidence s') = false /\
          ((j < i)%nat ->
           PrimFloat.leb (Confidence s) (Confidence s') = false).
Proof.
  split.
  { intros results Hin. unfold GetBestSignal.
    rewrite (best_step_nil results Hin). reflexivity. }
  destruct (best_loop rs) as (best & maxc & Hrun & Hinv).
  exists best. split.
  { unfold GetBestSignal. rewrite Hrun. reflexivity. }
  destruct Hinv as [(-> & _ & Hall)|(i & b & s & -> & Hi & Hs & <- & Hpos & Hall)].
  - split; [split; [intros _; exact Hall | reflexivity]|]. discriminate.
  - split.
    + split; [discriminate|]. intros Hnone. exfalso.
      rewrite (Hnone b s) in Hpos; [discriminate| |exact Hs].
      eapply list_elem_of_lookup_2. exact Hi.
    + intros b' Hb'. injection Hb' as <-. exists i, s. auto.
Qed.

Lemma filter_loop (minConfidence : float) (rs : list StrategyResult) :
  forall acc : list StrategyResult,
    foldl (filter_step minConfidence) (Ok (Some <$> acc)) (Some <$> rs)
    = Ok (Some <$> (acc ++ List.filter (kept minConfidence) rs)).
Proof.
  induction rs as [|r rs IH]; intros acc.
  - cbn. rewrite app_nil_r. reflexivity.
  - cbn [fmap list_fmap foldl List.filter].
    unfold filter_step at 2. rewrite bind_Ok. cbn match. rewrite bind_Ok.
    unfold kept at 1.
    destruct (Signal r) as [s|].
    + destruct (PrimFloat.leb minConfidence (Confidence s)).
      * replace ((Some <$> acc) ++ [Some r]) with (Some <$> (acc ++ [r]))
          by (rewrite fmap_app; reflexivity).
        rewrite IH, <- app_assoc. reflexivity.
      * apply IH.
    + apply IH.
Qed.

Lemma filter_kept_twice (m m' : float) (rs : list StrategyResult) :
  (forall r, kept m' r = true -> kept m r = true) ->
  List.filter (kept m') (List.filter (kept m) rs) = List.filter (kept m') rs.
Proof.
  intros Himp. induction rs as [|r rs IH]; [reflexivity|].
  cbn [List.filter]. destruct (kept m r) eqn:Hk.
  - cbn [List.filter]. rewrite IH. reflexivity.
  - rewrite IH. destruct (kept m' r) eqn:Hk'; [|reflexivity].
    rewrite (Himp r Hk') in Hk. discriminate.
Qed.

(** X18.  [FilterSignalsByConfidence] keeps, in their order, exactly the
    results that carry a signal of confidence at least the threshold; a NaN
    threshold keeps none; and a stricter filter after a looser one keeps
    what the stricter one keeps alone. *)
Theorem FilterSignalsByConfidence_keeps (rs : list StrategyResult)
    (minConfidence stricter : float) :
  FilterSignalsByConfidence (Some <$> rs) minConfidence
  = Ok (Some <$> List.filter (kept minConfidence) rs) /\
  FilterSignalsByConfidence (Some <$> rs) nan = Ok [] /\
  (PrimFloat.leb minConfidence stricter = true ->
   FilterSignalsByConfidence
     (Some <$> List.filter (kept minConfidence) rs) stricter
   = FilterSignalsByConfidence (Some <$> rs) stricter).
Proof.
  assert (Hrun : forall m l,
             FilterSignalsByConfidence (Some <$> l) m
             = Ok (Some <$> List.filter (kept m) l)).
  { intros m l. unfold FilterSignalsByConfidence.
    change (@Ok (list (option StrategyResult)) [])
      with (@Ok (list (option StrategyResult)) (Some <$> [])).
    rewrite filter_loop. reflexivity. }
  split; [apply Hrun|]. split.
  - rewrite Hrun. f_equal.
    assert (Hnone : List.filter (kept nan) rs = []).
    { induction rs as [|r rs IH]; [reflexivity|].
      cbn [List.filter]. unfold kept at 1.
      destruct (Signal r) as [s|]; [rewrite leb_nan_l|]; exact IH. }
    rewrite Hnone. reflexivity.
  - intros Hle. rewrite !Hrun. do 2 f_equal.
    apply filter_kept_twice. intros r. unfold kept.
    destruct (Signal r) as [s|]; [|discriminate].
    intros Hs. eapply leb_trans; eassumption.
Qed.

Lemma FilterSignalsByConfidence_keeps_witness :
  PrimFloat.leb 0.5 0.7 = true /\
  FilterSignalsByConfidence
    (Some <$> List.filter (kept 0.5)
                [mkResult "vegas_tunnel" "BTCUSDT" (Some mid_tunnel_buy) None 0;
                 mkResult "other" "BTCUSDT" None None 0]) 0.7
  = FilterSignalsByConfidence
      (Some <$> [mkResult "vegas_tunnel" "BTCUSDT" (Some mid_tunnel_buy) None 0;
                 mkResult "other" "BTCUSDT" None None 0]) 0.7.
Proof.
  split; [reflexivity|].
  apply (FilterSignalsByConfidence_keeps
           [mkResult "vegas_tunnel" "BTCUSDT" (Some mid_tunnel_buy) None 0;
            mkResult "other" "BTCUSDT" None None 0] 0.5 0.7).
  reflexivity.
Defined.

End Selection.

(* ===================================================================== *)
(** * Validation of bars *)
(* ===================================================================== *)

Section BarValidation.

Import Manager.

Lemma IsZero_spec (d : Decimal.t) : IsZero d = true <-> (toQ d == 0)%Q.
Proof.
  unfold IsZero. split.
  - intros H. apply Z.eqb_eq in H. rewrite Z.sgn_null_iff in H.
    unfold toQ. rewrite H. ring.
  - intros H. apply Z.eqb_eq. rewrite Z.sgn_null_iff.
    destruct (Z.eq_dec (value d) 0) as [E|E]; [exact E|].
    exfalso. exact (toQ_nonzero d E H).
Qed.

Lemma check_kline_spec (i : nat) (kline : KlineData) :
  check_kline i kline = None <-> bar_ok kline.
Proof.
  unfold check_kline, bar_ok.
  destruct (IsZero (Open kline)) eqn:Z1.
  { apply IsZero_spec in Z1. cbn. split; [discriminate | tauto]. }
  destruct (IsZero (High kline)) eqn:Z2.
  { apply IsZero_spec in Z2. cbn. split; [discriminate | tauto]. }
  destruct (IsZero (Low kline)) eqn:Z3.
  { apply IsZero_spec in Z3. cbn. split; [discriminate | tauto]. }
  destruct (IsZero (Close kline)) eqn:Z4.
  { apply IsZero_spec in Z4. cbn. split; [discriminate | tauto]. }
  cbn [orb].
  assert (N1 : ~ (toQ (Open kline) == 0)%Q)
    by (intros E; apply IsZero_spec in E; congruence).
  assert (N2 : ~ (toQ (High kline) == 0)%Q)
    by (intros E; apply IsZero_spec in E; congruence).
  assert (N3 : ~ (toQ (Low kline) == 0)%Q)
    by (intros E; apply IsZero_spec in E; congruence).
  assert (N4 : ~ (toQ (Close kline) == 0)%Q)
    by (intros E; apply IsZero_spec in E; congruence).
  destruct (LessThan (High kline) (Low kline)) eqn:C1.
  { apply LessThan_spec in C1. split; [discriminate|].
    intros (_ & _ & _ & _ & A & B & _). lra. }
  destruct (LessThan (High kline) (Open kline)) eqn:C2.
  { apply LessThan_spec in C2. cbn. split; [discriminate|].
    intros (_ & _ & _ & _ & A & B & _). lra. }
  destruct (LessThan (High kline) (Close kline)) eqn:C3.
  { apply LessThan_spec in C3. cbn. split; [discriminate|].
    intros (_ & _ & _ & _ & _ & _ & A & B). lra. }
  cbn [orb].
  destruct (GreaterThan (Low kline) (Open kline)) eqn:C4.
  { apply GreaterThan_spec in C4. cbn. split; [discriminate|].
    intros (_ & _ & _ & _ & A & _). lra. }
  destruct (GreaterThan (Low kline) (Close kline)) eqn:C5.
  { apply GreaterThan_spec in C5. cbn. split; [discriminate|].
    intros (_ & _ & _ & _ & _ & _ & A & _). lra. }
  cbn [orb]. split; [intros _|reflexivity].
  assert (forall a b, LessThan a b = false -> (toQ b <= toQ a)%Q) as HL.
  { intros a b E. destruct (Qlt_le_dec (toQ a) (toQ b)) as [Hlt|Hle];
      [apply LessThan_spec in Hlt; congruence | exact Hle]. }
  assert (forall a b, GreaterThan a b = false -> (toQ a <= toQ b)%Q) as HG.
  { intros a b E. destruct (Qlt_le_dec (toQ b) (toQ a)) as [Hlt|Hle];
      [apply GreaterThan_spec in Hlt; congruence | exact Hle]. }
  repeat (split; [assumption|]).
  split; [apply HG; exact C4|]. split; [apply HL; exact C2|].
  split; [apply HG; exact C5 | apply HL; exact C3].
Qed.

Lemma validate_from_spec (klines : list KlineData) :
  forall i : nat,
    (validate_from i klines = None <-> Forall bar_ok klines) /\
    forall err, validate_from i klines = Some err ->
      exists (j : nat) (kline : KlineData),
        klines !! j = Some kline /\ ~ bar_ok kline /\
        Forall bar_ok (take j klines) /\
        check_kline (i + j) kline = Some err.
Proof.
  induction klines as [|k klines IH]; intros i.
  - split; [split; [constructor | reflexivity] | discriminate].
  - cbn [validate_from]. destruct (check_kline i k) as [e|] eqn:Hk.
    + split.
      * split; [discriminate|]. intros Hall. apply Forall_cons in Hall as [Hok _].
        apply (check_kline_spec i) in Hok. congruence.
      * intros err Herr. injection Herr as <-. exists 0%nat, k.
        split; [reflexivity|]. split.
        { intros Hok. apply (check_kline_spec i) in Hok. congruence. }
        split; [constructor|]. rewrite Nat.add_0_r. exact Hk.
    + apply check_kline_spec in Hk. destruct (IH (S i)) as [Hnone Hsome]. split.
      * rewrite Hnone. split; [intros Hall; constructor; assumption|].
        intros Hall. apply Forall_cons in Hall as [_ Hall]. exact Hall.
      * intros err Herr. destruct (Hsome err Herr) as (j & kl & Hj & Hbad & Hpre & Hchk).
        exists (S j), kl. split; [exact Hj|]. split; [exact Hbad|].
        split; [cbn [take]; constructor; assumption|].
        replace (i + S j)%nat with (S i + j)%nat by lia. exact Hchk.
Qed.

(** X19.  [ValidateKlineData] accepts exactly the non-empty lists in which
    every bar has its four prices other than zero, with the low not above
    and the high not below the open and the close (volume, time, symbol
    and the sign of the prices are not looked at).  An error on a non-empty
    list is that of the first bar that fails, with its index. *)
Theorem ValidateKlineData_accepts (klines : list KlineData) :
  (ValidateKlineData klines = None <-> klines <> [] /\ Forall bar_ok klines) /\
  (klines = [] -> ValidateKlineData klines = Some "empty kline data") /\
  forall err, klines <> [] -> ValidateKlineData klines = Some err ->
    exists (j : nat) (kline : KlineData),
      klines !! j = Some kline /\ ~ bar_ok kline /\
      Forall bar_ok (take j klines) /\
      check_kline j kline = Some err.
Proof.
  unfold ValidateKlineData, len.
  destruct klines as [|k klines].
  - split; [split; [discriminate | intros [Hne _]; contradiction]|].
    split; [reflexivity | intros err Hne; contradiction].
  - destruct (Z.eqb_spec (Z.of_nat (length (k :: klines))) 0) as [E|_];
      [cbn [length] in E; lia|].
    destruct (validate_from_spec (k :: klines) 0) as [Hnone Hsome].
    split; [|split; [discriminate|]].
    + rewrite Hnone. split; [intros Hall; split; [discriminate | exact Hall]|].
      intros [_ Hall]. exact Hall.
    + intros err _ Herr. exact (Hsome err Herr).
Qed.

End BarValidation.

(* ===================================================================== *)
(** * The registry *)
(* ===================================================================== *)

Section Registry.

Import Manager.

Context {S H : Type} `{Strategy S H}.

Lemma set_strategies_id (sm : StrategyManager S) :
  set_strategies sm (strategies sm) = sm.
Proof. destruct sm. reflexivity. Qed.

(** X20.  The registry.  A strategy is stored under a name exactly when the
    name is free and the strategy validates; then [GetStrategy] returns it
    under that name, the other names are as before, and unregistering the
    name gives back the registry as it was.  A taken name or a failed
    validation leaves the registry untouched and is reported; a name that
    is not registered cannot be fetched or unregistered. *)
Theorem RegisterStrategy_round_trip (sm : StrategyManager S) (name : string)
    (strategy : S) (h h' : H) (err : option error) :
  method_ValidateParameters strategy h = Ok (err, h') ->
  (strategies sm !! name = None -> err = None ->
   let sm' := set_strategies sm (<[name := strategy]> (strategies sm)) in
   RegisterStrategy sm name strategy h = Ok (sm', None, h') /\
   GetStrategy sm' name = (Some strategy, None) /\
   (forall other, other <> name -> GetStrategy sm' other = GetStrategy sm other) /\
   UnregisterStrategy sm' name = (sm, None)) /\
  (strategies sm !! name = None -> forall msg, err = Some msg ->
   RegisterStrategy sm name strategy h
   = Ok (sm, Some ("strategy validation failed: " +:+ msg), h')) /\
  (is_Some (strategies sm !! name) ->
   RegisterStrategy sm name strategy h
   = Ok (sm, Some ("strategy " +:+ name +:+ " already registered"), h)) /\
  (strategies sm !! name = None ->
   GetStrategy sm name = (None, Some ("strategy " +:+ name +:+ " not found")) /\
   UnregisterStrategy sm name
   = (sm, Some ("strategy " +:+ name +:+ " not found"))).
Proof.
  intros Hv. split; [|split; [|split]].
  - intros Hfree -> sm'. split; [|split; [|split]].
    + unfold RegisterStrategy. rewrite Hfree, Hv, bind_Ok. reflexivity.
    + unfold GetStrategy, sm', set_strategies. cbn [strategies].
      rewrite lookup_insert_eq. reflexivity.
    + intros other Hne. unfold GetStrategy, sm', set_strategies.
      cbn [strategies]. rewrite lookup_insert_ne by congruence. reflexivity.
    + unfold UnregisterStrategy, sm', set_strategies. cbn [strategies].
      rewrite lookup_insert_eq. cbn [cancelled isRunning].
      rewrite delete_insert_id by assumption.
      destruct sm. reflexivity.
  - intros Hfree msg ->. unfold RegisterStrategy.
    rewrite Hfree, Hv, bind_Ok. reflexivity.
  - intros [s Hs]. unfold RegisterStrategy. rewrite Hs. reflexivity.
  - intros Hfree. split.
    + unfold GetStrategy. rewrite Hfree. reflexivity.
    + unfold UnregisterStrategy. rewrite Hfree. reflexivity.
Qed.

Lemma snoc_loop (keys : list string) :
  forall acc : list string,
    foldl (fun names name => names ++ [name]) acc keys = acc ++ keys.
Proof.
  induction keys as [|k keys IH]; intros acc.
  - rewrite app_nil_r. reflexivity.
  - cbn [foldl]. rewrite IH, <- app_assoc. reflexivity.
Qed.

Lemma range_order_registered (sm : StrategyManager S) (keys : list string) :
  range_order sm keys ->
  NoDup keys /\
  forall name, name ∈ keys <-> is_Some (strategies sm !! name).
Proof.
  unfold range_order. intros Hp. split.
  - rewrite Hp. apply NoDup_fst_map_to_list.
  - intros name. rewrite Hp, list_elem_of_fmap. split.
    + intros ([k s] & -> & Hin). apply elem_of_map_to_list in Hin. eauto.
    + intros [s Hs]. exists (name, s). split; [reflexivity|].
      apply elem_of_map_to_list. exact Hs.
Qed.

Lemma execute_loop (sm : StrategyManager S) (symbol : string)
    (klines : list KlineData) (clock : nat -> Z) (names : list string) :
  (forall name, name ∈ names -> is_Some (strategies sm !! name)) ->
  forall (acc : list StrategyResult) (h0 h' : H) (results : list StrategyResult),
    foldl (execute_step sm symbol klines clock) (Ok (acc, h0)) names
    = Ok (results, h') ->
    exists new,
      results = acc ++ new /\ StrategyName <$> new = names /\
      Forall (fun r => Error r = None /\ ResultSymbol r = symbol) new /\
      forall (i : nat) r, new !! i = Some r ->
                          ResultTimestamp r = clock (length acc + i)%nat.
Proof.
  induction names as [|name names IH]; intros Hreg acc h0 h' results Hrun.
  - cbn in Hrun. injection Hrun as <- <-. exists []. rewrite app_nil_r.
    repeat split; [constructor|]. intros i r Hi. discriminate.
  - cbn [foldl] in Hrun. unfold execute_step at 2 in Hrun.
    rewrite (bind_Ok (acc, h0)) in Hrun. cbn match in Hrun.
    destruct (Hreg name) as [s Hs]; [left|].
    unfold ExecuteStrategy, GetStrategy in Hrun. rewrite Hs in Hrun.
    destruct (method_GenerateSignal s klines h0) as [[signal h1]|].
    2:{ change (foldl (execute_step sm symbol klines clock) Panic names
                = Ok (results, h')) in Hrun.
        rewrite foldl_Panic in Hrun by reflexivity. discriminate. }
    rewrite (bind_Ok (signal, h1)) in Hrun. cbn match in Hrun.
    rewrite (bind_Ok (mkResult name symbol signal None (clock (length acc)), h1))
      in Hrun.
    cbn match in Hrun.
    destruct (IH (fun n Hn => Hreg n (list_elem_of_further _ _ _ Hn))
                _ _ _ _ Hrun) as (new & -> & Hnames & Hall & Htime).
    exists (mkResult name symbol signal None (clock (length acc)) :: new).
    split; [rewrite <- app_assoc; reflexivity|].
    split; [cbn; rewrite Hnames; reflexivity|].
    split; [constructor; [split; reflexivity | exact Hall]|].
    intros [|i] r Hi.
    + cbn in Hi. injection Hi as <-. cbn. f_equal. lia.
    + cbn in Hi. rewrite (Htime i r Hi), length_app. cbn. f_equal. lia.
Qed.

(** X21.  [ListStrategies] and [ExecuteAllStrategies] cover the registry:
    whatever the order in which the map is visited, each registered name
    is listed once and nothing else is, and a run that returns gives one
    result per registered name, in that order, for the symbol asked and
    with no error in any of them. *)
Theorem ExecuteAllStrategies_covers (sm : StrategyManager S)
    (keys : list string) (symbol : string) (klines : list KlineData)
    (clock : nat -> Z) (h h' : H) (results : list StrategyResult) :
  range_order sm keys ->
  ExecuteAllStrategies sm keys symbol klines clock h = Ok (results, h') ->
  ListStrategies sm keys = keys /\ NoDup keys /\
  (forall name, name ∈ keys <-> is_Some (strategies sm !! name)) /\
  StrategyName <$> results = keys /\
  Forall (fun r => Error r = None /\ ResultSymbol r = symbol) results /\
  forall (i : nat) r, results !! i = Some r -> ResultTimestamp r = clock i.
Proof.
  intros Hord Hrun.
  destruct (range_order_registered sm keys Hord) as [Hnd Hreg].
  split; [apply (snoc_loop keys [])|]. split; [exact Hnd|].
  split; [exact Hreg|].
  unfold ExecuteAllStrategies in Hrun. rewrite (snoc_loop keys []) in Hrun.
  cbn [app] in Hrun.
  destruct (execute_loop sm symbol klines clock keys
              (fun n Hn => proj1 (Hreg n) Hn) [] h h' results Hrun)
    as (new & -> & Hnames & Hall & Htime).
  cbn [app]. split; [exact Hnames|]. split; [exact Hall|].
  intros i r Hi. exact (Htime i r Hi).
Qed.

End Registry.

(* ===================================================================== *)
(** * The strategy under the manager; the notification queue *)
(* ===================================================================== *)

Section VegasManaged.

Import Manager.

Lemma RegisterStrategy_round_trip_witness :
  method_ValidateParameters (Some 0%nat) app_heap = Ok (None, app_heap) /\
  RegisterStrategy NewStrategyManager "vegas_tunnel" (Some 0%nat) app_heap
  = Ok (app_manager, None, app_heap).
Proof.
  split; [reflexivity|].
  apply (RegisterStrategy_round_trip NewStrategyManager "vegas_tunnel"
           (Some 0%nat) app_heap app_heap None); reflexivity.
Defined.

Lemma GenerateSignal_empty_store (v : VegasTunnelStrategy)
    (klines : list KlineData) :
  kline15MData v = [] -> 1 <= longTunnel2Period v ->
  Strategy.GenerateSignal v klines = (v, Ok None).
Proof.
  intros Hempty Hp. unfold Strategy.GenerateSignal.
  destruct klines as [|first rest]; [reflexivity|].
  rewrite GenerateSignal_feed, Hempty.
  destruct (Z.ltb_spec (len (@nil KlineData)) (longTunnel2Period v))
    as [_|Hge]; [reflexivity|]. unfold len in Hge. simpl in Hge. lia.
Qed.

(** X22.  The bot as it is wired: a strategy that validates and whose
    15-minute series is empty registers under a free name, and every
    [ExecuteStrategy] on it then returns a result with no signal and no
    error and leaves the store of objects as it was, so that the next call
    finds the same state.  The manager has no call that stores a bar;
    through it the strategy never signals. *)
Theorem managed_strategy_never_signals (h : heap) (l : nat)
    (v : VegasTunnelStrategy) (name : string) :
  h !! l = Some v -> Strategy.ValidateParameters v = None ->
  kline15MData v = [] ->
  exists sm,
    RegisterStrategy NewStrategyManager name (Some l) h = Ok (sm, None, h) /\
    forall (symbol : string) (klines : list KlineData) (now : Z),
      ExecuteStrategy sm name symbol klines now h
      = Ok (mkResult name symbol None None now, h).
Proof.
  intros Hl Hv Hempty.
  exists (mkManager {[ name := Some l ]} false false). split.
  - unfold RegisterStrategy, NewStrategyManager. cbn [strategies].
    rewrite lookup_empty. cbn [method_ValidateParameters vegas_strategy deref].
    rewrite Hl, bind_Ok, Hv, bind_Ok. cbn match.
    unfold set_strategies. cbn [strategies cancelled isRunning].
    reflexivity.
  - intros symbol klines now. unfold ExecuteStrategy, GetStrategy.
    cbn [strategies]. rewrite lookup_singleton_eq.
    cbn [method_GenerateSignal vegas_strategy deref].
    destruct klines as [|first rest]; [reflexivity|].
    rewrite Hl, bind_Ok.
    destruct (ValidateParameters_order v Hv) as (P1 & _ & P3 & _ & P5).
    rewrite (GenerateSignal_empty_store v (first :: rest) Hempty) by lia.
    cbn match. rewrite bind_Ok, (insert_id h l v Hl). reflexivity.
Qed.

Lemma managed_strategy_never_signals_witness :
  (app_heap !! 0%nat = Some NewVegasTunnelStrategy /\
   Strategy.ValidateParameters NewVegasTunnelStrategy = None /\
   kline15MData NewVegasTunnelStrategy = []) /\
  exists sm,
    RegisterStrategy NewStrategyManager "vegas_tunnel" (Some 0%nat) app_heap
    = Ok (sm, None, app_heap) /\
    forall (symbol : string) (klines : list KlineData) (now : Z),
      ExecuteStrategy sm "vegas_tunnel" symbol klines now app_heap
      = Ok (mkResult "vegas_tunnel" symbol None None now, app_heap).
Proof.
  split; [repeat split|].
  apply (managed_strategy_never_signals app_heap 0 NewVegasTunnelStrategy
           "vegas_tunnel"); reflexivity.
Defined.

Lemma ExecuteAllStrategies_covers_witness :
  (range_order app_manager ["vegas_tunnel"] /\
   ExecuteAllStrategies app_manager ["vegas_tunnel"] "BTCUSDT"
     [flat_bar 100 0] (fun i => Z.of_nat i) app_heap
   = Ok ([mkResult "vegas_tunnel" "BTCUSDT" None None 0], app_heap)) /\
  StrategyName <$> [mkResult "vegas_tunnel" "BTCUSDT" None None 0]
  = ["vegas_tunnel"].
Proof.
  assert (Hord : range_order app_manager ["vegas_tunnel"]).
  { unfold range_order, app_manager. cbn [strategies].
    rewrite map_to_list_singleton. reflexivity. }
  assert (Hrun : ExecuteAllStrategies app_manager ["vegas_tunnel"] "BTCUSDT"
                   [flat_bar 100 0] (fun i => Z.of_nat i) app_heap
                 = Ok ([mkResult "vegas_tunnel" "BTCUSDT" None None 0],
                       app_heap)).
  { vm_compute. reflexivity. }
  split; [split; assumption|].
  apply (ExecuteAllStrategies_covers app_manager ["vegas_tunnel"] "BTCUSDT"
           [flat_bar 100 0] (fun i => Z.of_nat i) app_heap app_heap
           [mkResult "vegas_tunnel" "BTCUSDT" None None 0] Hord Hrun).
Defined.

End VegasManaged.

Section Information.

Import StrategyInfo.

(** X23.  [GetStrategyInfo] reports what [SetParameters] stored: the five
    periods and the two percents just set, with the reward ratio, which
    [SetParameters] cannot change, and the lengths of the two series; in a
    reachable state the two counts are at most 1000 and 500. *)
Theorem GetStrategyInfo_reports (v : VegasTunnelStrategy)
    (a b c d e : Z) (sl tp : float) :
  let i := GetStrategyInfo (SetParameters v a b c d e sl tp) in
  i !! "short_ema_period" = Some (InfoInt a) /\
  i !! "mid_tunnel1_period" = Some (InfoInt b) /\
  i !! "mid_tunnel2_period" = Some (InfoInt c) /\
  i !! "long_tunnel1_period" = Some (InfoInt d) /\
  i !! "long_tunnel2_period" = Some (InfoInt e) /\
  i !! "stop_loss_percent" = Some (InfoFloat sl) /\
  i !! "take_profit_percent" = Some (InfoFloat tp) /\
  i !! "risk_reward_ratio" = Some (InfoFloat (riskRewardRatio v)) /\
  i !! "15m_data_count" = Some (InfoInt (len (kline15MData v))) /\
  i !! "4h_data_count" = Some (InfoInt (len (kline4HData v))) /\
  (reachable v ->
   riskRewardRatio v = 2.0%float /\
   0 <= len (kline15MData v) <= 1000 /\ 0 <= len (kline4HData v) <= 500).
Proof.
  intros i. subst i.
  repeat (split; [reflexivity|]).
  intros Hr. destruct (reachable_fields v Hr) as (H15 & H4 & Hratio & _).
  unfold len in *. repeat split; try assumption; lia.
Qed.

End Information.

Section NotificationQueue.

Import Notification.

Lemma drained_flags (nm nm' : NotificationManager) :
  drained nm nm' ->
  running nm' = running nm /\ closed nm' = closed nm /\
  cancelled nm' = cancelled nm.
Proof.
  induction 1 as [nm|nm nm1 nm2 Hstep _ IH]; [repeat split|].
  destruct Hstep as [nm n rest Hq]. cbn in IH. exact IH.
Qed.

(** X24.  A notification manager does not survive a restart.  [Stop] closes
    the queue and nothing reopens it, while [Start] only looks at the
    running flag: after a stop, [Start] succeeds and reports the manager
    as running, and from then on every [SendNotification] panics on the
    closed channel, as does the next [Stop], whatever the workers have
    received in between. *)
Theorem restarted_notifier_panics (nm : NotificationManager) :
  running nm = true -> closed nm = false ->
  exists stopped,
    Stop nm = Ok (stopped, None) /\
    IsRunning stopped = false /\
    Stop stopped = Ok (stopped, None) /\
    forall idle, drained stopped idle ->
      exists restarted,
        Start idle = (restarted, None) /\
        forall later notification now,
          drained restarted later ->
          IsRunning later = true /\
          SendNotification later notification now = Panic /\
          Stop later = Panic.
Proof.
  intros Hrun Hopen.
  exists (mkNotifier false true (queue nm) true (workers nm)).
  split; [unfold Stop; rewrite Hrun, Hopen; reflexivity|].
  split; [reflexivity|]. split; [reflexivity|].
  intros idle Hidle. apply drained_flags in Hidle as (Hr & Hc & _).
  cbn in Hr, Hc.
  exists (mkNotifier true (cancelled idle) (queue idle) (closed idle)
            (workers idle)).
  split; [unfold Start; rewrite Hr; reflexivity|].
  intros later notification now Hlater.
  apply drained_flags in Hlater as (Hr' & Hc' & _). cbn in Hr', Hc'.
  unfold IsRunning, SendNotification, Stop. rewrite Hr', Hc', Hc.
  repeat split.
Qed.

Lemma restarted_notifier_panics_witness :
  (running (fst (Start New)) = true /\ closed (fst (Start New)) = false) /\
  exists stopped,
    Stop (fst (Start New)) = Ok (stopped, None) /\
    IsRunning stopped = false.
Proof.
  split; [split; reflexivity|].
  destruct (restarted_notifier_panics (fst (Start New)) eq_refl eq_refl)
    as (stopped & Hstop & Hrun & _).
  exists stopped. split; [exact Hstop | exact Hrun].
Defined.

End NotificationQueue.

(* ===================================================================== *)
(** * Life cycle and reports of the manager *)
(* ===================================================================== *)

Section Lifecycle.

Import Manager.

Context {S H : Type} `{Strategy S H}.

Lemma manager_call_cancelled (sm sm' : StrategyManager S) :
  manager_call sm sm' -> cancelled sm = true -> cancelled sm' = true.
Proof.
  intros Hcall Hc. destruct Hcall as [sm|sm|sm name|sm name s h sm' e h' Hreg].
  - unfold Start. destruct (isRunning sm); exact Hc.
  - unfold Stop. destruct (isRunning sm); [reflexivity | exact Hc].
  - unfold UnregisterStrategy. destruct (strategies sm !! name); exact Hc.
  - unfold RegisterStrategy in Hreg. destruct (strategies sm !! name).
    + injection Hreg as <- _ _. exact Hc.
    + destruct (method_ValidateParameters s h) as [[[msg|] h1]|];
        [| |discriminate]; rewrite (bind_Ok (_, h1)) in Hreg;
        cbn match in Hreg; injection Hreg as <- _ _; exact Hc.
Qed.

Lemma manager_calls_cancelled (sm sm' : StrategyManager S) :
  manager_calls sm sm' -> cancelled sm = true -> cancelled sm' = true.
Proof.
  induction 1 as [sm1|sm1 sm2 sm3 Hcall _ IH]; intros Hc; [exact Hc|].
  apply IH. exact (manager_call_cancelled _ _ Hcall Hc).
Qed.

(** X25.  The context of a manager is cancelled for good.  [Stop] on a
    running manager cancels it, a second [Stop] does nothing, and no call
    renews it: after any calls that follow, [Start] included, which succeeds
    and reports the manager as running again, the context is still
    cancelled.  A second [Start] on a running manager is refused. *)
Theorem cancelled_context_is_never_renewed (sm later : StrategyManager S) :
  isRunning sm = true ->
  manager_calls (Stop sm) later ->
  cancelled (Stop sm) = true /\ IsRunning (Stop sm) = false /\
  Stop (Stop sm) = Stop sm /\
  Start sm = (sm, Some "strategy manager is already running") /\
  snd (Start (Stop sm)) = None /\ IsRunning (fst (Start (Stop sm))) = true /\
  cancelled later = true.
Proof.
  intros Hrun Hcalls.
  assert (Hstop : Stop sm = mkManager (strategies sm) true false)
    by (unfold Stop; rewrite Hrun; reflexivity).
  rewrite Hstop in *.
  split; [reflexivity|]. split; [reflexivity|]. split; [reflexivity|].
  split; [unfold Start; rewrite Hrun; reflexivity|].
  split; [reflexivity|]. split; [reflexivity|].
  exact (manager_calls_cancelled _ _ Hcalls eq_refl).
Qed.

End Lifecycle.

Section LifecycleWitness.

Import Manager.

Lemma cancelled_context_is_never_renewed_witness :
  (isRunning (fst (Start app_manager)) = true /\
   manager_calls (Stop (fst (Start app_manager)))
     (fst (Start (Stop (fst (Start app_manager)))))) /\
  cancelled (fst (Start (Stop (fst (Start app_manager))))) = true.
Proof.
  assert (Hcalls : manager_calls (Stop (fst (Start app_manager)))
                     (fst (Start (Stop (fst (Start app_manager)))))).
  { eapply calls_more; [apply call_Start | apply calls_none]. }
  split; [split; [reflexivity | exact Hcalls]|].
  apply (cancelled_context_is_never_renewed (fst (Start app_manager))
           (fst (Start (Stop (fst (Start app_manager))))) eq_refl Hcalls).
Defined.

End LifecycleWitness.

Section Reports.

Import Manager.

(** The loop of [GetAllStrategyInfo] over references to live objects. *)
Lemma info_loop (sm : StrategyManager pointer) (h : heap) (keys : list string) :
  (forall name, name ∈ keys ->
                exists p v, strategies sm !! name = Some p /\ deref p h = Ok v) ->
  forall acc : gmap string StrategyInfo.info,
    exists all,
      foldl (info_step sm) (Ok (acc, h)) keys = Ok (all, h) /\
      forall name, all !! name
                   = if decide (name ∈ keys) then reported sm h name
                     else acc !! name.
Proof.
  induction keys as [|k keys IH]; intros Hreg acc.
  - exists acc. split; [reflexivity|]. intros name.
    destruct (decide (name ∈ [])) as [Hin|_]; [|reflexivity].
    apply elem_of_nil in Hin. contradiction.
  - destruct (Hreg k) as (p & v & Hp & Hv); [left|].
    cbn [foldl]. unfold info_step at 2.
    rewrite (bind_Ok (acc, h)). cbn match. rewrite Hp.
    cbn [method_GetStrategyInfo vegas_strategy]. rewrite Hv, bind_Ok.
    rewrite (bind_Ok (StrategyInfo.GetStrategyInfo v, h)). cbn match.
    destruct (IH (fun n Hn => Hreg n (list_elem_of_further _ _ _ Hn))
                (<[k := StrategyInfo.GetStrategyInfo v]> acc))
      as (all & Hrun & Hall).
    exists all. split; [exact Hrun|]. intros name. rewrite Hall.
    destruct (decide (name ∈ keys)) as [Hin|Hnin].
    + rewrite decide_True by (right; exact Hin). reflexivity.
    + destruct (decide (name = k)) as [->|Hne].
      * rewrite decide_True by left. rewrite lookup_insert_eq.
        unfold reported. rewrite Hp, Hv. reflexivity.
      * rewrite lookup_insert_ne by congruence.
        rewrite decide_False; [reflexivity|].
        intros Hin. apply elem_of_cons in Hin as [?|?]; contradiction.
Qed.

(** X26.  The reports of the manager.  When every registered reference is
    to a live object, [GetAllStrategyInfo] returns, whatever the order in
    which the map is visited, the map that holds under each registered name
    the information of its object and nothing under any other name, and it
    leaves the objects as they were; [GetStrategyInfo] returns the same
    entry for a registered name and an error for any other. *)
Theorem GetAllStrategyInfo_reports (sm : StrategyManager pointer)
    (keys : list string) (h : heap) :
  range_order sm keys ->
  (forall name p, strategies sm !! name = Some p -> exists v, deref p h = Ok v) ->
  exists all,
    GetAllStrategyInfo sm keys h = Ok (all, h) /\
    (forall name, all !! name = reported sm h name) /\
    (forall name, is_Some (strategies sm !! name) ->
                  GetStrategyInfo sm name h = Ok (all !! name, None, h)) /\
    (forall name, strategies sm !! name = None ->
                  GetStrategyInfo sm name h
                  = Ok (None, Some ("strategy " +:+ name +:+ " not found"), h)).
Proof.
  intros Hord Hlive.
  destruct (range_order_registered sm keys Hord) as [_ Hreg].
  destruct (info_loop sm h keys) with (acc := (∅ : gmap string StrategyInfo.info))
    as (all & Hrun & Hall).
  { intros name Hin. apply Hreg in Hin as [p Hp].
    destruct (Hlive name p Hp) as [v Hv]. eauto. }
  assert (Hrep : forall name, all !! name = reported sm h name).
  { intros name. rewrite Hall.
    destruct (decide (name ∈ keys)) as [Hin|Hnin]; [reflexivity|].
    rewrite lookup_empty. unfold reported.
    destruct (strategies sm !! name) as [p|] eqn:Hp; [|reflexivity].
    exfalso. apply Hnin. apply Hreg. eauto. }
  exists all. split; [exact Hrun|]. split; [exact Hrep|]. split.
  - intros name [p Hp]. destruct (Hlive name p Hp) as [v Hv].
    rewrite Hrep. unfold reported, GetStrategyInfo, GetStrategy.
    rewrite Hp. cbn [method_GetStrategyInfo vegas_strategy].
    rewrite Hv, bind_Ok. reflexivity.
  - intros name Hp. unfold GetStrategyInfo, GetStrategy. rewrite Hp.
    reflexivity.
Qed.

Lemma GetAllStrategyInfo_reports_witness :
  (range_order app_manager ["vegas_tunnel"] /\
   forall name p, strategies app_manager !! name = Some p ->
                  exists v, deref p app_heap = Ok v) /\
  exists all,
    GetAllStrategyInfo app_manager ["vegas_tunnel"] app_heap
    = Ok (all, app_heap) /\
    forall name, all !! name = reported app_manager app_heap name.
Proof.
  assert (Hord : range_order app_manager ["vegas_tunnel"]).
  { unfold range_order, app_manager. cbn [strategies].
    rewrite map_to_list_singleton. reflexivity. }
  assert (Hlive : forall name p, strategies app_manager !! name = Some p ->
                                 exists v, deref p app_heap = Ok v).
  { intros name p Hp. unfold app_manager in Hp. cbn [strategies] in Hp.
    apply lookup_singleton_Some in Hp as [_ <-].
    exists NewVegasTunnelStrategy. reflexivity. }
  split; [split; assumption|].
  destruct (GetAllStrategyInfo_reports app_manager ["vegas_tunnel"] app_heap
              Hord Hlive) as (all & Hrun & Hrep & _).
  exists all. split; [exact Hrun | exact Hrep].
Defined.

End Reports.
